(** * DifyFlowProvider: a shallow embedding of [src/rag/difyflow.py]

    The retrieval connector fans one query out over several Dify knowledge
    bases, normalises each answer into Documents and Chunks, ranks the
    documents by their best chunk and cuts the ranking to a budget.

    Python values are embedded as follows.
    - [str] is [string]; [int] is [Z].
    - A [raise] is the [Raise] constructor of [result]; [try/except] is
      [try_except].
    - A retrieval payload is a JSON value [json] of any shape; a finite
      float is its rational value, NaN and the infinities are values of
      their own.  [Chunk] and [Document] store such values unchecked.
    - The payload of the dataset directory is a record of the documented
      shape in which every field may be missing: [d.get(k, default)] is
      [get_default].
    - The remote server is a [World]: what [requests.get] and
      [requests.post] answer.
    - What is left to the interpreter (the text of a float, the order of
      lists, a sort without a total order) is a [Python]. *)

From Stdlib Require Import String Ascii List ZArith QArith Bool Lia.
From Stdlib Require Import DecimalString DecimalZ.
From Stdlib Require Import Sorted Permutation.
Import ListNotations.

Local Open Scope string_scope.
Local Open Scope list_scope.
Local Open Scope Z_scope.

Set Implicit Arguments.

(** ** Exceptions and results *)

Inductive exn_class : Type :=
| PyException           (* Exception, raised by the connector itself *)
| PyValueError          (* ValueError *)
| PyAttributeError      (* AttributeError *)
| PyTypeError           (* TypeError *)
| PyRequestException.   (* requests.exceptions.RequestException *)

Record exn : Type := mk_exn { exn_cls : exn_class; exn_msg : string }.

Inductive result (A : Type) : Type :=
| Ok (a : A)
| Raise (e : exn).

Arguments Ok {A} a.
Arguments Raise {A} e.

Definition bind {A B : Type} (m : result A) (k : A -> result B) : result B :=
  match m with
  | Ok a => k a
  | Raise e => Raise e
  end.

Notation "x <- m ;; k" := (bind m (fun x => k))
  (at level 61, m at next level, right associativity).

(** [try: m except Exception as e: h e] *)
Definition try_except {A : Type} (m : result A) (h : exn -> result A)
  : result A :=
  match m with
  | Ok a => Ok a
  | Raise e => h e
  end.

(** [try: m except requests.exceptions.RequestException as e: h e] *)
Definition try_except_request {A : Type} (m : result A) (h : exn -> result A)
  : result A :=
  match m with
  | Ok a => Ok a
  | Raise e =>
      match exn_cls e with
      | PyRequestException => h e
      | _ => Raise e
      end
  end.

(** [d.get(k, default)] on a field that may be missing. *)
Definition get_default {A : Type} (field : option A) (default : A) : A :=
  match field with
  | Some v => v
  | None => default
  end.

(** ** Strings *)

(** [c in s] *)
Fixpoint contains (c : ascii) (s : string) : bool :=
  match s with
  | EmptyString => false
  | String a r => Ascii.eqb a c || contains c r
  end.

(** [s.partition(c)]: the text before the first [c] and the text after it,
    when [c] occurs. *)
Fixpoint partition_at (c : ascii) (s : string) : option (string * string) :=
  match s with
  | EmptyString => None
  | String a r =>
      if Ascii.eqb a c then Some (EmptyString, r)
      else match partition_at c r with
           | Some (b, t) => Some (String a b, t)
           | None => None
           end
  end.

(** [s.split(c)]: never empty, one more piece than occurrences of [c]. *)
Fixpoint str_split (c : ascii) (s : string) : list string :=
  match s with
  | EmptyString => [EmptyString]
  | String a r =>
      if Ascii.eqb a c then EmptyString :: str_split c r
      else match str_split c r with
           | p :: ps => String a p :: ps
           | [] => [String a EmptyString]
           end
  end.

(** [l[-1]] on a list that [str.split] returned. *)
Definition last_part (l : list string) : string := last l EmptyString.

(** [s.startswith(p)] *)
Fixpoint starts_with (p s : string) : bool :=
  match p, s with
  | EmptyString, _ => true
  | String a p', String b s' => Ascii.eqb a b && starts_with p' s'
  | String _ _, EmptyString => false
  end.

Fixpoint drop (n : nat) (s : string) : string :=
  match n, s with
  | O, _ => s
  | S n', String _ r => drop n' r
  | S _, EmptyString => EmptyString
  end.

Fixpoint str_forallb (p : ascii -> bool) (s : string) : bool :=
  match s with
  | EmptyString => true
  | String a r => p a && str_forallb p r
  end.

Fixpoint str_map (f : ascii -> ascii) (s : string) : string :=
  match s with
  | EmptyString => EmptyString
  | String a r => String (f a) (str_map f r)
  end.

Fixpoint str_filter (p : ascii -> bool) (s : string) : string :=
  match s with
  | EmptyString => EmptyString
  | String a r => if p a then String a (str_filter p r) else str_filter p r
  end.

Definition code (c : ascii) : nat := nat_of_ascii c.

Definition in_range (lo hi : nat) (c : ascii) : bool :=
  (Nat.leb lo (code c) && Nat.leb (code c) hi)%bool.

Definition is_upper (c : ascii) : bool := in_range 65 90 c.
Definition is_lower (c : ascii) : bool := in_range 97 122 c.
Definition is_digit (c : ascii) : bool := in_range 48 57 c.
Definition is_ascii (c : ascii) : bool := Nat.ltb (code c) 128.

(** [c.isascii() and c.isalpha()] *)
Definition is_ascii_alpha (c : ascii) : bool := is_upper c || is_lower c.

(** [str.lower] on the characters a scheme may hold. *)
Definition ascii_lower (c : ascii) : ascii :=
  if is_upper c then ascii_of_nat (code c + 32) else c.

(** [str(n)] for an [int]. *)
Definition str_of_Z (z : Z) : string := NilZero.string_of_int (Z.to_int z).

(** ** urllib.parse.urlparse

    CPython's [urlsplit] and [urlparse] (3.12).  [netloc_valid] stands for
    the two library checks of a netloc that are not spelled out here,
    [_check_bracketed_host] and the NFKC test of [_checknetloc]: a netloc
    either passes them or makes [urlparse] raise a [ValueError], whose text
    is the library's. *)

Record ParseResult : Type := mk_parsed
  { scheme : string; netloc : string; path : string;
    params : string; query_part : string; fragment : string }.

(** [_WHATWG_C0_CONTROL_OR_SPACE] *)
Definition is_c0_or_space (c : ascii) : bool := Nat.leb (code c) 32.

(** [url.lstrip(_WHATWG_C0_CONTROL_OR_SPACE)] *)
Fixpoint lstrip_c0 (s : string) : string :=
  match s with
  | EmptyString => EmptyString
  | String a r => if is_c0_or_space a then lstrip_c0 r else s
  end.

(** [_UNSAFE_URL_BYTES_TO_REMOVE]: tab, carriage return, line feed. *)
Definition is_unsafe_byte (c : ascii) : bool :=
  (Nat.eqb (code c) 9 || Nat.eqb (code c) 13 || Nat.eqb (code c) 10)%bool.

Definition remove_unsafe (s : string) : string :=
  str_filter (fun c => negb (is_unsafe_byte c)) s.

(** [scheme_chars]: letters, digits and [+-.] *)
Definition is_scheme_char (c : ascii) : bool :=
  (is_upper c || is_lower c || is_digit c
   || Ascii.eqb c "+" || Ascii.eqb c "-" || Ascii.eqb c ".")%bool.

Definition is_netloc_delim (c : ascii) : bool :=
  (Ascii.eqb c "/" || Ascii.eqb c "?" || Ascii.eqb c "#")%bool.

(** [_splitnetloc(url, 0)] on the text after the leading [//]: the netloc
    runs to the first of [/ ? #]. *)
Fixpoint splitnetloc (s : string) : string * string :=
  match s with
  | EmptyString => (EmptyString, EmptyString)
  | String a r =>
      if is_netloc_delim a then (EmptyString, s)
      else let (n, t) := splitnetloc r in (String a n, t)
  end.

(** The scheme test of [urlsplit]: a colon at a position [i > 0], a first
    character that is an ASCII letter, and only scheme characters before the
    colon. *)
Definition split_scheme (url : string) : string * string :=
  match partition_at ":" url with
  | Some (String a before, after) =>
      if is_ascii_alpha a && str_forallb is_scheme_char (String a before)
      then (str_map ascii_lower (String a before), after)
      else (EmptyString, url)
  | _ => (EmptyString, url)
  end.

(** [uses_params] *)
Definition uses_params : list string :=
  [""; "ftp"; "hdl"; "prospero"; "http"; "imap"; "https"; "shttp"; "rtsp";
   "rtspu"; "sip"; "sips"; "mms"; "sftp"; "tel"].

(** [s.rpartition(c)]: the text up to and including the last [c], and the
    text after it, when [c] occurs. *)
Fixpoint rpartition_at (c : ascii) (s : string) : option (string * string) :=
  match s with
  | EmptyString => None
  | String a r =>
      match rpartition_at c r with
      | Some (b, t) => Some (String a b, t)
      | None => if Ascii.eqb a c then Some (String a EmptyString, r) else None
      end
  end.

(** [_splitparams]: the parameters start at the first [;] of the last path
    segment. *)
Definition splitparams (url : string) : string * string :=
  match rpartition_at "/" url with
  | Some (dirs, seg) =>
      match partition_at ";" seg with
      | Some (b, t) => ((dirs ++ b)%string, t)
      | None => (url, EmptyString)
      end
  | None =>
      match partition_at ";" url with
      | Some (b, t) => (b, t)
      | None => (url, EmptyString)
      end
  end.

Section Urlparse.

Variable netloc_valid : string -> bool.

Definition check_brackets (nl : string) : result unit :=
  let lb := contains "[" nl in
  let rb := contains "]" nl in
  if (lb && negb rb) || (rb && negb lb)
  then Raise (mk_exn PyValueError "Invalid IPv6 URL")
  else if lb && rb
       then if netloc_valid nl then Ok tt
            else Raise (mk_exn PyValueError "invalid netloc")
       else Ok tt.

(** [_checknetloc]: nothing to check on an empty or ASCII netloc. *)
Definition checknetloc (nl : string) : result unit :=
  if str_forallb is_ascii nl then Ok tt
  else if netloc_valid nl then Ok tt
       else Raise (mk_exn PyValueError "invalid netloc").

Definition urlparse (url0 : string) : result ParseResult :=
  let url := remove_unsafe (lstrip_c0 url0) in
  let (sch, url) := split_scheme url in
  nl_url <- (if starts_with "//" url
             then let (nl, rest) := splitnetloc (drop 2 url) in
                  _ <- check_brackets nl ;; Ok (nl, rest)
             else Ok (EmptyString, url)) ;;
  let (nl, url) := nl_url : string * string in
  let (url, frag) :=
    match partition_at "#" url with
    | Some (b, t) => (b, t)
    | None => (url, EmptyString)
    end in
  let (url, qry) :=
    match partition_at "?" url with
    | Some (b, t) => (b, t)
    | None => (url, EmptyString)
    end in
  _ <- checknetloc nl ;;
  let (url, prm) :=
    if (existsb (String.eqb sch) uses_params && contains ";" url)%bool
    then splitparams url
    else (url, EmptyString) in
  Ok (mk_parsed sch nl url prm qry frag).

(** ** The URI codec *)

(** [DifyFlowProvider._parse_uri] *)
Definition _parse_uri (uri : string) : result (option string) :=
  try_except
    (parsed <- urlparse uri ;;
     if negb (String.eqb (scheme parsed) "dify") then Ok None
     else
       let path_parts := str_split "/" (path parsed) in
       Ok (Some (last_part path_parts)))
    (fun _ => Ok None).

(** module-level [parse_uri] *)
Definition parse_uri (uri : string) : result (string * string) :=
  parsed <- urlparse uri ;;
  if negb (String.eqb (scheme parsed) "dify")
  then Raise (mk_exn PyValueError ("Invalid URI scheme: " ++ uri)%string)
  else
    let path_parts := str_split "/" (path parsed) in
    if (Nat.ltb (length path_parts) 3
        || negb (String.eqb (nth 1 path_parts EmptyString)
                            "knowledge_base"))%bool
    then Raise (mk_exn PyValueError ("Invalid Dify URI format: " ++ uri)%string)
    else
      let knowledge_base_id := nth 2 path_parts EmptyString in
      let document_id :=
        if (Nat.leb 5 (length path_parts)
            && String.eqb (nth 3 path_parts EmptyString) "document")%bool
        then nth 4 path_parts EmptyString
        else EmptyString in
      Ok (knowledge_base_id, document_id).

End Urlparse.


(** ** JSON values

    What [response.json()] returns.  [JFloat] is a finite [float]; [JNaN]
    and [JInf] are the floats [json.loads] builds from [NaN], [Infinity]
    and [-Infinity].  An object lists its pairs in the order of the text;
    a lookup sees the last pair of a repeated key. *)

Set Warnings "-register-all".

Inductive json : Type :=
| JNull
| JBool (b : bool)
| JInt (z : Z)
| JFloat (q : Q)
| JNaN
| JInf (negative : bool)
| JStr (s : string)
| JArr (items : list json)
| JObj (pairs : list (string * json)).

(** [type(v).__name__] *)
Definition type_name (v : json) : string :=
  match v with
  | JNull => "NoneType"
  | JBool _ => "bool"
  | JInt _ => "int"
  | JFloat _ | JNaN | JInf _ => "float"
  | JStr _ => "str"
  | JArr _ => "list"
  | JObj _ => "dict"
  end.

Fixpoint obj_lookup (k : string) (m : list (string * json)) : option json :=
  match m with
  | [] => None
  | (k', v) :: r =>
      match obj_lookup k r with
      | Some v' => Some v'
      | None => if String.eqb k' k then Some v else None
      end
  end.

(** [v.get(k, default)]: only a [dict] has the method, and only a missing
    key gives the default (a key mapped to [null] gives [None]). *)
Definition py_get (v : json) (k : string) (default : json) : result json :=
  match v with
  | JObj m => Ok (get_default (obj_lookup k m) default)
  | _ => Raise (mk_exn PyAttributeError
                  ("'" ++ type_name v ++ "' object has no attribute 'get'"))
  end.

(** The items of [for x in v]: the elements of a list, the keys of a dict,
    the characters of a string; nothing else is iterable. *)
Definition py_iter (v : json) : result (list json) :=
  match v with
  | JArr l => Ok l
  | JObj m => Ok (map JStr (nodup string_dec (map fst m)))
  | JStr s => Ok (map (fun c => JStr (String c EmptyString))
                      (list_ascii_of_string s))
  | _ => Raise (mk_exn PyTypeError
                  ("'" ++ type_name v ++ "' object is not iterable"))
  end.

(** *** Numbers and their order *)

(** The value of a number that is not NaN. *)
Inductive number : Type :=
| NegInf
| Finite (q : Q)
| PosInf.

(** [bool], [int] and [float] compare with each other by value. *)
Definition is_number (v : json) : bool :=
  match v with
  | JBool _ | JInt _ | JFloat _ | JNaN | JInf _ => true
  | _ => false
  end.

Definition number_of (v : json) : option number :=
  match v with
  | JBool b => Some (Finite (if b then 1 else 0))
  | JInt z => Some (Finite (inject_Z z))
  | JFloat q => Some (Finite q)
  | JInf negative => Some (if negative then NegInf else PosInf)
  | _ => None
  end.

Definition number_leb (x y : number) : bool :=
  match x, y with
  | NegInf, _ => true
  | _, PosInf => true
  | Finite p, Finite q => Qle_bool p q
  | _, _ => false
  end.

Definition number_ltb (x y : number) : bool := negb (number_leb y x).

Definition is_str (v : json) : bool :=
  match v with
  | JStr _ => true
  | _ => false
  end.

Definition is_arr (v : json) : bool :=
  match v with
  | JArr _ => true
  | _ => false
  end.

(** ** Data model ([src.rag.retriever])

    [Chunk] and [Document] are plain classes: their constructors store what
    they are given, whatever its type. *)

Record Resource : Type := mk_resource
  { uri : string; title : string; description : string }.

Record Chunk : Type := mk_chunk
  { content : json; similarity : json }.

Record Document : Type := mk_document
  { id : string; doc_title : json; chunks : list Chunk }.

(** ** What is left to the interpreter

    The text [str] gives a float, a list or a dict; the order of two
    lists; and what [list.sort] does when its keys have no total order
    (lists, or numbers with a NaN among them) or cannot be compared. *)
Record Python : Type := mk_python
  { py_repr : json -> string;
    list_lt : list json -> list json -> result bool;
    sort_unordered : list (json * Document) -> result (list Document);
    sort_message : list json -> string;
    (* whatever order it leaves, a sort only rearranges the list *)
    sort_unordered_perm :
      forall keys docs, sort_unordered keys = Ok docs ->
                        Permutation docs (map snd keys) }.

(** [str(v)], which is what an f-string field shows. *)
Definition py_str (py : Python) (v : json) : string :=
  match v with
  | JStr s => s
  | JNull => "None"
  | JBool true => "True"
  | JBool false => "False"
  | JInt z => str_of_Z z
  | JNaN => "nan"
  | JInf false => "inf"
  | JInf true => "-inf"
  | _ => py_repr py v
  end.

(** [a < b] where the two types support it. *)
Definition py_lt_opt (py : Python) (a b : json) : option (result bool) :=
  if is_number a && is_number b
  then Some (Ok match number_of a, number_of b with
                | Some x, Some y => number_ltb x y
                | _, _ => false
                end)
  else match a, b with
       | JStr s, JStr t => Some (Ok (String.ltb s t))
       | JArr l, JArr m => Some (list_lt py l m)
       | _, _ => None
       end.

Definition compare_error (op : string) (a b : json) : exn :=
  mk_exn PyTypeError
         ("'" ++ op ++ "' not supported between instances of '"
          ++ type_name a ++ "' and '" ++ type_name b ++ "'").

(** [a < b] *)
Definition py_lt (py : Python) (a b : json) : result bool :=
  match py_lt_opt py a b with
  | Some r => r
  | None => Raise (compare_error "<" a b)
  end.

(** [a > b] *)
Definition py_gt (py : Python) (a b : json) : result bool :=
  match py_lt_opt py b a with
  | Some r => r
  | None => Raise (compare_error ">" a b)
  end.

(** ** Payloads of the dataset directory *)

Record Dataset : Type := mk_dataset
  { ds_id : option string; ds_name : option string;
    ds_description : option string }.

Record DatasetList : Type := mk_dataset_list
  { data : option (list Dataset) }.

(** ** The HTTP layer ([requests]) *)

Record Response (A : Type) : Type := mk_response
  { status_code : Z; text : string; json_body : option A }.

(** [response.json()]: a body that is not JSON raises
    [requests.exceptions.JSONDecodeError], a [RequestException]. *)
Definition response_json {A : Type} (r : Response A) : result A :=
  match json_body r with
  | Some v => Ok v
  | None => Raise (mk_exn PyRequestException "Expecting value")
  end.

(** What the server answers: [http_post url query] is the outcome of
    [requests.post(url, json={"query": query})], [http_get url keyword] that
    of [requests.get(url, params={page, limit[, keyword]})]; a transport
    failure or a timeout is a [Raise].  One call of the provider requests
    each URL at most once (the targets are distinct), so a function of the
    request says all a server could do. *)
Record World : Type := mk_world
  { http_post : string -> string -> result (Response json);
    http_get : string -> option string -> result (Response DatasetList) }.


(** ** The provider *)

Record DifyFlowProvider : Type := mk_provider
  { api_url : string; api_key : string;
    page_size : Z; max_knowledge_bases : Z }.

(** [l[:n]] *)
Definition slice_to {A : Type} (n : Z) (l : list A) : list A :=
  if n <? 0 then firstn (Z.to_nat (Z.of_nat (length l) + n)) l
  else firstn (Z.to_nat n) l.

(** Truth value of a [str]. *)
Definition truthy (s : string) : bool := negb (String.eqb s EmptyString).

(** Truth value of a [str | None]. *)
Definition truthy_opt (s : option string) : bool :=
  match s with
  | Some s => truthy s
  | None => false
  end.

(** [needle in hay] *)
Fixpoint substr_in (needle hay : string) : bool :=
  starts_with needle hay ||
  match hay with
  | EmptyString => false
  | String _ r => substr_in needle r
  end.

(** *** Insertion-ordered [dict] with [str] keys *)

Definition dict (V : Type) : Type := list (string * V).

Definition dict_mem {V : Type} (k : string) (m : dict V) : bool :=
  existsb (fun e => String.eqb (fst e) k) m.

(** [m[k] = v] *)
Definition dict_set {V : Type} (k : string) (v : V) (m : dict V) : dict V :=
  if dict_mem k m
  then map (fun e => if String.eqb (fst e) k then (k, v) else e) m
  else m ++ [(k, v)].

(** In-place mutation of the object stored under [k]. *)
Definition dict_modify {V : Type} (k : string) (f : V -> V) (m : dict V)
  : dict V :=
  map (fun e => if String.eqb (fst e) k then (fst e, f (snd e)) else e) m.

(** [list(m.values())] *)
Definition dict_values {V : Type} (m : dict V) : list V := map snd m.

(** *** [_parse_dify_response] *)

Definition append_chunk (c : Chunk) (d : Document) : Document :=
  mk_document (id d) (doc_title d) (chunks d ++ [c]).

Definition unique_doc_id_of (knowledge_base_id original_doc_id : string) (n : Z)
  : string :=
  (knowledge_base_id ++ "_" ++ original_doc_id ++ "_" ++ str_of_Z n)%string.

(** One pass of the loop of lines 231-255.  A record, a segment or a
    segment document that is not an object has no [get]. *)
Definition parse_record (py : Python) (knowledge_base_id : string)
  (doc_id_offset : Z) (doc_map : dict Document) (record : json)
  : result (dict Document) :=
  segment <- py_get record "segment" (JObj []) ;;
  score <- py_get record "score" (JFloat 0) ;;
  original_doc_id <- py_get segment "document_id" (JStr "") ;;
  document <- py_get segment "document" (JObj []) ;;
  doc_name <- py_get document "name" (JStr "") ;;
  content <- py_get segment "content" (JStr "") ;;
  let unique_doc_id :=
    unique_doc_id_of knowledge_base_id (py_str py original_doc_id)
      (doc_id_offset + Z.of_nat (length doc_map)) in
  let doc_map :=
    if negb (dict_mem unique_doc_id doc_map)
    then dict_set unique_doc_id
           (mk_document unique_doc_id
              (if truthy knowledge_base_id
               then JStr ("[" ++ knowledge_base_id ++ "] "
                          ++ py_str py doc_name)%string
               else doc_name)
              [])
           doc_map
    else doc_map in
  let chunk := mk_chunk content score in
  Ok (dict_modify unique_doc_id (append_chunk chunk) doc_map).

Fixpoint for_each {A S : Type} (body : S -> A -> result S) (l : list A) (s : S)
  : result S :=
  match l with
  | [] => Ok s
  | x :: r => s' <- body s x ;; for_each body r s'
  end.

Definition _parse_dify_response (py : Python) (response : json)
  (knowledge_base_id : string) (doc_id_offset : Z) : result (list Document) :=
  records <- py_get response "records" (JArr []) ;;
  items <- py_iter records ;;
  doc_map <-
    for_each (parse_record py knowledge_base_id doc_id_offset) items [] ;;
  Ok (dict_values doc_map).

(** *** Ranking *)

(** [max(xs)] on a non-empty sequence: the first greatest element, found
    with [item > maxval]. *)
Definition py_max (py : Python) (x : json) (xs : list json) : result json :=
  for_each (fun maxval item =>
              greater <- py_gt py item maxval ;;
              Ok (if greater then item else maxval))
           xs x.

(** The sort key of line 141:
    [max(chunk.similarity for chunk in doc.chunks) if doc.chunks else 0]. *)
Definition sort_key (py : Python) (doc : Document) : result json :=
  match chunks doc with
  | [] => Ok (JInt 0)
  | c :: cs => py_max py (similarity c) (map similarity cs)
  end.

(** A stable sort that puts greater keys first: elements with equal keys
    keep their order. *)
Section StableSort.

Variables K A : Type.
Variable leb : K -> K -> bool.

Fixpoint insert_desc (x : K * A) (l : list (K * A)) : list (K * A) :=
  match l with
  | [] => [x]
  | y :: ys =>
      if leb (fst y) (fst x) then x :: y :: ys
      else y :: insert_desc x ys
  end.

Definition sort_desc (l : list (K * A)) : list (K * A) :=
  fold_right insert_desc [] l.

End StableSort.

(** [[f(x) for x in l]], stopping at the first exception. *)
Fixpoint map_result {A B : Type} (f : A -> result B) (l : list A)
  : result (list B) :=
  match l with
  | [] => Ok []
  | x :: r => y <- f x ;; ys <- map_result f r ;; Ok (y :: ys)
  end.

(** The keys as numbers, when every one is a number other than NaN. *)
Fixpoint numbered {A : Type} (l : list (json * A))
  : option (list (number * A)) :=
  match l with
  | [] => Some []
  | (k, a) :: r =>
      match number_of k, numbered r with
      | Some n, Some r' => Some ((n, a) :: r')
      | _, _ => None
      end
  end.

(** The keys as strings, when every one is a string. *)
Fixpoint worded {A : Type} (l : list (json * A))
  : option (list (string * A)) :=
  match l with
  | [] => Some []
  | (JStr s, a) :: r =>
      match worded r with
      | Some r' => Some ((s, a) :: r')
      | None => None
      end
  | _ :: _ => None
  end.

(** [a < b] on two numbers: false when one is NaN. *)
Definition number_lt (a b : json) : bool :=
  match number_of a, number_of b with
  | Some x, Some y => number_ltb x y
  | _, _ => false
  end.

(** No key is less than the next one. *)
Fixpoint single_run (keys : list json) : bool :=
  match keys with
  | a :: (b :: _) as r => negb (number_lt a b) && single_run r
  | _ => true
  end.

(** [docs.sort(key=sort_key, reverse=True)].

    The keys are computed first.  A list of fewer than two elements is not
    compared at all.  Numbers other than NaN, and strings, are totally
    ordered and the sort is stable.  Numbers with a NaN among them are
    left as they are when no key is less than the next one (the merge sort
    finds a single run); otherwise, and for keys that are lists, the
    outcome is the interpreter's.  Any other keys ([None], a dict, or keys
    of two kinds) meet an unsupported comparison: [TypeError]. *)
Definition list_sort_reverse (py : Python) (docs : list Document)
  : result (list Document) :=
  keys <- map_result (fun doc => k <- sort_key py doc ;; Ok (k, doc)) docs ;;
  if (length docs <? 2)%nat then Ok docs
  else
    match numbered keys, worded keys with
    | Some l, _ => Ok (map snd (sort_desc number_leb l))
    | None, Some l => Ok (map snd (sort_desc String.leb l))
    | None, None =>
        if forallb (fun e => is_number (fst e)) keys
        then if single_run (map fst keys) then Ok docs
             else sort_unordered py keys
        else if forallb (fun e => is_arr (fst e)) keys
             then sort_unordered py keys
             else Raise (mk_exn PyTypeError (sort_message py (map fst keys)))
    end.

(** *** The fan-out loop state *)

Record FanOut : Type := mk_fanout
  { all_documents : list Document;
    doc_id_counter : Z;
    posted : list (string * string);  (* the requests sent: URL and query *)
    error_log : list string }.        (* what [logging.error] received *)

Definition fanout_init : FanOut := mk_fanout [] 0 [] [].

Definition log_error (msg : string) (st : FanOut) : FanOut :=
  mk_fanout (all_documents st) (doc_id_counter st) (posted st)
            (error_log st ++ [msg]).

Definition note_post (url query : string) (st : FanOut) : FanOut :=
  mk_fanout (all_documents st) (doc_id_counter st)
            (posted st ++ [(url, query)]) (error_log st).

Definition extend_documents (documents : list Document) (st : FanOut)
  : FanOut :=
  mk_fanout (all_documents st ++ documents)
            (doc_id_counter st + Z.of_nat (length documents))
            (posted st) (error_log st).

Section Provider.


Variable netloc_valid : string -> bool.   (* library netloc checks *)
Variable str_lower : string -> string.    (* [str.lower] *)
Variable py : Python.
Variable w : World.
Variable self : DifyFlowProvider.

Definition datasets_url : string := (api_url self ++ "/datasets")%string.

Definition retrieve_url (kb_id : string) : string :=
  (api_url self ++ "/datasets/" ++ kb_id ++ "/retrieve")%string.

(** [str(x)] of a [str | None] inside an f-string. *)
Definition fmt_opt (x : option string) : string := get_default x "None".

(** One pass of the loop of lines 189-204. *)
Definition list_resources_step (query : option string)
  (resources : list Resource) (dataset : Dataset) : list Resource :=
  let dataset_id := ds_id dataset in
  let dataset_name := get_default (ds_name dataset) EmptyString in
  let dataset_description := get_default (ds_description dataset) EmptyString in
  if (truthy_opt query
      && negb (substr_in (str_lower (get_default query EmptyString))
                         (str_lower dataset_name))
      && negb (substr_in (str_lower (get_default query EmptyString))
                         (str_lower dataset_description)))%bool
  then resources
  else resources ++
       [mk_resource ("dify://dataset/" ++ fmt_opt dataset_id)%string
                    dataset_name dataset_description].

(** [list_resources] *)
Definition list_resources (query : option string) : result (list Resource) :=
  try_except_request
    (let keyword := if truthy_opt query then query else None in
     response <- http_get w datasets_url keyword ;;
     if negb (status_code response =? 200)
     then Raise (mk_exn PyException
                   ("Failed to list Dify datasets: "
                    ++ str_of_Z (status_code response) ++ " - "
                    ++ text response)%string)
     else
       result <- response_json response ;;
       Ok (fold_left (list_resources_step query)
                     (get_default (data result) []) []))
    (fun e => Raise (mk_exn PyException
                       ("Network error while listing Dify datasets: "
                        ++ exn_msg e)%string)).

(** The body shared by the two loops of lines 67-70 and 75-78. *)
Definition add_target (knowledge_base_ids : list string) (resource : Resource)
  : result (list string) :=
  kb_id <- _parse_uri netloc_valid (uri resource) ;;
  if (truthy_opt kb_id
      && negb (existsb (String.eqb (get_default kb_id EmptyString))
                       knowledge_base_ids))%bool
  then Ok (knowledge_base_ids ++ [get_default kb_id EmptyString])
  else Ok knowledge_base_ids.

(** Lines 62-80: which knowledge bases to query. *)
Definition resolve_targets (resources : list Resource) : result (list string) :=
  match resources with
  | _ :: _ => for_each add_target resources []
  | [] =>
      try_except
        (all_resources <- list_resources None ;;
         for_each add_target
                  (slice_to (max_knowledge_bases self) all_resources) [])
        (fun e =>
           Raise (mk_exn PyException
                    ("Failed to get knowledge bases: " ++ exn_msg e)%string))
  end.

(** [requests.post(url, headers=headers, json={"query": query}, timeout=30)]:
    the request is sent, which the log records, and the server answers. *)
Definition requests_post (url query : string) (st : FanOut)
  : result (Response json) * FanOut :=
  (http_post w url query, note_post url query st).

(** The [try] block of lines 90-133 for one knowledge base: its outcome,
    and the state the request left. *)
Definition query_source (query : string) (st : FanOut) (kb_id : string)
  : result FanOut * FanOut :=
  let (answer, st) := requests_post (retrieve_url kb_id) query st in
  (response <- answer ;;
   if status_code response =? 200
   then
     result <- response_json response ;;
     documents <- _parse_dify_response py result kb_id (doc_id_counter st) ;;
     Ok (extend_documents documents st)
   else
     Ok (log_error ("Warning: Failed to query knowledge base " ++ kb_id ++ ": "
                    ++ str_of_Z (status_code response) ++ " - "
                    ++ text response)%string st),
   st).

(** One pass of the loop of lines 89-138. *)
Definition fan_out_step (query : string) (st : FanOut) (kb_id : string)
  : FanOut :=
  match query_source query st kb_id with
  | (Ok st', _) => st'
  | (Raise e, st') =>
      log_error ("Warning: Network error while querying knowledge base "
                 ++ kb_id ++ ": " ++ exn_msg e)%string st'
  end.

Definition fan_out (query : string) (knowledge_base_ids : list string)
  (st : FanOut) : FanOut :=
  fold_left (fan_out_step query) knowledge_base_ids st.

(** Lines 140-147: rank, then cut to the budget.  The sort is outside the
    [try] of the loop: what it raises leaves the method. *)
Definition rank_and_truncate (n_targets : nat) (docs : list Document)
  : result (list Document) :=
  sorted <- list_sort_reverse py docs ;;
  let max_total_results := page_size self * Z.of_nat n_targets in
  Ok (slice_to max_total_results sorted).

(** [query_relevant_documents] *)
Definition query_relevant_documents (query : string) (resources : list Resource)
  : result (list Document) :=
  knowledge_base_ids <- resolve_targets resources ;;
  match knowledge_base_ids with
  | [] => Raise (mk_exn PyException "No knowledge bases available for querying")
  | _ :: _ =>
      let st := fan_out query knowledge_base_ids fanout_init in
      rank_and_truncate (length knowledge_base_ids) (all_documents st)
  end.

End Provider.

(** ** Concrete servers used in the examples *)

Definition no_netloc_check : string -> bool := fun _ => true.
Definition lower_ascii : string -> string := str_map ascii_lower.

(** The interpreter of the examples.  They format strings only and sort
    neither lists nor numbers out of order around a NaN, so the first three
    answers are never asked for; the message of a failed sort is that of
    its first comparison, of the last key but one with the last, which is
    where the sorts of the examples fail. *)
Definition example_python : Python :=
  mk_python (fun _ => "<repr>")
            (fun _ _ => Ok false)
            (fun keys => Ok (map snd keys))
            (fun keys => match rev keys with
                         | a :: b :: _ => exn_msg (compare_error "<" b a)
                         | _ => ""
                         end)
            (fun keys docs H =>
               match H in (_ = r)
                     return match r with
                            | Ok l => Permutation l (map snd keys)
                            | Raise _ => True
                            end
               with
               | eq_refl => Permutation_refl (map snd keys)
               end).

Definition rec_with (doc_id name body : string) (score : json) : json :=
  JObj [("segment",
         JObj [("document_id", JStr doc_id);
               ("document", JObj [("name", JStr name)]);
               ("content", JStr body)]);
        ("score", score)].

Definition rec_of (doc_id name body : string) (score : Q) : json :=
  rec_with doc_id name body (JFloat score).

Definition ok_response (rs : list json) : Response json :=
  mk_response 200 "{...}" (Some (JObj [("records", JArr rs)])).

(** A document of one chunk with a title, a text and a float score. *)
Definition doc1 (id title body : string) (score : Q) : Document :=
  mk_document id (JStr title) [mk_chunk (JStr body) (JFloat score)].

Definition provider0 : DifyFlowProvider :=
  mk_provider "http://dify/v1" "key" 10 10.

(** The scenario of the specification: [kbA] answers two records of document
    [d1], [kbB] one record of a document also called [d1]. *)
Definition kbA_records : list json :=
  [rec_of "d1" "report" "first" (9 # 10);
   rec_of "d1" "report" "second" (4 # 10)].
Definition kbB_records : list json :=
  [rec_of "d1" "notes" "third" (7 # 10)].

Definition world_AB : World :=
  mk_world
    (fun url _ =>
       if String.eqb url "http://dify/v1/datasets/kbA/retrieve"
       then Ok (ok_response kbA_records)
       else if String.eqb url "http://dify/v1/datasets/kbB/retrieve"
       then Ok (ok_response kbB_records)
       else Ok (mk_response 404 "not found" None))
    (fun _ _ =>
       Ok (mk_response 200 "{...}"
             (Some (mk_dataset_list
                      (Some [mk_dataset (Some "kbA") (Some "Alpha")
                                        (Some "Finance reports");
                             mk_dataset (Some "kbB") (Some "Beta") None]))))).

Definition res_of (u : string) : Resource := mk_resource u "" "".

(** A server whose every retrieval request times out. *)
Definition world_down : World :=
  mk_world
    (fun _ _ => Raise (mk_exn PyRequestException "Read timed out."))
    (http_get world_AB).

(** A knowledge base whose records tie on the score. *)
Definition kbT_records : list json :=
  [rec_of "t1" "a" "x" (5 # 10); rec_of "t2" "b" "y" (9 # 10);
   rec_of "t3" "c" "z" (5 # 10)].

Definition world_T : World :=
  mk_world
    (fun url _ =>
       if String.eqb url "http://dify/v1/datasets/kbT/retrieve"
       then Ok (ok_response kbT_records)
       else Raise (mk_exn PyRequestException "Connection refused"))
    (http_get world_AB).

(** A knowledge base that scores one record NaN, and one that scores a
    record [null]. *)
Definition kbN_records : list json :=
  [rec_of "n1" "a" "x" (5 # 10); rec_with "n2" "b" "y" JNaN;
   rec_of "n3" "c" "z" (9 # 10)].

Definition kbU_records : list json :=
  [rec_of "u1" "a" "x" (5 # 10); rec_with "u2" "b" "y" JNull].

(** A knowledge base with a record whose segment is [null]. *)
Definition kbS_records : list json :=
  [rec_of "s1" "a" "x" (5 # 10); JObj [("segment", JNull); ("score", JInt 1)]].

Definition world_N : World :=
  mk_world
    (fun url _ =>
       if String.eqb url "http://dify/v1/datasets/kbN/retrieve"
       then Ok (ok_response kbN_records)
       else if String.eqb url "http://dify/v1/datasets/kbU/retrieve"
       then Ok (ok_response kbU_records)
       else if String.eqb url "http://dify/v1/datasets/kbS/retrieve"
       then Ok (ok_response kbS_records)
       else if String.eqb url "http://dify/v1/datasets/kbT/retrieve"
       then Ok (ok_response kbT_records)
       else Raise (mk_exn PyRequestException "Connection refused"))
    (http_get world_AB).

Definition provider_small : DifyFlowProvider :=
  mk_provider "http://dify/v1" "key" 1 1.

Definition provider_negative : DifyFlowProvider :=
  mk_provider "http://dify/v1" "key" (-1) 10.

Definition resources_ACB : list Resource :=
  [res_of "dify://dataset/kbA"; res_of "dify://dataset/kbC";
   res_of "dify://dataset/kbB"].

(** The numeric tail of a synthesized document id: the text after the last
    underscore. *)
Definition id_suffix (s : string) : string :=
  match rpartition_at "_" s with
  | Some (_, t) => t
  | None => s
  end.

(** ** What the normaliser reads from a payload *)

Record Fields : Type := mk_fields
  { f_doc_id : json; f_name : json; f_content : json; f_score : json }.

(** The four values the loop body of lines 232-238 takes from a record. *)
Definition record_fields (record : json) : result Fields :=
  segment <- py_get record "segment" (JObj []) ;;
  score <- py_get record "score" (JFloat 0) ;;
  original_doc_id <- py_get segment "document_id" (JStr "") ;;
  document <- py_get segment "document" (JObj []) ;;
  doc_name <- py_get document "name" (JStr "") ;;
  content <- py_get segment "content" (JStr "") ;;
  Ok (mk_fields original_doc_id doc_name content score).

Definition payload_fields (response : json) : result (list Fields) :=
  records <- py_get response "records" (JArr []) ;;
  items <- py_iter records ;;
  map_result record_fields items.

Definition record_title (py : Python) (kb : string) (f : Fields) : json :=
  if truthy kb then JStr ("[" ++ kb ++ "] " ++ py_str py (f_name f))%string
  else f_name f.

(** What one record becomes when it is the [n]-th entry of [doc_map]. *)
Definition document_of_record (py : Python) (kb : string) (off : Z) (n : nat)
  (f : Fields) : Document :=
  mk_document (unique_doc_id_of kb (py_str py (f_doc_id f)) (off + Z.of_nat n))
              (record_title py kb f) [mk_chunk (f_content f) (f_score f)].

Fixpoint one_per_record (py : Python) (kb : string) (off : Z) (n : nat)
  (fs : list Fields) : list Document :=
  match fs with
  | [] => []
  | f :: fs' =>
      document_of_record py kb off n f :: one_per_record py kb off (S n) fs'
  end.

(** Every key of [m] ends in the decimal of [off + j] for some [j] below the
    size of [m]. *)
Definition keys_below (off : Z) (m : dict Document) : Prop :=
  Forall (fun e => exists j, (j < length m)%nat /\
                             id_suffix (fst e) = str_of_Z (off + Z.of_nat j)) m.

(** ** Scores that can be ranked *)

(** Every chunk of the document is scored with a number other than NaN. *)
Definition scored (d : Document) : bool :=
  forallb (fun c => match number_of (similarity c) with
                    | Some _ => true
                    | None => false
                    end) (chunks d).

Definition number_max (x y : number) : number :=
  if number_leb y x then x else y.

(** The best score of a document: the greatest of its chunks' scores, 0
    for a document without chunks. *)
Definition best_score (d : Document) : number :=
  match chunks d with
  | [] => Finite 0
  | c :: cs =>
      fold_left (fun m c' => match number_of (similarity c') with
                             | Some n => number_max m n
                             | None => m
                             end)
                cs
                (match number_of (similarity c) with
                 | Some n => n
                 | None => Finite 0
                 end)
  end.

(** ** What one source contributes *)

Section Sources.

Variable py : Python.
Variable w : World.
Variable self : DifyFlowProvider.
Variable query : string.

(** The JSON body of an answer with status 200. *)
Definition source_payload (kb_id : string) : option json :=
  match http_post w (retrieve_url self kb_id) query with
  | Ok r => if status_code r =? 200 then json_body r else None
  | Raise _ => None
  end.

(** A source succeeds when its request returns status 200 with a JSON body
    that the normaliser can read; it fails on any other status, on a
    transport error or timeout, on a body that is not JSON and on a payload
    the normaliser raises on. *)
Definition source_ok (kb_id : string) : bool :=
  match source_payload kb_id with
  | Some v => match payload_fields v with
              | Ok _ => true
              | Raise _ => false
              end
  | None => false
  end.

(** The documents of a source that succeeds, normalised at offset [off]. *)
Definition source_documents (kb_id : string) (off : Z) : list Document :=
  match source_payload kb_id with
  | Some v => match _parse_dify_response py v kb_id off with
              | Ok documents => documents
              | Raise _ => []
              end
  | None => []
  end.

(** The documents of the sources of [ids] that succeed, in the order of
    [ids], each normalised at the running offset. *)
Fixpoint union_documents (ids : list string) (off : Z) : list Document :=
  match ids with
  | [] => []
  | kb :: rest =>
      if source_ok kb
      then let docs := source_documents kb off in
           docs ++ union_documents rest (off + Z.of_nat (length docs))
      else union_documents rest off
  end.

End Sources.


(** ** Target resolution without the error plumbing *)

Section Targets.

Variable netloc_valid : string -> bool.

(** The knowledge-base id a resource contributes: what [_parse_uri] returns
    when that is a non-empty string. *)
Definition target_of (resource : Resource) : option string :=
  match _parse_uri netloc_valid (uri resource) with
  | Ok (Some kb) => if truthy kb then Some kb else None
  | _ => None
  end.

(** The unique ids of [resources] in first-seen order, after [seen]. *)
Definition targets_from (resources : list Resource) (seen : list string)
  : list string :=
  fold_left
    (fun ids r =>
       match target_of r with
       | Some kb => if existsb (String.eqb kb) ids then ids else ids ++ [kb]
       | None => ids
       end)
    resources seen.

End Targets.

Definition with_max_knowledge_bases (m : Z) (self : DifyFlowProvider)
  : DifyFlowProvider :=
  mk_provider (api_url self) (api_key self) (page_size self) m.

(** The decimal tails [off], [off + 1], ... of [n] consecutive ids. *)
Definition suffixes_from (off : Z) (n : nat) : list string :=
  map (fun i => str_of_Z (off + Z.of_nat i)) (seq 0 n).

(** ** The directory filter *)

Section Directory.

Variable str_lower : string -> string.

(** The test of line 196, for a query [q] that was given. *)
Definition matches_query (q name descr : string) : Prop :=
  substr_in (str_lower q) (str_lower name) = true \/
  substr_in (str_lower q) (str_lower descr) = true.

(** A dataset passes the filter of line 196 (it is not skipped). *)
Definition dataset_kept (query : option string) (ds : Dataset) : bool :=
  negb (truthy_opt query
        && negb (substr_in (str_lower (get_default query EmptyString))
                           (str_lower (get_default (ds_name ds) EmptyString)))
        && negb (substr_in (str_lower (get_default query EmptyString))
                           (str_lower (get_default (ds_description ds)
                                                   EmptyString)))).

End Directory.

Definition resource_of_dataset (ds : Dataset) : Resource :=
  mk_resource ("dify://dataset/" ++ get_default (ds_id ds) "None")%string
              (get_default (ds_name ds) EmptyString)
              (get_default (ds_description ds) EmptyString).

(** An id that survives [urlparse] unchanged as one path segment: no [/],
    [?] or [#], and no tab, carriage return or line feed. *)
Definition is_simple_id (s : string) : bool :=
  str_forallb (fun c => negb (is_netloc_delim c) && negb (is_unsafe_byte c)) s.

(** The distinct elements of [l] in first-seen order, after [seen]. *)
Definition first_seen_from (seen l : list string) : list string :=
  fold_left
    (fun acc k => if existsb (String.eqb k) acc then acc else acc ++ [k])
    l seen.

(** The id under which the directory lists a dataset: its [id], or the
    text [None] when the field is missing. *)
Definition dataset_key (ds : Dataset) : string := get_default (ds_id ds) "None".

(** [world_AB] with a directory endpoint that is unreachable. *)
Definition world_AB_no_directory : World :=
  mk_world (http_post world_AB)
           (fun _ _ => Raise (mk_exn PyRequestException "Connection refused")).

(** A directory that answers 503. *)
Definition world_503 : World :=
  mk_world (http_post world_AB)
           (fun _ _ => Ok (mk_response 503 "busy" None)).

(** A directory that lists a dataset twice and one without an id. *)
Definition listing_dup : list Dataset :=
  [mk_dataset (Some "kbA") (Some "Alpha") None;
   mk_dataset (Some "kbB") None None;
   mk_dataset (Some "kbA") (Some "Alpha") None;
   mk_dataset None (Some "Nameless") None].

Definition world_dup : World :=
  mk_world (http_post world_AB)
           (fun _ _ => Ok (mk_response 200 "{...}"
                             (Some (mk_dataset_list (Some listing_dup))))).

(** A netloc that [urlparse] takes as it is: ASCII, no [/ ? #], no
    brackets, no tab, carriage return or line feed. *)
Definition is_plain_netloc (s : string) : bool :=
  str_forallb (fun c => negb (is_netloc_delim c) && negb (is_unsafe_byte c)
                        && negb (Ascii.eqb c "[") && negb (Ascii.eqb c "]")
                        && is_ascii c) s.

(** A path that [urlparse] takes as it is: empty or starting with [/], and
    without [? #], tab, carriage return or line feed. *)
Definition is_clean_path (s : string) : bool :=
  match s with
  | EmptyString => true
  | String a _ => Ascii.eqb a "/"
  end &&
  str_forallb (fun c => negb (Ascii.eqb c "?") && negb (Ascii.eqb c "#")
                        && negb (is_unsafe_byte c)) s.

(** ** Construction of the provider *)

Section Init.

Variable py_int : string -> result Z.        (* [int(s)] *)
Variable getenv : string -> option string.   (* [os.getenv] *)

(** An optional integer setting: the class default when the variable is
    unset or empty, [int] of its text otherwise. *)
Definition int_setting (name : string) (default : Z) : result Z :=
  let v := getenv name in
  if truthy_opt v then py_int (get_default v EmptyString) else Ok default.

(** [DifyFlowProvider.__init__] *)
Definition __init__ : result DifyFlowProvider :=
  let api_url := getenv "DIFY_API_URL" in
  if negb (truthy_opt api_url)
  then Raise (mk_exn PyValueError "DIFY_API_URL is not set")
  else
    let api_key := getenv "DIFY_API_KEY" in
    if negb (truthy_opt api_key)
    then Raise (mk_exn PyValueError "DIFY_API_KEY is not set")
    else
      page_size <- int_setting "DIFY_PAGE_SIZE" 10 ;;
      max_kb <- int_setting "DIFY_MAX_KNOWLEDGE_BASES" 10 ;;
      Ok (mk_provider (get_default api_url EmptyString)
                      (get_default api_key EmptyString) page_size max_kb).

End Init.

(** [int] on the decimal numerals used in the examples. *)
Definition int_of_numeral (s : string) : result Z :=
  match NilZero.int_of_string s with
  | Some d => Ok (Z.of_int d)
  | None => Raise (mk_exn PyValueError
                     ("invalid literal for int() with base 10: " ++ s)%string)
  end.

Definition env_example (name : string) : option string :=
  if String.eqb name "DIFY_API_URL" then Some "http://dify/v1"%string
  else if String.eqb name "DIFY_API_KEY" then Some "key"%string
  else if String.eqb name "DIFY_PAGE_SIZE" then Some ""%string
  else if String.eqb name "DIFY_MAX_KNOWLEDGE_BASES" then Some "3"%string
  else None.

(** ** The PPT generator node ([src/ppt/graph/ppt_generator_node.py])

    The node runs on a host: a file system, of which the node only asks
    whether a path exists, and the [marp] command, which may change it.
    Paths are compared as strings. *)

Module PptNode.

Inductive error : Type :=
| FileNotFoundError (msg : string)
| RuntimeError (msg : string)
| OtherError (msg : string).   (* any other exception the host raises *)

(** [str(e)] *)
Definition error_text (e : error) : string :=
  match e with
  | FileNotFoundError m | RuntimeError m | OtherError m => m
  end.

Inductive outcome (A : Type) : Type :=
| Returned (a : A)
| Raised (e : error).

Arguments Returned {A} a.
Arguments Raised {A} e.

Inductive level : Type := INFO | WARNING | ERROR.

(** What [subprocess.run(..., check=True)] does. *)
Inductive completed : Type :=
| Completed (stdout stderr : string)     (* exit status 0 *)
| CalledProcessError (stderr : string)   (* another exit status *)
| SpawnFailed (e : error).               (* the command could not be run *)

(** [os.path.exists] *)
Definition fs : Type := string -> bool.

Record Host : Type := mk_host
  { getcwd : outcome string;                          (* [os.getcwd()] *)
    uuid4 : outcome string;                           (* [str(uuid.uuid4())] *)
    read_text : fs -> string -> outcome string;       (* [open(p).read()] *)
    run_marp : fs -> string -> string -> completed * fs;
    getsize : fs -> string -> outcome Z;              (* [os.path.getsize] *)
    remove_error : fs -> string -> option error }.    (* [os.remove] fails *)

(** The file system after a successful [os.remove(p)]. *)
Definition fs_remove (p : string) (f : fs) : fs :=
  fun q => if String.eqb q p then false else f q.

Fixpoint ends_with_slash (s : string) : bool :=
  match s with
  | EmptyString => false
  | String a EmptyString => Ascii.eqb a "/"
  | String _ r => ends_with_slash r
  end.

(** [os.path.join(a, b)] (posix) *)
Definition path_join (a b : string) : string :=
  if starts_with "/" b then b
  else if (negb (truthy a) || ends_with_slash a)%bool then (a ++ b)%string
  else (a ++ "/" ++ b)%string.

Record PPTState : Type := mk_state { ppt_file_path : option string }.

Record Run : Type := mk_run
  { result : outcome string;          (* the [generated_file_path] returned *)
    files : fs;                       (* the file system afterwards *)
    commands : list (list string);    (* what [subprocess.run] was given *)
    log : list (level * string) }.

Definition marp_command (input output : string) : list string :=
  ["marp"; input; "-o"; output; "--no-stdin"; "--allow-local-files"]%string.

(** Lines 37-72: the [try] block with its two [except] clauses. *)
Definition convert (h : Host) (done : completed) (f1 : fs)
  (generated_file_path : string) : outcome unit * list (level * string) :=
  match done with
  | Completed stdout stderr =>
      let l := [(INFO, "Marp conversion successful: " ++ stdout)%string] ++
               (if truthy stderr
                then [(WARNING, "Marp stderr: " ++ stderr)%string] else []) in
      if negb (f1 generated_file_path)
      then
        let m := ("Generated PPT file not found: "
                  ++ generated_file_path)%string in
        (Raised (FileNotFoundError m),
         l ++ [(ERROR, m);
               (ERROR, "Unexpected error during PPT generation: " ++ m)%string])
      else
        match getsize h f1 generated_file_path with
        | Returned file_size =>
            (Returned tt,
             l ++ [(INFO, "Generated PPT file size: " ++ str_of_Z file_size
                          ++ " bytes")%string])
        | Raised e =>
            (Raised e,
             l ++ [(ERROR, "Unexpected error during PPT generation: "
                           ++ error_text e)%string])
        end
  | CalledProcessError stderr =>
      (Raised (RuntimeError ("Marp conversion failed: " ++ stderr)%string),
       [(ERROR, "Marp conversion failed: " ++ stderr)%string])
  | SpawnFailed e =>
      (Raised e,
       [(ERROR, "Unexpected error during PPT generation: "
                ++ error_text e)%string])
  end.

(** Lines 74-81: the [finally] block. *)
Definition cleanup (h : Host) (f1 : fs) (ppt_file_path : string)
  : fs * list (level * string) :=
  if f1 ppt_file_path
  then match remove_error h f1 ppt_file_path with
       | None =>
           (fs_remove ppt_file_path f1,
            [(INFO, "Removed temp file: " ++ ppt_file_path)%string])
       | Some e =>
           (f1, [(WARNING, "Failed to remove temp file " ++ ppt_file_path
                           ++ ": " ++ error_text e)%string])
       end
  else (f1, []).

(** [ppt_generator_node] *)
Definition ppt_generator_node (h : Host) (f : fs) (state : PPTState) : Run :=
  let log0 := [(INFO, "Generating ppt file..."%string)] in
  let ppt_file_path := get_default (ppt_file_path state) EmptyString in
  if (negb (truthy ppt_file_path) || negb (f ppt_file_path))%bool
  then
    let m := ("PPT file not found: " ++ ppt_file_path)%string in
    mk_run (Raised (FileNotFoundError m)) f [] (log0 ++ [(ERROR, m)])
  else
    let log1 :=
      log0 ++
      [match read_text h f ppt_file_path with
       | Returned text =>
           (INFO, "Input file content preview: "
                  ++ String.substring 0 200 text)%string
       | Raised e =>
           (WARNING, "Could not read input file for preview: "
                     ++ error_text e)%string
       end] in
    (* lines 33-35 are outside the [try]: what they raise leaves the node
       before [marp] is run, and the [finally] block is not entered *)
    match getcwd h with
    | Raised e => mk_run (Raised e) f [] log1
    | Returned cwd =>
    match uuid4 h with
    | Raised e => mk_run (Raised e) f [] log1
    | Returned uuid =>
    let generated_file_path :=
      path_join cwd ("generated_ppt_" ++ uuid ++ ".pptx") in
    let (done, f1) := run_marp h f ppt_file_path generated_file_path in
    let (converted, log2) := convert h done f1 generated_file_path in
    let (f2, log3) := cleanup h f1 ppt_file_path in
    match converted with
    | Returned _ =>
        mk_run (Returned generated_file_path) f2
               [marp_command ppt_file_path generated_file_path]
               (log1 ++ log2 ++ log3 ++
                [(INFO, "generated_file_path: " ++ generated_file_path)%string])
    | Raised e =>
        mk_run (Raised e) f2
               [marp_command ppt_file_path generated_file_path]
               (log1 ++ log2 ++ log3)
    end
    end
    end.

(** A host on which [marp] writes the output file and leaves the rest. *)
Definition host_ok : Host :=
  mk_host (Returned "/work"%string) (Returned "0000"%string)
          (fun _ _ => Returned "# slides"%string)
          (fun f _ out =>
             (Completed "done" "", fun q => String.eqb q out || f q))
          (fun _ _ => Returned 2048)
          (fun _ _ => None).

(** A host whose working directory has been deleted. *)
Definition host_no_cwd : Host :=
  mk_host (Raised (FileNotFoundError "[Errno 2] No such file or directory"))
          (Returned "0000"%string)
          (fun _ _ => Returned "# slides"%string)
          (fun f _ out =>
             (Completed "done" "", fun q => String.eqb q out || f q))
          (fun _ _ => Returned 2048)
          (fun _ _ => None).

(** A host on which [marp] exits with status 1. *)
Definition host_failing : Host :=
  mk_host (Returned "/work"%string) (Returned "0000"%string)
          (fun _ _ => Returned "# slides"%string)
          (fun f _ _ => (CalledProcessError "bad markdown", f))
          (fun _ _ => Returned 0)
          (fun _ _ => None).

Definition fs_with_input : fs := fun q => String.eqb q "/tmp/in.md".

End PptNode.

(** [l1] is an initial segment of [l2]. *)
Definition prefix_of {A : Type} (l1 l2 : list A) : Prop :=
  exists t, l2 = l1 ++ t.

Definition number_eqb (x y : number) : bool :=
  number_leb x y && number_leb y x.

(** Descending order of the best score. *)
Definition key_ge (a b : Document) : Prop :=
  number_leb (best_score b) (best_score a) = true.

(** The documents with their best scores, greatest first, ties in the
    order of [docs]. *)
Definition ranked (docs : list Document) : list Document :=
  map snd (sort_desc number_leb (map (fun d => (best_score d, d)) docs)).

(** The documents of [l] whose best score equals [k], in the order of [l]. *)
Definition with_key (k : number) (l : list Document) : list Document :=
  filter (fun d => number_eqb (best_score d) k) l.

Unset Implicit Arguments.

(** * Facts about strings *)

Lemma str_app_assoc (a b c : string) :
  ((a ++ b) ++ c = a ++ (b ++ c))%string.
Proof.
  induction a as [|x a IH]; simpl; [reflexivity|]. now rewrite IH.
Qed.

Lemma contains_app c a b :
  contains c (a ++ b)%string = (contains c a || contains c b)%bool.
Proof.
  induction a as [|x a IH]; simpl; [reflexivity|].
  rewrite IH. now rewrite orb_assoc.
Qed.

Lemma rpartition_at_none c s :
  contains c s = false -> rpartition_at c s = None.
Proof.
  induction s as [|a s IH]; simpl; [reflexivity|].
  intros H. apply orb_false_iff in H as [Ha Hs].
  rewrite (IH Hs). now rewrite Ha.
Qed.

Lemma rpartition_at_last c a t :
  contains c t = false ->
  rpartition_at c (a ++ String c t)%string =
  Some ((a ++ String c "")%string, t).
Proof.
  intros Ht. induction a as [|x a IH]; simpl.
  - rewrite (rpartition_at_none _ _ Ht). now rewrite Ascii.eqb_refl.
  - now rewrite IH.
Qed.

Lemma digits_no_underscore d :
  contains "_" (NilEmpty.string_of_uint d) = false.
Proof.
  induction d; simpl; auto.
Qed.

Lemma str_of_Z_no_underscore z : contains "_" (str_of_Z z) = false.
Proof.
  unfold str_of_Z, NilZero.string_of_int, NilZero.string_of_uint.
  destruct (Z.to_int z) as [d|d]; destruct d; simpl;
    auto using digits_no_underscore.
Qed.

Lemma to_int_proper z : Z.to_int z <> Decimal.Pos Decimal.Nil /\
                        Z.to_int z <> Decimal.Neg Decimal.Nil.
Proof.
  destruct z as [|p|p]; simpl; split; try discriminate;
    intros H; injection H as H;
    now apply DecimalPos.Unsigned.to_uint_nonnil in H.
Qed.

Lemma str_of_Z_inj a b : str_of_Z a = str_of_Z b -> a = b.
Proof.
  unfold str_of_Z. intros H.
  apply DecimalZ.to_int_inj.
  destruct (to_int_proper a) as [Ha1 Ha2], (to_int_proper b) as [Hb1 Hb2].
  pose proof (NilZero.isi _ Ha1 Ha2) as Ea.
  pose proof (NilZero.isi _ Hb1 Hb2) as Eb.
  rewrite H in Ea. rewrite Ea in Eb. now injection Eb.
Qed.

Lemma id_suffix_unique_doc_id kb orig n :
  id_suffix (unique_doc_id_of kb orig n) = str_of_Z n.
Proof.
  unfold id_suffix, unique_doc_id_of.
  replace (kb ++ "_" ++ orig ++ "_" ++ str_of_Z n)%string
    with ((kb ++ "_" ++ orig) ++ String "_" (str_of_Z n))%string.
  - now rewrite rpartition_at_last by apply str_of_Z_no_underscore.
  - now rewrite !str_app_assoc.
Qed.

(** * The response normaliser gives every record a document of its own *)

Lemma dict_mem_false_iff (V : Type) k (m : dict V) :
  dict_mem k m = false <-> Forall (fun e => fst e <> k) m.
Proof.
  unfold dict_mem. induction m as [|e m IH]; simpl.
  - split; auto.
  - rewrite orb_false_iff, IH. split.
    + intros [He Hm]. constructor; auto.
      now apply String.eqb_neq.
    + intros H. inversion H; subst. split; auto.
      now apply String.eqb_neq.
Qed.

Lemma dict_modify_absent (V : Type) k (f : V -> V) (m : dict V) :
  dict_mem k m = false -> dict_modify k f m = m.
Proof.
  rewrite dict_mem_false_iff. unfold dict_modify.
  induction 1 as [|e m He _ IH]; simpl; [reflexivity|].
  apply String.eqb_neq in He. rewrite He. now rewrite IH.
Qed.

Lemma dict_modify_snoc (V : Type) k (f : V -> V) (m : dict V) v :
  dict_mem k m = false ->
  dict_modify k f (m ++ [(k, v)]) = m ++ [(k, f v)].
Proof.
  intros H. unfold dict_modify. rewrite map_app.
  fold (dict_modify k f m). rewrite (dict_modify_absent _ _ _ _ H).
  simpl. now rewrite String.eqb_refl.
Qed.

Lemma keys_below_fresh off m kb orig :
  keys_below off m ->
  dict_mem (unique_doc_id_of kb orig (off + Z.of_nat (length m))) m = false.
Proof.
  intros H. apply dict_mem_false_iff.
  unfold keys_below in H. rewrite Forall_forall in H |- *.
  intros e He Heq. destruct (H e He) as (j & Hj & Hs).
  rewrite Heq, id_suffix_unique_doc_id in Hs.
  apply str_of_Z_inj in Hs. lia.
Qed.

Lemma keys_below_snoc off m kb orig d :
  keys_below off m ->
  keys_below off
    (m ++ [(unique_doc_id_of kb orig (off + Z.of_nat (length m)), d)]).
Proof.
  intros H. unfold keys_below in *. rewrite Forall_forall in H |- *.
  intros e He. rewrite length_app. simpl.
  apply in_app_or in He as [He|[<-|[]]].
  - destruct (H e He) as (j & Hj & Hs). exists j. split; [lia|exact Hs].
  - exists (length m). split; [lia|]. simpl. apply id_suffix_unique_doc_id.
Qed.

Lemma parse_record_fresh py kb off m r :
  keys_below off m ->
  parse_record py kb off m r =
  (f <- record_fields r ;;
   Ok (m ++ [(unique_doc_id_of kb (py_str py (f_doc_id f))
                               (off + Z.of_nat (length m)),
              document_of_record py kb off (length m) f)])).
Proof.
  intros H. unfold parse_record, record_fields, bind.
  destruct (py_get r "segment" (JObj [])) as [segment|e]; [|reflexivity].
  destruct (py_get r "score" (JFloat 0)) as [score|e]; [|reflexivity].
  destruct (py_get segment "document_id" (JStr "")) as [orig|e];
    [|reflexivity].
  destruct (py_get segment "document" (JObj [])) as [document|e];
    [|reflexivity].
  destruct (py_get document "name" (JStr "")) as [name|e]; [|reflexivity].
  destruct (py_get segment "content" (JStr "")) as [body|e]; [|reflexivity].
  pose proof (keys_below_fresh off m kb (py_str py orig) H) as Hfresh.
  rewrite Hfresh. cbn [negb]. cbv iota.
  unfold dict_set. rewrite Hfresh.
  rewrite dict_modify_snoc by exact Hfresh.
  reflexivity.
Qed.

Lemma for_each_parse_record py kb off items : forall m,
  keys_below off m ->
  for_each (parse_record py kb off) items m =
  (fs <- map_result record_fields items ;;
   Ok (m ++ map (fun d => (id d, d)) (one_per_record py kb off (length m) fs))).
Proof.
  induction items as [|r items IH]; intros m H; cbn [for_each map_result].
  - cbn. now rewrite app_nil_r.
  - rewrite (parse_record_fresh py kb off m r H).
    unfold bind at 1 3.
    destruct (record_fields r) as [f|e]; [|reflexivity].
    cbn [bind]. rewrite IH by now apply keys_below_snoc.
    unfold bind.
    destruct (map_result record_fields items) as [fs|e]; [|reflexivity].
    rewrite length_app, <- app_assoc.
    cbn [length Nat.add app map one_per_record].
    now rewrite Nat.add_1_r.
Qed.

(** The normaliser raises exactly when reading the payload does, and
    otherwise makes one document of every record. *)
Lemma parse_response_one_per_record py resp kb off :
  _parse_dify_response py resp kb off =
  (fs <- payload_fields resp ;; Ok (one_per_record py kb off 0 fs)).
Proof.
  unfold _parse_dify_response, payload_fields, bind.
  destruct (py_get resp "records" (JArr [])) as [records|e]; [|reflexivity].
  destruct (py_iter records) as [items|e]; [|reflexivity].
  pose proof (for_each_parse_record py kb off items [] (Forall_nil _)) as E.
  unfold bind in E. rewrite E.
  destruct (map_result record_fields items) as [fs|e]; [|reflexivity].
  unfold dict_values. cbn [app length]. rewrite map_map. cbn [snd].
  now rewrite map_id.
Qed.

Lemma one_per_record_length py kb off fs : forall n,
  length (one_per_record py kb off n fs) = length fs.
Proof.
  induction fs as [|f fs IH]; intros n; simpl; [reflexivity|].
  now rewrite IH.
Qed.

Lemma one_per_record_suffixes py kb off fs : forall n,
  map (fun d => id_suffix (id d)) (one_per_record py kb off n fs) =
  map (fun i => str_of_Z (off + Z.of_nat i)) (seq n (length fs)).
Proof.
  induction fs as [|f fs IH]; intros n; simpl; [reflexivity|].
  rewrite id_suffix_unique_doc_id. now rewrite IH.
Qed.

(** * The fan-out loop *)

Section FanOutFacts.

Variable py : Python.
Variable w : World.
Variable self : DifyFlowProvider.
Variable query : string.

Lemma fan_out_step_documents st kb :
  all_documents (fan_out_step py w self query st kb) =
    all_documents st ++
    (if source_ok w self query kb
     then source_documents py w self query kb (doc_id_counter st) else []) /\
  doc_id_counter (fan_out_step py w self query st kb) =
    doc_id_counter st +
    Z.of_nat (length (if source_ok w self query kb
                      then source_documents py w self query kb
                                            (doc_id_counter st)
                      else [])) /\
  posted (fan_out_step py w self query st kb) =
    posted st ++ [(retrieve_url self kb, query)].
Proof.
  unfold fan_out_step, query_source, requests_post, source_ok,
    source_documents, source_payload, response_json.
  destruct (http_post w (retrieve_url self kb) query) as [r|e]; cbn.
  - destruct (status_code r =? 200); cbn.
    + destruct (json_body r) as [v|]; cbn.
      * rewrite parse_response_one_per_record.
        destruct (payload_fields v) as [fs|e]; cbn.
        -- repeat split.
        -- rewrite app_nil_r, Z.add_0_r. repeat split.
      * rewrite app_nil_r, Z.add_0_r. repeat split.
    + rewrite app_nil_r, Z.add_0_r. repeat split.
  - rewrite app_nil_r, Z.add_0_r. repeat split.
Qed.

Lemma fan_out_documents ids : forall st,
  all_documents (fan_out py w self query ids st) =
    all_documents st ++
    union_documents py w self query ids (doc_id_counter st) /\
  doc_id_counter (fan_out py w self query ids st) =
    doc_id_counter st +
    Z.of_nat (length (union_documents py w self query ids
                                      (doc_id_counter st))) /\
  posted (fan_out py w self query ids st) =
    posted st ++ map (fun kb => (retrieve_url self kb, query)) ids.
Proof.
  induction ids as [|kb ids IH]; intros st; simpl.
  - rewrite !app_nil_r, Z.add_0_r. repeat split.
  - destruct (fan_out_step_documents st kb) as (Hd & Hc & Hp).
    destruct (IH (fan_out_step py w self query st kb)) as (Hd' & Hc' & Hp').
    unfold fan_out in *. rewrite Hd', Hc', Hp'. rewrite Hd, Hc, Hp.
    destruct (source_ok w self query kb); simpl.
    + rewrite length_app, <- !app_assoc. repeat split. lia.
    + rewrite app_nil_r, Z.add_0_r, <- !app_assoc. repeat split.
Qed.

(** A source that fails contributes nothing and leaves the offset alone:
    dropping it from the targets changes no document. *)
Lemma union_documents_skip_failed f ids : forall off,
  source_ok w self query f = false ->
  union_documents py w self query ids off =
  union_documents py w self query
    (filter (fun k => negb (String.eqb k f)) ids) off.
Proof.
  induction ids as [|kb ids IH]; intros off Hf; simpl; [reflexivity|].
  destruct (String.eqb_spec kb f) as [->|Hne]; simpl.
  - rewrite Hf. now apply IH.
  - destruct (source_ok w self query kb).
    + now rewrite IH.
    + now apply IH.
Qed.

Lemma union_documents_all_failed ids : forall off,
  (forall k, In k ids -> source_ok w self query k = false) ->
  union_documents py w self query ids off = [].
Proof.
  induction ids as [|kb ids IH]; intros off H; simpl; [reflexivity|].
  rewrite (H kb) by now left. apply IH. intros k Hk. apply H. now right.
Qed.

(** Every document of the union comes from a source of [ids] that
    succeeded. *)
Lemma union_documents_origin ids : forall off d,
  In d (union_documents py w self query ids off) ->
  exists kb o, In kb ids /\ source_ok w self query kb = true /\
               In d (source_documents py w self query kb o).
Proof.
  induction ids as [|kb ids IH]; intros off d; simpl; [tauto|].
  destruct (source_ok w self query kb) eqn:Hok.
  - intros H. apply in_app_or in H as [H|H].
    + exists kb, off. auto.
    + destruct (IH _ _ H) as (kb' & o & Hin & Hok' & Hd).
      exists kb', o. auto.
  - intros H. destruct (IH _ _ H) as (kb' & o & Hin & Hok' & Hd).
    exists kb', o. auto.
Qed.

End FanOutFacts.

(** * Ranking: the sort is a stable descending sort, the slice a prefix *)

Section SortFacts.

Variables K A : Type.
Variable leb : K -> K -> bool.
Hypothesis leb_total : forall a b, leb a b = false -> leb b a = true.
Hypothesis leb_trans :
  forall a b c, leb a b = true -> leb b c = true -> leb a c = true.

Lemma insert_desc_perm (x : K * A) l :
  Permutation (insert_desc leb x l) (x :: l).
Proof.
  induction l as [|y ys IH]; simpl; [reflexivity|].
  destruct (leb (fst y) (fst x)); [reflexivity|].
  rewrite IH. apply perm_swap.
Qed.

Lemma sort_desc_perm (l : list (K * A)) : Permutation (sort_desc leb l) l.
Proof.
  induction l as [|x l IH]; simpl; [reflexivity|].
  rewrite insert_desc_perm. now constructor.
Qed.

Lemma insert_desc_sorted (x : K * A) l :
  StronglySorted (fun a b => leb (fst b) (fst a) = true) l ->
  StronglySorted (fun a b => leb (fst b) (fst a) = true)
                 (insert_desc leb x l).
Proof.
  induction 1 as [|y ys Hs IH Hall]; simpl.
  - repeat constructor.
  - destruct (leb (fst y) (fst x)) eqn:E.
    + constructor.
      * now constructor.
      * constructor; [exact E|].
        eapply Forall_impl; [|exact Hall].
        intros z Hz. cbv beta in Hz |- *. eapply leb_trans; eauto.
    + constructor; [exact IH|].
      eapply Permutation_Forall.
      * symmetry. apply insert_desc_perm.
      * constructor; [|exact Hall]. now apply leb_total.
Qed.

Lemma sort_desc_sorted (l : list (K * A)) :
  StronglySorted (fun a b => leb (fst b) (fst a) = true) (sort_desc leb l).
Proof.
  induction l as [|x l IH]; simpl; [constructor|].
  now apply insert_desc_sorted.
Qed.

(** Stability: inserting [x] moves it past strictly greater keys only, so
    the elements of any one key keep their order. *)
Lemma insert_desc_stable k (x : K * A) l :
  filter (fun e => leb (fst e) k && leb k (fst e)) (insert_desc leb x l) =
  filter (fun e => leb (fst e) k && leb k (fst e)) (x :: l).
Proof.
  induction l as [|y ys IH]; [reflexivity|].
  simpl insert_desc.
  destruct (leb (fst y) (fst x)) eqn:E; [reflexivity|].
  simpl in *. rewrite IH.
  destruct (leb (fst x) k && leb k (fst x)) eqn:Ex; [|reflexivity].
  destruct (leb (fst y) k && leb k (fst y)) eqn:Ey; [|reflexivity].
  exfalso. apply andb_prop in Ex, Ey.
  assert (Hle : leb (fst y) (fst x) = true)
    by (eapply leb_trans; [apply Ey|apply Ex]).
  congruence.
Qed.

Lemma sort_desc_stable k (l : list (K * A)) :
  filter (fun e => leb (fst e) k && leb k (fst e)) (sort_desc leb l) =
  filter (fun e => leb (fst e) k && leb k (fst e)) l.
Proof.
  induction l as [|x l IH]; [reflexivity|].
  simpl sort_desc. rewrite insert_desc_stable.
  simpl. now rewrite IH.
Qed.

End SortFacts.

Lemma number_leb_total a b : number_leb a b = false -> number_leb b a = true.
Proof.
  destruct a as [|p|], b as [|q|]; simpl; try congruence.
  intros H. apply Qle_bool_iff.
  destruct (Qlt_le_dec q p) as [Hlt|Hle].
  - now apply Qlt_le_weak.
  - apply Qle_bool_iff in Hle. congruence.
Qed.

Lemma number_leb_trans a b c :
  number_leb a b = true -> number_leb b c = true -> number_leb a c = true.
Proof.
  destruct a as [|p|], b as [|q|], c as [|r|]; simpl; try congruence.
  rewrite !Qle_bool_iff. apply Qle_trans.
Qed.

Lemma number_leb_refl a : number_leb a a = true.
Proof.
  destruct a; simpl; try reflexivity. apply Qle_bool_iff, Qle_refl.
Qed.

Lemma key_ge_trans a b c : key_ge a b -> key_ge b c -> key_ge a c.
Proof. unfold key_ge. intros H1 H2. eapply number_leb_trans; eauto. Qed.

Lemma ranked_perm l : Permutation (ranked l) l.
Proof.
  unfold ranked.
  rewrite (sort_desc_perm _ _ number_leb). rewrite map_map. cbn [snd].
  now rewrite map_id.
Qed.

Lemma sorted_map_snd (l : list (number * Document)) :
  Forall (fun e => fst e = best_score (snd e)) l ->
  StronglySorted (fun a b => number_leb (fst b) (fst a) = true) l ->
  StronglySorted key_ge (map snd l).
Proof.
  intros Hk Hs. induction Hs as [|e l Hs IH Hall]; simpl; [constructor|].
  inversion Hk as [|? ? He Hl]; subst.
  constructor; [now apply IH|].
  rewrite Forall_map. rewrite Forall_forall in Hall, Hl |- *.
  intros z Hz. unfold key_ge. rewrite <- He, <- (Hl z Hz). now apply Hall.
Qed.

Lemma keyed_best_score l :
  Forall (fun e : number * Document => fst e = best_score (snd e))
         (map (fun d => (best_score d, d)) l).
Proof. rewrite Forall_map. now apply Forall_forall. Qed.

Lemma ranked_sorted l : StronglySorted key_ge (ranked l).
Proof.
  unfold ranked. apply sorted_map_snd.
  - eapply Permutation_Forall; [|apply keyed_best_score].
    symmetry. apply sort_desc_perm.
  - apply sort_desc_sorted; [apply number_leb_total|apply number_leb_trans].
Qed.

Lemma filter_map_snd k (l : list (number * Document)) :
  Forall (fun e => fst e = best_score (snd e)) l ->
  with_key k (map snd l) =
  map snd (filter (fun e => number_leb (fst e) k && number_leb k (fst e)) l).
Proof.
  unfold with_key, number_eqb.
  induction 1 as [|e l He _ IH]; simpl; [reflexivity|].
  rewrite <- He, IH.
  now destruct (number_leb (fst e) k && number_leb k (fst e)).
Qed.

Lemma ranked_stable k l : with_key k (ranked l) = with_key k l.
Proof.
  unfold ranked. rewrite filter_map_snd.
  - rewrite sort_desc_stable by apply number_leb_trans.
    rewrite <- filter_map_snd by apply keyed_best_score.
    rewrite map_map. cbn [snd]. now rewrite map_id.
  - eapply Permutation_Forall; [|apply keyed_best_score].
    symmetry. apply sort_desc_perm.
Qed.

Lemma slice_to_firstn (A : Type) n (l : list A) :
  exists m, slice_to n l = firstn m l.
Proof.
  unfold slice_to. destruct (n <? 0); eauto.
Qed.

Lemma slice_to_prefix (A : Type) n (l : list A) : prefix_of (slice_to n l) l.
Proof.
  destruct (slice_to_firstn A n l) as [m ->].
  exists (skipn m l). symmetry. apply firstn_skipn.
Qed.

Lemma slice_to_length (A : Type) n (l : list A) :
  0 <= n -> Z.of_nat (length (slice_to n l)) <= n.
Proof.
  intros Hn. unfold slice_to.
  destruct (Z.ltb_spec n 0); [lia|].
  rewrite length_firstn. lia.
Qed.

Lemma prefix_sorted (l1 l2 : list Document) :
  prefix_of l1 l2 -> StronglySorted key_ge l2 -> StronglySorted key_ge l1.
Proof.
  intros [t ->]. induction l1 as [|x l1 IH]; simpl; intros H; [constructor|].
  inversion H as [|? ? Hs Hall]; subst. constructor; [auto|].
  apply Forall_app in Hall. tauto.
Qed.

Lemma prefix_NoDup (A : Type) (l1 l2 : list A) :
  prefix_of l1 l2 -> NoDup l2 -> NoDup l1.
Proof.
  intros [t ->] H. eapply NoDup_app_remove_r; eauto.
Qed.

Lemma prefix_map (A B : Type) (f : A -> B) (l1 l2 : list A) :
  prefix_of l1 l2 -> prefix_of (map f l1) (map f l2).
Proof.
  intros [t ->]. exists (map f t). apply map_app.
Qed.

Lemma prefix_with_key k l1 l2 :
  prefix_of l1 l2 -> prefix_of (with_key k l1) (with_key k l2).
Proof.
  intros [t ->]. exists (with_key k t). apply filter_app.
Qed.

Lemma prefix_In (A : Type) (l1 l2 : list A) x :
  prefix_of l1 l2 -> In x l1 -> In x l2.
Proof.
  intros [t ->] H. apply in_or_app. now left.
Qed.

(** * The sort key of a document whose scores are numbers *)

Lemma number_of_is_number v n : number_of v = Some n -> is_number v = true.
Proof. destruct v; simpl; congruence. Qed.

Lemma py_gt_numbers py a b x y :
  number_of a = Some x -> number_of b = Some y ->
  py_gt py a b = Ok (negb (number_leb x y)).
Proof.
  intros Ha Hb. unfold py_gt, py_lt_opt.
  rewrite (number_of_is_number _ _ Ha), (number_of_is_number _ _ Hb).
  cbn [andb]. rewrite Ha, Hb. reflexivity.
Qed.

Lemma py_max_numbers py cs : forall v m,
  number_of v = Some m ->
  forallb (fun c => match number_of (similarity c) with
                    | Some _ => true
                    | None => false
                    end) cs = true ->
  exists k,
    py_max py v (map similarity cs) = Ok k /\
    number_of k =
    Some (fold_left (fun m c' => match number_of (similarity c') with
                                 | Some n => number_max m n
                                 | None => m
                                 end) cs m).
Proof.
  unfold py_max.
  induction cs as [|c cs IH]; intros v m Hv Hcs; cbn [map for_each fold_left].
  - exists v. split; [reflexivity|exact Hv].
  - cbn [forallb] in Hcs. apply andb_prop in Hcs as [Hc Hcs].
    destruct (number_of (similarity c)) as [n|] eqn:En; [|discriminate].
    rewrite (py_gt_numbers py _ _ n m En Hv). cbn [bind].
    unfold number_max at 2.
    destruct (number_leb n m); cbn [negb].
    + now apply IH.
    + now apply IH.
Qed.

(** The key of a scored document is a number, its best score. *)
Lemma sort_key_scored py d :
  scored d = true ->
  exists k, sort_key py d = Ok k /\ number_of k = Some (best_score d).
Proof.
  unfold scored, sort_key, best_score. destruct (chunks d) as [|c cs].
  - intros _. exists (JInt 0). split; reflexivity.
  - cbn [forallb]. intros H. apply andb_prop in H as [Hc Hcs].
    destruct (number_of (similarity c)) as [n|] eqn:En; [|discriminate].
    now apply py_max_numbers.
Qed.

Lemma keys_scored py docs :
  forallb scored docs = true ->
  exists keys,
    map_result (fun doc => k <- sort_key py doc ;; Ok (k, doc)) docs = Ok keys
    /\ numbered keys = Some (map (fun d => (best_score d, d)) docs).
Proof.
  induction docs as [|d docs IH]; cbn [forallb map_result map].
  - intros _. exists []. split; reflexivity.
  - intros H. apply andb_prop in H as [Hd Hds].
    destruct (sort_key_scored py d Hd) as (k & Ek & En).
    destruct (IH Hds) as (keys & Eks & Enum).
    exists ((k, d) :: keys). rewrite Ek. cbn [bind]. rewrite Eks. cbn [bind].
    split; [reflexivity|]. cbn [numbered]. now rewrite En, Enum.
Qed.

(** Scored documents are ranked: greatest best score first, ties in the
    order they had. *)
Lemma list_sort_reverse_scored py docs :
  forallb scored docs = true ->
  list_sort_reverse py docs = Ok (ranked docs).
Proof.
  intros H. unfold list_sort_reverse.
  destruct (keys_scored py docs H) as (keys & -> & Enum). cbn [bind].
  rewrite Enum. fold (ranked docs).
  destruct (length docs <? 2)%nat eqn:El; [|reflexivity].
  apply Nat.ltb_lt in El.
  destruct docs as [|a [|b r]]; [reflexivity|reflexivity|simpl in El; lia].
Qed.

(** * Target resolution *)

Section ResolveFacts.

Variable netloc_valid : string -> bool.
Variable str_lower : string -> string.
Variable w : World.

(** The lenient decoder has a handler for every exception. *)
Lemma _parse_uri_total u : exists v, _parse_uri netloc_valid u = Ok v.
Proof.
  unfold _parse_uri, try_except, bind.
  destruct (urlparse netloc_valid u) as [p|e]; [|eauto].
  destruct (negb (String.eqb (scheme p) "dify")); eauto.
Qed.

Lemma add_target_spec ids r :
  add_target netloc_valid ids r =
  Ok (match target_of netloc_valid r with
      | Some kb => if existsb (String.eqb kb) ids then ids else ids ++ [kb]
      | None => ids
      end).
Proof.
  unfold add_target, target_of.
  destruct (_parse_uri_total (uri r)) as [v ->]. simpl.
  destruct v as [kb|]; simpl; [|reflexivity].
  destruct (truthy kb); simpl; [|reflexivity].
  now destruct (existsb (String.eqb kb) ids).
Qed.

Lemma for_each_add_target rs : forall seen,
  for_each (add_target netloc_valid) rs seen =
  Ok (targets_from netloc_valid rs seen).
Proof.
  induction rs as [|r rs IH]; intros seen; simpl; [reflexivity|].
  rewrite add_target_spec. simpl. apply IH.
Qed.

Lemma existsb_eqb_In kb ids :
  existsb (String.eqb kb) ids = true <-> In kb ids.
Proof.
  rewrite existsb_exists. split.
  - intros (x & Hx & E). apply String.eqb_eq in E. now subst.
  - intros H. exists kb. split; [exact H|apply String.eqb_refl].
Qed.

Lemma targets_from_keeps rs : forall seen kb,
  In kb seen -> In kb (targets_from netloc_valid rs seen).
Proof.
  unfold targets_from.
  induction rs as [|r rs IH]; intros seen kb H; simpl; [exact H|].
  apply IH. destruct (target_of netloc_valid r) as [k|]; [|exact H].
  destruct (existsb (String.eqb k) seen); [exact H|].
  apply in_or_app. now left.
Qed.

Lemma targets_from_complete rs : forall seen r kb,
  In r rs -> target_of netloc_valid r = Some kb ->
  In kb (targets_from netloc_valid rs seen).
Proof.
  induction rs as [|r0 rs IH]; intros seen r kb Hin Ht; [destruct Hin|].
  destruct Hin as [->|Hin].
  - unfold targets_from. simpl. rewrite Ht.
    apply (targets_from_keeps rs).
    destruct (existsb (String.eqb kb) seen) eqn:E.
    + now apply existsb_eqb_In.
    + apply in_or_app. right. now left.
  - unfold targets_from. simpl. eapply (IH _ r kb Hin Ht).
Qed.

Lemma targets_from_NoDup rs : forall seen,
  NoDup seen -> NoDup (targets_from netloc_valid rs seen).
Proof.
  unfold targets_from.
  induction rs as [|r rs IH]; intros seen H; simpl; [exact H|].
  apply IH. destruct (target_of netloc_valid r) as [k|]; [|exact H].
  destruct (existsb (String.eqb k) seen) eqn:E; [exact H|].
  apply NoDup_app; [exact H|repeat constructor; intros []|].
  intros x Hx [<-|[]].
  apply existsb_eqb_In in Hx. congruence.
Qed.

Lemma targets_from_length rs : forall seen,
  (length (targets_from netloc_valid rs seen) <= length seen + length rs)%nat.
Proof.
  unfold targets_from.
  induction rs as [|r rs IH]; intros seen; simpl; [lia|].
  etransitivity; [apply IH|].
  destruct (target_of netloc_valid r) as [k|]; [|lia].
  destruct (existsb (String.eqb k) seen); [lia|].
  rewrite length_app. simpl. lia.
Qed.

(** Every target comes from a resource of the list. *)
Lemma targets_from_sound rs : forall seen kb,
  In kb (targets_from netloc_valid rs seen) ->
  In kb seen \/ exists r, In r rs /\ target_of netloc_valid r = Some kb.
Proof.
  unfold targets_from.
  induction rs as [|r rs IH]; intros seen kb H; simpl in *; [now left|].
  apply IH in H as [H|(r' & Hr' & Ht)].
  - destruct (target_of netloc_valid r) as [k|] eqn:Et; [|now left].
    destruct (existsb (String.eqb k) seen); [now left|].
    apply in_app_or in H as [H|[<-|[]]]; [now left|].
    right. exists r. auto.
  - right. exists r'. auto.
Qed.

(** An explicit resource list is resolved without looking at the provider
    or the server. *)
Lemma resolve_explicit self r rs :
  resolve_targets netloc_valid str_lower w self (r :: rs) =
  Ok (targets_from netloc_valid (r :: rs) []).
Proof.
  unfold resolve_targets. apply for_each_add_target.
Qed.

(** The directory fallback resolves the first [max_knowledge_bases] entries
    of the listing. *)
Lemma resolve_fallback self ids :
  resolve_targets netloc_valid str_lower w self [] = Ok ids ->
  exists listing,
    list_resources str_lower w self None = Ok listing /\
    ids = targets_from netloc_valid
            (slice_to (max_knowledge_bases self) listing) [].
Proof.
  unfold resolve_targets, try_except, bind.
  destruct (list_resources str_lower w self None) as [listing|e];
    [|discriminate].
  rewrite for_each_add_target. intros [= <-]. eauto.
Qed.

End ResolveFacts.

(** * Document ids carry consecutive numbers *)

Lemma map_seq_shift off a b : forall s,
  map (fun i => str_of_Z (off + Z.of_nat i)) (seq (s + a) b) =
  map (fun i => str_of_Z (off + Z.of_nat a + Z.of_nat i)) (seq s b).
Proof.
  induction b as [|b IH]; intros s; simpl; [reflexivity|].
  f_equal.
  - f_equal. lia.
  - apply (IH (S s)).
Qed.

Lemma suffixes_from_app off a b :
  suffixes_from off (a + b) =
  suffixes_from off a ++ suffixes_from (off + Z.of_nat a) b.
Proof.
  unfold suffixes_from. rewrite seq_app, map_app. f_equal.
  apply (map_seq_shift off a b 0).
Qed.

Lemma suffixes_from_NoDup off n : NoDup (suffixes_from off n).
Proof.
  unfold suffixes_from. apply Finite.Injective_map_NoDup.
  - intros i j H. apply str_of_Z_inj in H. lia.
  - apply seq_NoDup.
Qed.

Section UnionFacts.

Variable py : Python.
Variable w : World.
Variable self : DifyFlowProvider.
Variable query : string.

(** What a source that succeeds contributes: one document for every
    record of its payload. *)
Lemma source_documents_ok kb off :
  source_ok w self query kb = true ->
  exists v fs,
    source_payload w self query kb = Some v /\
    payload_fields v = Ok fs /\
    source_documents py w self query kb off = one_per_record py kb off 0 fs.
Proof.
  unfold source_ok, source_documents.
  destruct (source_payload w self query kb) as [v|]; [|discriminate].
  rewrite parse_response_one_per_record.
  destruct (payload_fields v) as [fs|e] eqn:E; [|discriminate].
  intros _. exists v, fs. cbn [bind]. auto.
Qed.

Lemma source_documents_suffixes kb off :
  map (fun d => id_suffix (id d)) (source_documents py w self query kb off) =
  suffixes_from off (length (source_documents py w self query kb off)).
Proof.
  unfold source_documents.
  destruct (source_payload w self query kb) as [v|]; [|reflexivity].
  rewrite parse_response_one_per_record.
  destruct (payload_fields v) as [fs|e]; [|reflexivity].
  cbn [bind].
  rewrite one_per_record_length. apply one_per_record_suffixes.
Qed.

Lemma union_documents_suffixes ids : forall off,
  map (fun d => id_suffix (id d)) (union_documents py w self query ids off) =
  suffixes_from off (length (union_documents py w self query ids off)).
Proof.
  induction ids as [|kb ids IH]; intros off; simpl; [reflexivity|].
  destruct (source_ok w self query kb); [|apply IH].
  rewrite map_app, length_app, suffixes_from_app.
  now rewrite source_documents_suffixes, IH.
Qed.

Lemma union_documents_ids_NoDup ids off :
  NoDup (map id (union_documents py w self query ids off)).
Proof.
  apply (NoDup_map_inv id_suffix). rewrite map_map.
  rewrite union_documents_suffixes. apply suffixes_from_NoDup.
Qed.

End UnionFacts.

(** * The sort only rearranges *)

Lemma keys_snd py docs : forall keys,
  map_result (fun doc => k <- sort_key py doc ;; Ok (k, doc)) docs = Ok keys ->
  map snd keys = docs.
Proof.
  induction docs as [|d docs IH]; intros keys; cbn [map_result].
  - intros H. injection H as <-. reflexivity.
  - destruct (sort_key py d) as [k|e]; cbn [bind]; [|discriminate].
    destruct (map_result _ docs) as [ks|e]; cbn [bind]; [|discriminate].
    intros H. injection H as <-. cbn. now rewrite (IH ks).
Qed.

Lemma numbered_snd (A : Type) (keys : list (json * A)) : forall l,
  numbered keys = Some l -> map snd l = map snd keys.
Proof.
  induction keys as [|[k a] keys IH]; intros l; cbn [numbered].
  - intros H. injection H as <-. reflexivity.
  - destruct (number_of k); [|discriminate].
    destruct (numbered keys) as [r|]; [|discriminate].
    intros H. injection H as <-. cbn. now rewrite (IH r).
Qed.

Lemma worded_snd (A : Type) (keys : list (json * A)) : forall l,
  worded keys = Some l -> map snd l = map snd keys.
Proof.
  induction keys as [|[k a] keys IH]; intros l; cbn [worded].
  - intros H. injection H as <-. reflexivity.
  - destruct k; try discriminate.
    destruct (worded keys) as [r|]; [|discriminate].
    intros H. injection H as <-. cbn. now rewrite (IH r).
Qed.

Lemma list_sort_reverse_perm py docs sorted :
  list_sort_reverse py docs = Ok sorted -> Permutation sorted docs.
Proof.
  unfold list_sort_reverse.
  destruct (map_result _ docs) as [keys|e] eqn:Ek; cbn [bind]; [|discriminate].
  apply keys_snd in Ek.
  destruct (length docs <? 2)%nat.
  { intros H. injection H as <-. reflexivity. }
  destruct (numbered keys) as [l|] eqn:En.
  { intros H. injection H as <-.
    rewrite (Permutation_map snd (sort_desc_perm _ _ number_leb l)).
    now rewrite (numbered_snd _ _ _ En), Ek. }
  destruct (worded keys) as [l|] eqn:Ew.
  { intros H. injection H as <-.
    rewrite (Permutation_map snd (sort_desc_perm _ _ String.leb l)).
    now rewrite (worded_snd _ _ _ Ew), Ek. }
  destruct (forallb _ keys).
  - destruct (single_run (map fst keys)).
    + intros H. injection H as <-. reflexivity.
    + intros H. apply sort_unordered_perm in H. now rewrite H, Ek.
  - destruct (forallb _ keys); [|discriminate].
    intros H. apply sort_unordered_perm in H. now rewrite H, Ek.
Qed.

(** * The shape of every successful call *)

Section Retrieve.

Variable netloc_valid : string -> bool.
Variable str_lower : string -> string.
Variable py : Python.
Variable w : World.
Variable self : DifyFlowProvider.
Variable query : string.

Lemma fan_out_from_init ids :
  all_documents (fan_out py w self query ids fanout_init)
    = union_documents py w self query ids 0 /\
  posted (fan_out py w self query ids fanout_init)
    = map (fun kb => (retrieve_url self kb, query)) ids.
Proof.
  destruct (fan_out_documents py w self query ids fanout_init)
    as (Hd & _ & Hp).
  now rewrite Hd, Hp.
Qed.

Lemma retrieve_resolved resources ids :
  resolve_targets netloc_valid str_lower w self resources = Ok ids ->
  query_relevant_documents netloc_valid str_lower py w self query resources =
  match ids with
  | [] => Raise (mk_exn PyException "No knowledge bases available for querying")
  | _ :: _ => rank_and_truncate py self (length ids)
                (union_documents py w self query ids 0)
  end.
Proof.
  intros H. unfold query_relevant_documents. rewrite H. simpl.
  destruct ids as [|kb ids]; [reflexivity|].
  now destruct (fan_out_from_init (kb :: ids)) as [-> _].
Qed.

Lemma retrieve_ok_inv resources res :
  query_relevant_documents netloc_valid str_lower py w self query resources
    = Ok res ->
  exists ids,
    resolve_targets netloc_valid str_lower w self resources = Ok ids /\
    ids <> [] /\
    rank_and_truncate py self (length ids)
      (union_documents py w self query ids 0) = Ok res.
Proof.
  intros H.
  destruct (resolve_targets netloc_valid str_lower w self resources)
    as [ids|e] eqn:E.
  - rewrite (retrieve_resolved _ _ E) in H.
    destruct ids as [|kb ids]; [discriminate|].
    exists (kb :: ids). repeat split; [discriminate|exact H].
  - unfold query_relevant_documents in H. rewrite E in H. discriminate.
Qed.

Lemma rank_and_truncate_ok n docs res :
  rank_and_truncate py self n docs = Ok res ->
  exists sorted,
    list_sort_reverse py docs = Ok sorted /\
    res = slice_to (page_size self * Z.of_nat n) sorted /\
    Permutation sorted docs.
Proof.
  unfold rank_and_truncate.
  destruct (list_sort_reverse py docs) as [sorted|e] eqn:E; cbn [bind];
    [|discriminate].
  intros H. injection H as <-. exists sorted. repeat split.
  now apply list_sort_reverse_perm in E.
Qed.

Lemma rank_and_truncate_scored n docs :
  forallb scored docs = true ->
  rank_and_truncate py self n docs =
  Ok (slice_to (page_size self * Z.of_nat n) (ranked docs)).
Proof.
  intros H. unfold rank_and_truncate.
  now rewrite (list_sort_reverse_scored py docs H).
Qed.

End Retrieve.

(** * The URI codec *)

Lemma partition_at_none c s : contains c s = false -> partition_at c s = None.
Proof.
  induction s as [|a s IH]; simpl; [reflexivity|].
  intros H. apply orb_false_iff in H as [-> Hs]. now rewrite (IH Hs).
Qed.

Lemma str_split_none c s : contains c s = false -> str_split c s = [s].
Proof.
  induction s as [|a s IH]; simpl; [reflexivity|].
  intros H. apply orb_false_iff in H as [-> Hs]. now rewrite (IH Hs).
Qed.

Lemma str_filter_all p s : str_forallb p s = true -> str_filter p s = s.
Proof.
  induction s as [|a s IH]; simpl; [reflexivity|].
  intros H. apply andb_true_iff in H as [-> Hs]. now rewrite (IH Hs).
Qed.

Lemma simple_id_facts s :
  is_simple_id s = true ->
  contains "/" s = false /\ contains "?" s = false /\ contains "#" s = false /\
  remove_unsafe s = s.
Proof.
  unfold is_simple_id, remove_unsafe.
  induction s as [|a s IH]; simpl; [auto|].
  intros H. apply andb_true_iff in H as [Ha Hs].
  apply andb_true_iff in Ha as [Hd Hu].
  destruct (IH Hs) as (H1 & H2 & H3 & H4).
  rewrite H1, H2, H3, Hu, H4.
  unfold is_netloc_delim in Hd.
  apply negb_true_iff in Hd. apply orb_false_iff in Hd as [Hd Hd3].
  apply orb_false_iff in Hd as [Hd1 Hd2].
  now rewrite Hd1, Hd2, Hd3.
Qed.

(** The simple form [dify://dataset/{id}] decodes to [id]. *)
Lemma _parse_uri_simple_form netloc_valid kb :
  is_simple_id kb = true ->
  _parse_uri netloc_valid ("dify://dataset/" ++ kb) = Ok (Some kb).
Proof.
  intros H. destruct (simple_id_facts kb H) as (Hs & Hq & Hh & Hr).
  unfold _parse_uri, urlparse.
  assert (E : remove_unsafe (lstrip_c0 ("dify://dataset/" ++ kb)) =
              ("dify://dataset/" ++ kb)%string).
  { simpl lstrip_c0. unfold remove_unsafe in *. simpl. now rewrite Hr. }
  rewrite E. simpl.
  rewrite (partition_at_none _ _ Hh). simpl.
  rewrite (partition_at_none _ _ Hq). simpl.
  unfold last_part. simpl. now rewrite (str_split_none _ _ Hs).
Qed.

(** * The claims *)

(** C1 (the code does not group).  The claim expects the two records of
    [kbA] that share [document_id = d1] to land in one Document with two
    Chunks.  The key of line 241 ends in [doc_id_offset + len(doc_map)],
    which grows with every document created, so the second record gets the
    key [kbA_d1_1], the test of line 243 finds nothing, and the response
    yields two Documents of one Chunk each. *)
Theorem C1_same_document_id_is_not_grouped :
  forall py,
    _parse_dify_response py (JObj [("records", JArr kbA_records)]) "kbA" 0 =
    Ok [ mk_document "kbA_d1_0" (JStr "[kbA] report")
                     [mk_chunk (JStr "first") (JFloat (9 # 10))];
         mk_document "kbA_d1_1" (JStr "[kbA] report")
                     [mk_chunk (JStr "second") (JFloat (4 # 10))] ].
Proof. intros py. reflexivity. Qed.

(** C2 (the strict parser rejects its documented form).  On
    [dify://knowledge_base/kb1/document/doc7] [urlparse] puts
    [knowledge_base] in the netloc, the path is [/kb1/document/doc7], so
    [path_parts[1]] is [kb1] and line 296 raises; the claim expects the pair
    [(kb1, doc7)]. *)
Theorem C2_strict_parser_rejects_document_uri :
  forall netloc_valid,
    parse_uri netloc_valid "dify://knowledge_base/kb1/document/doc7" =
    Raise
      (mk_exn PyValueError
         "Invalid Dify URI format: dify://knowledge_base/kb1/document/doc7").
Proof. intros. reflexivity. Qed.

(** The strict parser on the other shapes: the simple form and a foreign
    scheme are rejected with the URI in the message; a URI whose path (not
    its netloc) starts with [knowledge_base] is accepted. *)
Example strict_parser_other_shapes :
  forall netloc_valid,
    parse_uri netloc_valid "dify://dataset/abc123" =
      Raise (mk_exn PyValueError
               "Invalid Dify URI format: dify://dataset/abc123") /\
    parse_uri netloc_valid "https://knowledge_base/kb1" =
      Raise (mk_exn PyValueError
               "Invalid URI scheme: https://knowledge_base/kb1") /\
    parse_uri netloc_valid "dify:///knowledge_base/kb1/document/doc7" =
      Ok ("kb1"%string, "doc7"%string).
Proof. intros. repeat split. Qed.

(** C8.  The lenient decoder [_parse_uri] never raises; it returns [None]
    whenever [urlparse] finds a scheme other than [dify] (or fails);
    otherwise it returns the last [/]-separated segment of the path, which
    for the simple form [dify://dataset/{id}] is [id]; so
    [dify://dataset/abc123] decodes to [abc123] and [https://dataset/abc123]
    to [None]. *)
Theorem C8_lenient_decoder :
  forall netloc_valid,
    (forall u, exists v, _parse_uri netloc_valid u = Ok v) /\
    (forall u,
        (forall p, urlparse netloc_valid u = Ok p ->
                   scheme p <> "dify"%string) ->
        _parse_uri netloc_valid u = Ok None) /\
    (forall u p,
        urlparse netloc_valid u = Ok p -> scheme p = "dify"%string ->
        _parse_uri netloc_valid u =
        Ok (Some (last_part (str_split "/" (path p))))) /\
    (forall kb,
        is_simple_id kb = true ->
        _parse_uri netloc_valid ("dify://dataset/" ++ kb) = Ok (Some kb)) /\
    _parse_uri netloc_valid "dify://dataset/abc123"
      = Ok (Some "abc123"%string) /\
    _parse_uri netloc_valid "https://dataset/abc123" = Ok None.
Proof.
  intros nv. split; [apply _parse_uri_total|]. split; [|split; [|split]].
  - intros u H. unfold _parse_uri, try_except, bind.
    destruct (urlparse nv u) as [p|e] eqn:E; [|reflexivity].
    specialize (H p eq_refl). apply String.eqb_neq in H. now rewrite H.
  - intros u p E Hs. unfold _parse_uri, try_except, bind. rewrite E.
    apply String.eqb_eq in Hs. now rewrite Hs.
  - apply _parse_uri_simple_form.
  - split; reflexivity.
Qed.

Lemma C8_lenient_decoder_witness :
  _parse_uri no_netloc_check "dify://dataset/kb-42"
    = Ok (Some "kb-42"%string) /\
  _parse_uri no_netloc_check "ftp://dataset/kb-42" = Ok None /\
  _parse_uri no_netloc_check "DIFY://host/a/b/c?x#y" = Ok (Some "c"%string).
Proof.
  destruct (C8_lenient_decoder no_netloc_check)
    as (_ & Hnone & Hlast & Hsimple & _).
  split; [|split].
  - apply (Hsimple "kb-42"%string). reflexivity.
  - apply Hnone. intros p E. vm_compute in E. injection E as <-. discriminate.
  - apply (Hlast "DIFY://host/a/b/c?x#y"%string
                 (mk_parsed "dify" "host" "/a/b/c" "" "x" "y")); reflexivity.
Defined.

Section DirectoryFacts.

Variable str_lower : string -> string.

Lemma list_resources_step_spec query acc ds :
  list_resources_step str_lower query acc ds =
  acc ++ (if dataset_kept str_lower query ds
          then [resource_of_dataset ds] else []).
Proof.
  unfold list_resources_step, dataset_kept, resource_of_dataset, fmt_opt.
  destruct (truthy_opt query &&
            negb (substr_in (str_lower (get_default query ""))
                            (str_lower (get_default (ds_name ds) ""))) &&
            negb (substr_in (str_lower (get_default query ""))
                            (str_lower (get_default (ds_description ds)
                                                    ""))))%bool;
    simpl; [now rewrite app_nil_r|reflexivity].
Qed.

Lemma list_resources_fold query datasets : forall acc,
  fold_left (list_resources_step str_lower query) datasets acc =
  acc ++ map resource_of_dataset
           (filter (dataset_kept str_lower query) datasets).
Proof.
  induction datasets as [|ds dss IH]; intros acc; simpl.
  - now rewrite app_nil_r.
  - rewrite IH, list_resources_step_spec.
    destruct (dataset_kept str_lower query ds); simpl.
    + now rewrite <- app_assoc.
    + now rewrite app_nil_r.
Qed.

(** What a successful listing returns. *)
Lemma list_resources_ok w self query rs :
  list_resources str_lower w self query = Ok rs ->
  exists response datasets,
    http_get w (datasets_url self) (if truthy_opt query then query else None)
      = Ok response /\
    status_code response = 200 /\
    json_body response = Some (mk_dataset_list datasets) /\
    rs = map resource_of_dataset
           (filter (dataset_kept str_lower query) (get_default datasets [])).
Proof.
  unfold list_resources, try_except_request, bind, response_json.
  destruct (http_get w (datasets_url self)
              (if truthy_opt query then query else None)) as [r|e] eqn:E.
  - destruct (Z.eqb_spec (status_code r) 200) as [Hs|Hs]; simpl.
    + destruct (json_body r) as [[datasets]|] eqn:Ej; simpl.
      * rewrite list_resources_fold. simpl. intros [= <-].
        exists r, datasets. auto.
      * discriminate.
    + discriminate.
  - destruct (exn_cls e); discriminate.
Qed.

Lemma substr_in_empty s : substr_in "" s = true.
Proof. destruct s; reflexivity. Qed.

Lemma dataset_kept_matches q ds :
  str_lower "" = ""%string ->
  dataset_kept str_lower (Some q) ds = true ->
  matches_query str_lower q (title (resource_of_dataset ds))
                (description (resource_of_dataset ds)).
Proof.
  intros Hl. unfold dataset_kept, matches_query. simpl.
  rewrite negb_true_iff, !andb_false_iff, !negb_false_iff.
  intros [[Hq|Hn]|Hd]; auto.
  left. unfold truthy in Hq. apply negb_false_iff, String.eqb_eq in Hq.
  subst q. rewrite Hl. apply substr_in_empty.
Qed.

End DirectoryFacts.

(** C9.  When [list_resources] is called with a query and returns, every
    Resource of the result passes the client-side filter: the lower-cased
    query occurs in the lower-cased title or in the lower-cased description.
    The result is exactly the server's datasets that pass, in the server's
    order, so a dataset matching neither is left out.  ([str.lower] maps the
    empty string to itself.) *)
Theorem C9_listing_is_filtered_by_query :
  forall (str_lower : string -> string) w self q rs,
    str_lower "" = ""%string ->
    list_resources str_lower w self (Some q) = Ok rs ->
    Forall (fun r => matches_query str_lower q (title r) (description r)) rs /\
    exists response datasets,
      http_get w (datasets_url self) (if truthy q then Some q else None)
        = Ok response /\
      json_body response = Some (mk_dataset_list datasets) /\
      rs = map resource_of_dataset
             (filter (dataset_kept str_lower (Some q))
                     (get_default datasets [])).
Proof.
  intros lower w self q rs Hl H.
  apply list_resources_ok in H as (r & datasets & Hg & _ & Hj & ->).
  split.
  - apply Forall_forall. intros x Hx.
    apply in_map_iff in Hx as (ds & <- & Hds).
    apply filter_In in Hds as [_ Hk].
    now apply dataset_kept_matches.
  - exists r, datasets. auto.
Qed.

Lemma C9_listing_is_filtered_by_query_witness :
  list_resources lower_ascii world_AB provider0 (Some "FINANCE"%string) =
    Ok [mk_resource "dify://dataset/kbA" "Alpha" "Finance reports"] /\
  Forall (fun r =>
            matches_query lower_ascii "FINANCE" (title r) (description r))
         [mk_resource "dify://dataset/kbA" "Alpha" "Finance reports"].
Proof.
  split; [reflexivity|].
  apply (C9_listing_is_filtered_by_query lower_ascii world_AB provider0
           "FINANCE"%string); reflexivity.
Defined.

(** * The aggregator *)

Lemma resolve_NoDup netloc_valid str_lower w self resources ids :
  resolve_targets netloc_valid str_lower w self resources = Ok ids -> NoDup ids.
Proof.
  destruct resources as [|r rs].
  - intros H. apply resolve_fallback in H as (listing & _ & ->).
    apply targets_from_NoDup. constructor.
  - rewrite resolve_explicit. intros [= <-].
    apply (targets_from_NoDup netloc_valid (r :: rs) []). constructor.
Qed.

Lemma filter_out_one f ids :
  NoDup ids -> In f ids ->
  length (filter (fun k => negb (String.eqb k f)) ids) = (length ids - 1)%nat.
Proof.
  induction 1 as [|k ids Hk Hnd IH]; intros Hin; [destruct Hin|].
  simpl. destruct (String.eqb_spec k f) as [->|Hne]; simpl.
  - rewrite Nat.sub_0_r. clear IH Hin.
    induction ids as [|x xs IHx]; simpl; [reflexivity|].
    destruct (String.eqb_spec x f) as [->|_]; simpl.
    + exfalso. apply Hk. now left.
    + f_equal. apply IHx.
      * intros H. apply Hk. now right.
      * now inversion Hnd.
  - destruct Hin as [->|Hin]; [congruence|].
    rewrite (IH Hin). destruct ids; [destruct Hin|simpl; lia].
Qed.

Lemma slice_to_all (A : Type) n (l : list A) :
  Z.of_nat (length l) <= n -> slice_to n l = l.
Proof.
  intros H. unfold slice_to. destruct (Z.ltb_spec n 0); [lia|].
  apply firstn_all2. lia.
Qed.

(** C3 (amended).  When the resolved targets are N >= 2 knowledge bases of
    which exactly one fails (a status other than 200, a transport error or
    timeout, a body that is not JSON or a payload the normaliser cannot
    read) and the others succeed, the failed source contributes nothing:
    [retrieve] does to the documents of the N-1 surviving sources what
    lines 140-147 do, rank and cut to the budget [page_size * N].  When
    every score of these documents is a number other than NaN, [retrieve]
    returns: the result is their ranking cut to the budget, every returned
    document comes from a surviving source, and the result is all of them,
    rearranged, when they are no more than the budget. *)
Theorem C3_one_failed_source_is_skipped :
  forall netloc_valid str_lower py w self query resources ids f,
    resolve_targets netloc_valid str_lower w self resources = Ok ids ->
    (2 <= length ids)%nat ->
    In f ids ->
    source_ok w self query f = false ->
    (forall k, In k ids -> k <> f -> source_ok w self query k = true) ->
    let survivors := filter (fun k => negb (String.eqb k f)) ids in
    let union := union_documents py w self query survivors 0 in
    let res := slice_to (page_size self * Z.of_nat (length ids))
                        (ranked union) in
    length survivors = (length ids - 1)%nat /\
    query_relevant_documents netloc_valid str_lower py w self query resources
      = rank_and_truncate py self (length ids) union /\
    (forallb scored union = true ->
     query_relevant_documents netloc_valid str_lower py w self query resources
       = Ok res /\
     (forall d, In d res ->
        exists kb off, In kb survivors /\ source_ok w self query kb = true /\
                       In d (source_documents py w self query kb off)) /\
     (Z.of_nat (length union) <= page_size self * Z.of_nat (length ids) ->
      Permutation res union)).
Proof.
  intros nv lower py w self query resources ids f Hres HN Hf Hfail Hok
         survivors union res.
  assert (Hq : query_relevant_documents nv lower py w self query resources
               = rank_and_truncate py self (length ids) union).
  { rewrite (retrieve_resolved _ _ _ _ _ _ _ _ Hres).
    destruct ids as [|k ids]; [destruct Hf|].
    unfold union, survivors.
    now rewrite <- (union_documents_skip_failed py w self query f
                      (k :: ids) 0 Hfail). }
  split; [|split; [exact Hq|]].
  - apply filter_out_one; [|exact Hf]. eapply resolve_NoDup; eauto.
  - intros Hsc. split; [|split].
    + rewrite Hq. now apply rank_and_truncate_scored.
    + intros d Hd.
      apply (prefix_In _ _ _ _ (slice_to_prefix _ _ _)) in Hd.
      apply (Permutation_in _ (ranked_perm _)) in Hd.
      apply union_documents_origin in Hd as (kb & off & Hin & Hk & Hd).
      exists kb, off. auto.
    + intros Hfit. unfold res. rewrite slice_to_all.
      * apply ranked_perm.
      * now rewrite (Permutation_length (ranked_perm union)).
Qed.

Lemma C3_one_failed_source_is_skipped_witness :
  query_relevant_documents no_netloc_check lower_ascii example_python world_AB
    provider0 "revenue" resources_ACB =
  Ok [ doc1 "kbA_d1_0" "[kbA] report" "first" (9 # 10);
       doc1 "kbB_d1_2" "[kbB] notes" "third" (7 # 10);
       doc1 "kbA_d1_1" "[kbA] report" "second" (4 # 10) ].
Proof.
  refine (proj1 (proj2 (proj2
    (C3_one_failed_source_is_skipped no_netloc_check lower_ascii
       example_python world_AB provider0 "revenue" resources_ACB
       ["kbA"; "kbC"; "kbB"]%string "kbC"%string _ _ _ _ _)) _)).
  - reflexivity.
  - simpl. lia.
  - simpl. tauto.
  - reflexivity.
  - intros k [<-|[<-|[<-|[]]]] Hk; try reflexivity. congruence.
  - reflexivity.
Defined.

(** C3 as stated fails: with the two targets [kbU], which answers a record
    scored 0.5 and a record scored [null], and [kbC], whose request is
    refused, exactly one source fails and the other succeeds, and the sort
    of line 141, which no [try] encloses, compares [None] with a float:
    [retrieve] raises a [TypeError]. *)
Lemma C3_null_score_counterexample :
  ~ (forall netloc_valid str_lower py w self query resources ids f,
        resolve_targets netloc_valid str_lower w self resources = Ok ids ->
        (2 <= length ids)%nat ->
        In f ids ->
        source_ok w self query f = false ->
        (forall k, In k ids -> k <> f -> source_ok w self query k = true) ->
        exists res,
          query_relevant_documents netloc_valid str_lower py w self query
            resources = Ok res /\
          Permutation res
            (union_documents py w self query
               (filter (fun k => negb (String.eqb k f)) ids) 0)).
Proof.
  intros H.
  destruct (H no_netloc_check lower_ascii example_python world_N provider0
              "revenue"%string
              [res_of "dify://dataset/kbU"; res_of "dify://dataset/kbC"]
              ["kbU"; "kbC"]%string "kbC"%string)
    as (res & Hq & _).
  - reflexivity.
  - simpl. lia.
  - simpl. tauto.
  - reflexivity.
  - intros k [<-|[<-|[]]] Hk; [reflexivity|congruence].
  - discriminate Hq.
Qed.

(** What the call of the counterexample does, and a second way in which
    the result is not the union: one target of page size 1 among two
    leaves a budget of 2 for the three documents of [kbT]. *)
Example retrieve_with_one_failed_source :
  query_relevant_documents no_netloc_check lower_ascii example_python world_N
    provider0 "revenue"
    [res_of "dify://dataset/kbU"; res_of "dify://dataset/kbC"] =
  Raise (mk_exn PyTypeError
           ("'<' not supported between instances of "
            ++ "'float' and 'NoneType'")) /\
  union_documents example_python world_N provider_small "revenue"
    ["kbT"]%string 0 =
  [ doc1 "kbT_t1_0" "[kbT] a" "x" (5 # 10);
    doc1 "kbT_t2_1" "[kbT] b" "y" (9 # 10);
    doc1 "kbT_t3_2" "[kbT] c" "z" (5 # 10) ] /\
  query_relevant_documents no_netloc_check lower_ascii example_python world_N
    provider_small "revenue"
    [res_of "dify://dataset/kbT"; res_of "dify://dataset/kbC"] =
  Ok [ doc1 "kbT_t2_1" "[kbT] b" "y" (9 # 10);
       doc1 "kbT_t1_0" "[kbT] a" "x" (5 # 10) ].
Proof. repeat split. Qed.

(** C4.  With no resolved target [retrieve] raises "No knowledge bases
    available for querying"; with at least one resolved target and every
    source failing it returns the empty list. *)
Theorem C4_no_targets_raises_all_failed_returns_empty :
  forall netloc_valid str_lower py w self query resources ids,
    resolve_targets netloc_valid str_lower w self resources = Ok ids ->
    (ids = [] ->
     query_relevant_documents netloc_valid str_lower py w self query resources
     = Raise (mk_exn PyException "No knowledge bases available for querying"))
    /\
    (ids <> [] ->
     (forall k, In k ids -> source_ok w self query k = false) ->
     query_relevant_documents netloc_valid str_lower py w self query resources
     = Ok []).
Proof.
  intros nv lower py w self query resources ids Hres.
  rewrite (retrieve_resolved _ _ _ _ _ _ _ _ Hres). split.
  - now intros ->.
  - intros Hne Hfail. destruct ids as [|k ids]; [congruence|].
    rewrite union_documents_all_failed by exact Hfail.
    unfold rank_and_truncate, slice_to. simpl.
    destruct (_ <? 0); now rewrite firstn_nil.
Qed.

Lemma C4_no_targets_raises_all_failed_returns_empty_witness :
  query_relevant_documents no_netloc_check lower_ascii example_python world_AB
    provider0 "revenue" [res_of "https://dataset/abc123"] =
  Raise (mk_exn PyException "No knowledge bases available for querying") /\
  query_relevant_documents no_netloc_check lower_ascii example_python
    world_down provider0 "revenue" resources_ACB = Ok [].
Proof.
  split.
  - apply (C4_no_targets_raises_all_failed_returns_empty no_netloc_check
             lower_ascii example_python world_AB provider0 "revenue"
             [res_of "https://dataset/abc123"] []); reflexivity.
  - apply (C4_no_targets_raises_all_failed_returns_empty no_netloc_check
             lower_ascii example_python world_down provider0 "revenue"
             resources_ACB ["kbA"; "kbC"; "kbB"]%string).
    + reflexivity.
    + discriminate.
    + intros k _. reflexivity.
Defined.

(** C5 (amended).  For a page size that is not negative, the result of
    [retrieve] has at most [page_size * N] documents, where N is the number
    of knowledge bases resolved before any source is queried; N counts the
    failing sources too. *)
Theorem C5_result_fits_the_budget :
  forall netloc_valid str_lower py w self query resources ids res,
    0 <= page_size self ->
    resolve_targets netloc_valid str_lower w self resources = Ok ids ->
    query_relevant_documents netloc_valid str_lower py w self query resources
      = Ok res ->
    Z.of_nat (length res) <= page_size self * Z.of_nat (length ids).
Proof.
  intros nv lower py w self query resources ids res Hp Hres H.
  rewrite (retrieve_resolved _ _ _ _ _ _ _ _ Hres) in H.
  destruct ids as [|k ids]; [discriminate|].
  apply rank_and_truncate_ok in H as (sorted & _ & -> & _).
  apply slice_to_length. lia.
Qed.

Lemma C5_result_fits_the_budget_witness :
  Z.of_nat (length [ doc1 "kbA_d1_0" "[kbA] report" "first" (9 # 10) ]) <=
  page_size provider_small * Z.of_nat (length ["kbA"%string]).
Proof.
  apply (C5_result_fits_the_budget no_netloc_check lower_ascii example_python
           world_AB provider_small "revenue" [res_of "dify://dataset/kbA"]).
  - simpl. lia.
  - reflexivity.
  - reflexivity.
Defined.

(** C5 as stated fails: a provider configured with [page_size = -1] and one
    knowledge base that answers two records returns one document, and
    [1 <= -1 * 1] is false ([all_documents[:-1]] drops the last one). *)
Lemma C5_negative_page_size_counterexample :
  ~ (forall netloc_valid str_lower py w self query resources ids res,
        resolve_targets netloc_valid str_lower w self resources = Ok ids ->
        query_relevant_documents netloc_valid str_lower py w self query
          resources = Ok res ->
        Z.of_nat (length res) <= page_size self * Z.of_nat (length ids)).
Proof.
  intros H.
  specialize (H no_netloc_check lower_ascii example_python world_AB
                provider_negative
                "revenue"%string [res_of "dify://dataset/kbA"]
                ["kbA"%string]
                [doc1 "kbA_d1_0" "[kbA] report" "first" (9 # 10)]
                eq_refl eq_refl).
  simpl in H. lia.
Qed.

(** The best score of a scored document is the greatest of its chunks'
    scores. *)
Lemma fold_number_max cs : forall m,
  forallb (fun c => match number_of (similarity c) with
                    | Some _ => true
                    | None => false
                    end) cs = true ->
  let r := fold_left (fun m c' => match number_of (similarity c') with
                                  | Some n => number_max m n
                                  | None => m
                                  end) cs m in
  number_leb m r = true /\
  (forall c, In c cs ->
             exists n, number_of (similarity c) = Some n /\
                       number_leb n r = true) /\
  (r = m \/ exists c, In c cs /\ number_of (similarity c) = Some r).
Proof.
  induction cs as [|c cs IH]; intros m H; cbn [fold_left].
  - split; [apply number_leb_refl|]. split; [intros c []|now left].
  - cbn [forallb] in H. apply andb_prop in H as [Hc Hcs].
    destruct (number_of (similarity c)) as [n|] eqn:En; [|discriminate].
    destruct (IH (number_max m n) Hcs) as (H1 & H2 & H3).
    assert (Hm : number_leb m (number_max m n) = true /\
                 number_leb n (number_max m n) = true).
    { unfold number_max. destruct (number_leb n m) eqn:E.
      - split; [apply number_leb_refl|exact E].
      - split; [now apply number_leb_total|apply number_leb_refl]. }
    destruct Hm as [Hm Hn].
    split; [eapply number_leb_trans; eauto|]. split.
    + intros c' [<-|Hc'].
      * exists n. split; [exact En|]. eapply number_leb_trans; eauto.
      * now apply H2.
    + destruct H3 as [H3|(c' & Hc' & E')].
      * cbv zeta in H3 |- *. rewrite H3. unfold number_max.
        destruct (number_leb n m).
        -- now left.
        -- right. exists c. split; [now left|exact En].
      * right. exists c'. split; [now right|exact E'].
Qed.

Lemma best_score_spec d :
  scored d = true ->
  (chunks d = [] -> best_score d = Finite 0) /\
  (forall c, In c (chunks d) ->
             exists n, number_of (similarity c) = Some n /\
                       number_leb n (best_score d) = true) /\
  (chunks d <> [] ->
   exists c, In c (chunks d) /\
             number_of (similarity c) = Some (best_score d)).
Proof.
  unfold scored, best_score. destruct (chunks d) as [|c cs].
  - intros _. split; [reflexivity|]. split; [intros c []|congruence].
  - cbn [forallb]. intros H. apply andb_prop in H as [Hc Hcs].
    destruct (number_of (similarity c)) as [n|] eqn:En; [|discriminate].
    destruct (fold_number_max cs n Hcs) as (H1 & H2 & H3).
    split; [discriminate|]. split.
    + intros c' [<-|Hc']; [|now apply H2].
      exists n. split; [exact En|exact H1].
    + intros _. destruct H3 as [H3|(c' & Hc' & E')].
      * exists c. split; [now left|]. cbv zeta in H3. now rewrite H3.
      * exists c'. split; [now right|exact E'].
Qed.

Lemma filter_cons_inv (A : Type) (p : A -> bool) l : forall u a v,
  filter p l = u ++ a :: v ->
  exists l1 l2, l = l1 ++ a :: l2 /\ filter p l1 = u /\ filter p l2 = v.
Proof.
  induction l as [|x l IH]; intros u a v H; simpl in H.
  - destruct u; discriminate.
  - destruct (p x) eqn:E.
    + destruct u as [|u0 u]; simpl in H; injection H as Hx H.
      * subst. exists [], l. auto.
      * destruct (IH _ _ _ H) as (l1 & l2 & -> & <- & <-).
        subst u0. exists (x :: l1), l2. simpl. rewrite E. auto.
    + destruct (IH _ _ _ H) as (l1 & l2 & -> & <- & <-).
      exists (x :: l1), l2. simpl. rewrite E. auto.
Qed.

(** Two elements that follow each other in a filtered list follow each
    other in the list. *)
Lemma filter_keeps_order (A : Type) (p : A -> bool) l u a v b z :
  filter p l = u ++ a :: v ++ b :: z ->
  exists m1 m2 m3, l = m1 ++ a :: m2 ++ b :: m3.
Proof.
  intros H. apply filter_cons_inv in H as (l1 & l2 & -> & _ & H).
  apply filter_cons_inv in H as (l3 & l4 & -> & _ & _).
  exists l1, l3, l4. reflexivity.
Qed.

Lemma with_key_pair a b l1 l2 l3 :
  number_eqb (best_score a) (best_score b) = true ->
  with_key (best_score a) (l1 ++ a :: l2 ++ b :: l3) =
  with_key (best_score a) l1 ++ a ::
  with_key (best_score a) l2 ++ b :: with_key (best_score a) l3.
Proof.
  intros E. unfold with_key. rewrite filter_app. simpl.
  assert (Ha : number_eqb (best_score a) (best_score a) = true).
  { unfold number_eqb. now rewrite number_leb_refl. }
  rewrite Ha. rewrite filter_app. simpl.
  assert (Hb : number_eqb (best_score b) (best_score a) = true).
  { unfold number_eqb in *. now rewrite andb_comm. }
  now rewrite Hb.
Qed.

(** C6 (amended).  When every score of the accumulated documents is a
    number other than NaN, what [retrieve] returns is in descending order
    of the sort key, the sort key of a Document being its greatest Chunk
    similarity and 0 for a Document without chunks; and ties keep the
    arrival order: for every key value the returned documents of that key
    are an initial segment of the documents of that key as the fan-out
    accumulated them, so two returned documents of equal key stand in the
    result in the order in which they arrived. *)
Theorem C6_result_sorted_descending_and_stable :
  forall netloc_valid str_lower py w self query resources ids res,
    resolve_targets netloc_valid str_lower w self resources = Ok ids ->
    let arrival := all_documents (fan_out py w self query ids fanout_init) in
    forallb scored arrival = true ->
    query_relevant_documents netloc_valid str_lower py w self query resources
      = Ok res ->
    StronglySorted key_ge res /\
    (forall d, In d res ->
               exists k, sort_key py d = Ok k /\
                         number_of k = Some (best_score d)) /\
    (forall d, chunks d = [] -> best_score d = Finite 0) /\
    (forall d c, In d res -> In c (chunks d) ->
                 exists n, number_of (similarity c) = Some n /\
                           number_leb n (best_score d) = true) /\
    (forall d, In d res -> chunks d <> [] ->
               exists c, In c (chunks d) /\
                         number_of (similarity c) = Some (best_score d)) /\
    (forall k, prefix_of (with_key k res) (with_key k arrival)) /\
    (forall l1 a l2 b l3,
        res = l1 ++ a :: l2 ++ b :: l3 ->
        number_eqb (best_score a) (best_score b) = true ->
        exists m1 m2 m3, arrival = m1 ++ a :: m2 ++ b :: m3).
Proof.
  intros nv lower py w self query resources ids res Hres arrival Hsc H.
  unfold arrival in *. clear arrival.
  destruct (fan_out_from_init py w self query ids) as [Ea _].
  rewrite Ea in *.
  rewrite (retrieve_resolved _ _ _ _ _ _ _ _ Hres) in H.
  destruct ids as [|kb ids]; [discriminate|].
  rewrite (rank_and_truncate_scored py self _ _ Hsc) in H.
  injection H as <-.
  set (union := union_documents py w self query (kb :: ids) 0) in *.
  set (n := page_size self * Z.of_nat (length (kb :: ids))).
  assert (Hin : forall d, In d (slice_to n (ranked union)) ->
                          scored d = true).
  { intros d Hd.
    apply (prefix_In _ _ _ _ (slice_to_prefix _ _ _)) in Hd.
    apply (Permutation_in _ (ranked_perm _)) in Hd.
    rewrite forallb_forall in Hsc. now apply Hsc. }
  assert (Hstable : forall k,
             prefix_of (with_key k (slice_to n (ranked union)))
                       (with_key k union)).
  { intros k. rewrite <- (ranked_stable k union).
    apply prefix_with_key, slice_to_prefix. }
  split; [|split; [|split; [|split; [|split; [|split]]]]].
  - eapply prefix_sorted; [apply slice_to_prefix|apply ranked_sorted].
  - intros d Hd. apply sort_key_scored. now apply Hin.
  - intros d Hd. unfold best_score. now rewrite Hd.
  - intros d c Hd. apply best_score_spec. now apply Hin.
  - intros d Hd. apply best_score_spec. now apply Hin.
  - exact Hstable.
  - intros l1 a l2 b l3 Hsplit Hab.
    destruct (Hstable (best_score a)) as [t Ht].
    change (slice_to n (ranked union) = l1 ++ a :: l2 ++ b :: l3) in Hsplit.
    rewrite Hsplit, (with_key_pair a b l1 l2 l3 Hab) in Ht.
    rewrite <- app_assoc in Ht. simpl in Ht.
    rewrite <- app_assoc in Ht. simpl in Ht.
    exact (filter_keeps_order _ _ _ _ _ _ _ _ Ht).
Qed.

Lemma C6_result_sorted_descending_and_stable_witness :
  StronglySorted key_ge
    [ doc1 "kbT_t2_1" "[kbT] b" "y" (9 # 10);
      doc1 "kbT_t1_0" "[kbT] a" "x" (5 # 10);
      doc1 "kbT_t3_2" "[kbT] c" "z" (5 # 10) ].
Proof.
  apply (C6_result_sorted_descending_and_stable no_netloc_check lower_ascii
           example_python world_T provider0 "revenue"
           [res_of "dify://dataset/kbT"] ["kbT"%string]);
    reflexivity.
Defined.

(** C6 as stated fails: [kbN] answers three records scored 0.5, NaN and
    0.9.  No comparison with NaN is true, so the sort finds the three keys
    already in order and leaves the documents as they arrived: the document
    scored 0.5 is returned before the document scored 0.9. *)
Lemma C6_nan_score_counterexample :
  ~ (forall netloc_valid str_lower py w self query resources res,
        query_relevant_documents netloc_valid str_lower py w self query
          resources = Ok res ->
        StronglySorted key_ge res).
Proof.
  intros H.
  specialize (H no_netloc_check lower_ascii example_python world_N provider0
                "revenue"%string [res_of "dify://dataset/kbN"]
                [ doc1 "kbN_n1_0" "[kbN] a" "x" (5 # 10);
                  mk_document "kbN_n2_1" (JStr "[kbN] b")
                              [mk_chunk (JStr "y") JNaN];
                  doc1 "kbN_n3_2" "[kbN] c" "z" (9 # 10) ]
                eq_refl).
  inversion H as [|? ? _ Hall]. inversion Hall as [|? ? _ Hall'].
  inversion Hall' as [|? ? Hge _]. discriminate Hge.
Qed.

(** C7.  The ids of the documents [retrieve] returns are pairwise distinct,
    whatever the sources answer: every id ends in the decimal of a number
    that no other document of the call carries. *)
Theorem C7_document_ids_are_distinct :
  forall netloc_valid str_lower py w self query resources res,
    query_relevant_documents netloc_valid str_lower py w self query resources
      = Ok res ->
    NoDup (map id res).
Proof.
  intros nv lower py w self query resources res H.
  apply retrieve_ok_inv in H as (ids & _ & _ & H).
  apply rank_and_truncate_ok in H as (sorted & _ & -> & Hp).
  eapply prefix_NoDup.
  - apply prefix_map, slice_to_prefix.
  - eapply Permutation_NoDup.
    + symmetry. apply Permutation_map, Hp.
    + apply union_documents_ids_NoDup.
Qed.

Lemma C7_document_ids_are_distinct_witness :
  NoDup ["kbA_d1_0"; "kbB_d1_2"; "kbA_d1_1"]%string.
Proof.
  apply (C7_document_ids_are_distinct no_netloc_check lower_ascii
           example_python world_AB provider0 "revenue" resources_ACB
           [ doc1 "kbA_d1_0" "[kbA] report" "first" (9 # 10);
             doc1 "kbB_d1_2" "[kbB] notes" "third" (7 # 10);
             doc1 "kbA_d1_1" "[kbA] report" "second" (4 # 10) ]).
  reflexivity.
Defined.

Lemma target_of_decoded netloc_valid r kb :
  _parse_uri netloc_valid (uri r) = Ok (Some kb) -> kb <> ""%string ->
  target_of netloc_valid r = Some kb.
Proof.
  intros H Hne. unfold target_of. rewrite H.
  unfold truthy. apply String.eqb_neq in Hne. now rewrite Hne.
Qed.

(** C10 (amended).  With a non-empty explicit [resources] list the targets
    are the distinct non-empty ids the resources decode to, whatever
    [max_knowledge_bases] is: every such id is a target, the loop sends one
    request to the retrieve URL of every target, in their order, and the
    resolution is the same under any other cap.  The cap bounds the targets
    only on the fallback path, where the ids come from the first
    [max_knowledge_bases] entries of the directory listing. *)
Theorem C10_cap_only_limits_the_fallback :
  forall netloc_valid str_lower py w self query r rs,
    (exists ids,
        resolve_targets netloc_valid str_lower w self (r :: rs) = Ok ids /\
        NoDup ids /\
        (forall x kb, In x (r :: rs) ->
                      _parse_uri netloc_valid (uri x) = Ok (Some kb) ->
                      kb <> ""%string -> In kb ids) /\
        posted (fan_out py w self query ids fanout_init) =
          map (fun kb => (retrieve_url self kb, query)) ids /\
        (forall m,
            resolve_targets netloc_valid str_lower w
              (with_max_knowledge_bases m self) (r :: rs) = Ok ids)) /\
    (forall ids0,
        resolve_targets netloc_valid str_lower w self [] = Ok ids0 ->
        (exists listing,
            list_resources str_lower w self None = Ok listing /\
            ids0 = targets_from netloc_valid
                     (slice_to (max_knowledge_bases self) listing) []) /\
        (0 <= max_knowledge_bases self ->
         Z.of_nat (length ids0) <= max_knowledge_bases self)).
Proof.
  intros nv lower py w self query r rs. split.
  - exists (targets_from nv (r :: rs) []).
    split; [apply resolve_explicit|].
    split; [apply (targets_from_NoDup nv (r :: rs) []); constructor|].
    split; [|split].
    + intros x kb Hx Hd Hne.
      apply (targets_from_complete nv (r :: rs) [] x kb Hx).
      now apply target_of_decoded.
    + apply fan_out_from_init.
    + intros m. apply resolve_explicit.
  - intros ids0 H.
    pose proof (resolve_fallback _ _ _ _ _ H) as (listing & Hl & ->).
    split; [eauto|]. intros Hm.
    pose proof (targets_from_length nv
                  (slice_to (max_knowledge_bases self) listing) []) as Hlen.
    pose proof (slice_to_length _ _ listing Hm). simpl in Hlen. lia.
Qed.

Lemma C10_cap_only_limits_the_fallback_witness :
  (exists ids,
      resolve_targets no_netloc_check lower_ascii world_AB provider_small
        resources_ACB = Ok ids /\ In "kbB"%string ids) /\
  Z.of_nat (length ["kbA"%string]) <= max_knowledge_bases provider_small.
Proof.
  destruct (C10_cap_only_limits_the_fallback no_netloc_check lower_ascii
              example_python world_AB provider_small "revenue"%string
              (res_of "dify://dataset/kbA")
              [res_of "dify://dataset/kbC"; res_of "dify://dataset/kbB"])
    as [(ids & Hr & _ & Hin & _) Hfb].
  split.
  - exists ids. split; [exact Hr|].
    apply (Hin (res_of "dify://dataset/kbB") "kbB"%string).
    + simpl. tauto.
    + reflexivity.
    + discriminate.
  - apply (Hfb ["kbA"%string]).
    + reflexivity.
    + simpl. lia.
Defined.

(** C10 as stated fails: [dify://dataset/] decodes to the empty string, an
    id that no earlier resource gave, and line 69 drops it because it is
    falsy: it does not become a target. *)
Lemma C10_empty_id_counterexample :
  ~ (forall netloc_valid str_lower w self r rs x kb,
        In x (r :: rs) ->
        _parse_uri netloc_valid (uri x) = Ok (Some kb) ->
        exists ids,
          resolve_targets netloc_valid str_lower w self (r :: rs) = Ok ids /\
          In kb ids).
Proof.
  intros H.
  destruct (H no_netloc_check lower_ascii world_AB provider0
              (res_of "dify://dataset/kbA") [res_of "dify://dataset/"]
              (res_of "dify://dataset/") ""%string)
    as (ids & Hr & Hin).
  - simpl. tauto.
  - reflexivity.
  - injection Hr as <-. destruct Hin as [E|[]]. discriminate E.
Qed.

(** Three explicit resources are all queried under a cap of one; the
    fallback under the same cap resolves one knowledge base. *)
Example explicit_list_exceeds_the_cap :
  max_knowledge_bases provider_small = 1 /\
  posted (fan_out example_python world_AB provider_small "revenue"
            ["kbA"; "kbC"; "kbB"]%string fanout_init)
    = [("http://dify/v1/datasets/kbA/retrieve", "revenue");
       ("http://dify/v1/datasets/kbC/retrieve", "revenue");
       ("http://dify/v1/datasets/kbB/retrieve", "revenue")]%string /\
  resolve_targets no_netloc_check lower_ascii world_AB provider_small
    resources_ACB = Ok ["kbA"; "kbC"; "kbB"]%string /\
  resolve_targets no_netloc_check lower_ascii world_AB provider_small []
    = Ok ["kbA"%string].
Proof. repeat split. Qed.

(** The scenario of the specification returns three documents, not two. *)
Example scenario_kbA_kbB :
  query_relevant_documents no_netloc_check lower_ascii example_python world_AB
    provider0 "revenue"
    [res_of "dify://dataset/kbA"; res_of "dify://dataset/kbB"] =
  Ok [ doc1 "kbA_d1_0" "[kbA] report" "first" (9 # 10);
       doc1 "kbB_d1_2" "[kbB] notes" "third" (7 # 10);
       doc1 "kbA_d1_1" "[kbA] report" "second" (4 # 10) ].
Proof. reflexivity. Qed.

(** * Further properties of the response normaliser *)

Lemma one_per_record_nth py kb off fs : forall n i f,
  nth_error fs i = Some f ->
  nth_error (one_per_record py kb off n fs) i =
  Some (document_of_record py kb off (n + i) f).
Proof.
  induction fs as [|f0 fs IH]; intros n i f H.
  - destruct i; discriminate.
  - destruct i as [|i]; simpl in *.
    + injection H as ->. now rewrite Nat.add_0_r.
    + rewrite (IH (S n) i f H). do 2 f_equal. lia.
Qed.

Lemma one_per_record_single_chunk py kb off fs : forall n,
  Forall (fun d => exists c, chunks d = [c]) (one_per_record py kb off n fs).
Proof.
  induction fs as [|f fs IH]; intros n; simpl; constructor.
  - exists (mk_chunk (f_content f) (f_score f)). reflexivity.
  - apply IH.
Qed.

(** X1.  [_parse_dify_response] reads the payload before it builds
    anything that depends on the offset: it raises what reading the four
    fields of the records raises (an [AttributeError] for a response, a
    record, a segment or a segment document that is not an object, a
    [TypeError] for records that cannot be iterated), and otherwise returns
    one Document per record, in the order of the records: the Document of
    the [i]-th record has the id [{kb}_{document_id}_{offset + i}], the
    title of the record and exactly one Chunk, that record's content and
    score.  A response object without [records] gives no Document. *)
Theorem X1_normaliser_one_document_per_record :
  forall py resp kb off,
    (forall e, payload_fields resp = Raise e ->
               _parse_dify_response py resp kb off = Raise e) /\
    (forall fs,
        payload_fields resp = Ok fs ->
        exists docs,
          _parse_dify_response py resp kb off = Ok docs /\
          length docs = length fs /\
          forall i f,
            nth_error fs i = Some f ->
            nth_error docs i =
            Some (mk_document
                    (unique_doc_id_of kb (py_str py (f_doc_id f))
                                      (off + Z.of_nat i))
                    (record_title py kb f)
                    [mk_chunk (f_content f) (f_score f)])) /\
    (forall m, resp = JObj m -> obj_lookup "records" m = None ->
               _parse_dify_response py resp kb off = Ok []) /\
    (forall m, resp = JObj m -> obj_lookup "records" m = Some JNull ->
               exists e, _parse_dify_response py resp kb off = Raise e /\
                         exn_cls e = PyTypeError) /\
    (forall m r rs,
        resp = JObj m -> obj_lookup "records" m = Some (JArr (r :: rs)) ->
        (forall p, r <> JObj p) ->
        exists e, _parse_dify_response py resp kb off = Raise e /\
                  exn_cls e = PyAttributeError).
Proof.
  intros py resp kb off. rewrite parse_response_one_per_record.
  split; [|split; [|split; [|split]]].
  - now intros e ->.
  - intros fs ->. cbn [bind]. eexists. split; [reflexivity|].
    split; [apply one_per_record_length|].
    intros i f H. now rewrite (one_per_record_nth py kb off _ 0 i f H).
  - intros m -> H. unfold payload_fields, py_get. now rewrite H.
  - intros m -> H. unfold payload_fields, py_get. rewrite H.
    eexists. split; reflexivity.
  - intros m r rs -> H Hr. unfold payload_fields, py_get at 1. rewrite H.
    cbn [get_default bind py_iter map_result].
    unfold record_fields, py_get at 1.
    destruct r; try (eexists; split; reflexivity).
    now destruct (Hr pairs).
Qed.

Lemma X1_normaliser_one_document_per_record_witness :
  (exists docs,
      _parse_dify_response example_python
        (JObj [("records", JArr kbT_records)]) "kbT" 7 = Ok docs /\
      nth_error docs 2 = Some (doc1 "kbT_t3_9" "[kbT] c" "z" (5 # 10))) /\
  (exists e,
      _parse_dify_response example_python
        (JObj [("records", JArr [JNull])]) "kbT" 7 = Raise e /\
      exn_cls e = PyAttributeError).
Proof.
  destruct (X1_normaliser_one_document_per_record example_python
              (JObj [("records", JArr kbT_records)]) "kbT" 7)
    as (_ & Hok & _).
  destruct (X1_normaliser_one_document_per_record example_python
              (JObj [("records", JArr [JNull])]) "kbT" 7)
    as (_ & _ & _ & _ & Hbad).
  split.
  - destruct (Hok _ eq_refl) as (docs & E & _ & Hnth).
    exists docs. split; [exact E|].
    apply (Hnth 2%nat
             (mk_fields (JStr "t3") (JStr "c") (JStr "z") (JFloat (5 # 10)))).
    reflexivity.
  - apply (Hbad [("records", JArr [JNull])] JNull []);
      [reflexivity|reflexivity|discriminate].
Defined.

(** A record whose segment is [null] makes the normaliser raise inside the
    [try] of the loop: the knowledge base is skipped with all its
    records. *)
Example null_segment_skips_the_knowledge_base :
  source_ok world_N provider0 "revenue" "kbS" = false /\
  query_relevant_documents no_netloc_check lower_ascii example_python world_N
    provider0 "revenue"
    [res_of "dify://dataset/kbS"; res_of "dify://dataset/kbT"] =
  Ok [ doc1 "kbT_t2_1" "[kbT] b" "y" (9 # 10);
       doc1 "kbT_t1_0" "[kbT] a" "x" (5 # 10);
       doc1 "kbT_t3_2" "[kbT] c" "z" (5 # 10) ] /\
  error_log (fan_out example_python world_N provider0 "revenue"
               ["kbS"]%string fanout_init) =
  [("Warning: Network error while querying knowledge base kbS: "
    ++ "'NoneType' object has no attribute 'get'")%string].
Proof. repeat split. Qed.

(** * Further properties of the aggregator *)

Lemma source_documents_single_chunk py w self query kb off :
  Forall (fun d => exists c, chunks d = [c])
         (source_documents py w self query kb off).
Proof.
  unfold source_documents.
  destruct (source_payload w self query kb) as [v|]; [|constructor].
  rewrite parse_response_one_per_record.
  destruct (payload_fields v) as [fs|e]; [|constructor].
  apply one_per_record_single_chunk.
Qed.

Lemma union_documents_single_chunk py w self query ids : forall off,
  Forall (fun d => exists c, chunks d = [c])
         (union_documents py w self query ids off).
Proof.
  induction ids as [|kb ids IH]; intros off; simpl; [constructor|].
  destruct (source_ok w self query kb); [|apply IH].
  apply Forall_app. split; [apply source_documents_single_chunk|apply IH].
Qed.

(** X2.  Every Document that [retrieve] returns has exactly one Chunk, and
    its rank is that Chunk's similarity. *)
Theorem X2_returned_documents_have_one_chunk :
  forall netloc_valid str_lower py w self query resources res,
    query_relevant_documents netloc_valid str_lower py w self query resources
      = Ok res ->
    Forall (fun d => exists c, chunks d = [c] /\
                               sort_key py d = Ok (similarity c))
           res.
Proof.
  intros nv lower py w self query resources res H.
  apply retrieve_ok_inv in H as (ids & _ & _ & H).
  apply rank_and_truncate_ok in H as (sorted & _ & -> & Hp).
  apply Forall_forall. intros d Hd.
  apply (prefix_In _ _ _ _ (slice_to_prefix _ _ _)) in Hd.
  apply (Permutation_in _ Hp) in Hd.
  pose proof (union_documents_single_chunk py w self query ids 0) as Hall.
  rewrite Forall_forall in Hall. destruct (Hall d Hd) as [c Hc].
  exists c. split; [exact Hc|]. unfold sort_key. now rewrite Hc.
Qed.

Lemma X2_returned_documents_have_one_chunk_witness :
  Forall (fun d => exists c, chunks d = [c] /\
                             sort_key example_python d = Ok (similarity c))
    [ doc1 "kbA_d1_0" "[kbA] report" "first" (9 # 10) ].
Proof.
  apply (X2_returned_documents_have_one_chunk no_netloc_check lower_ascii
           example_python world_AB provider_small "revenue"
           [res_of "dify://dataset/kbA"]).
  reflexivity.
Defined.

Lemma slice_to_length_exact (A : Type) n (l : list A) :
  Z.of_nat (length (slice_to n l)) =
  if n <? 0 then Z.max 0 (Z.of_nat (length l) + n)
  else Z.min (Z.of_nat (length l)) n.
Proof.
  unfold slice_to. destruct (Z.ltb_spec n 0); rewrite length_firstn; lia.
Qed.

(** X3.  The number of documents [retrieve] returns, for N resolved targets
    that accumulated [total] documents: with a budget [page_size * N] that
    is not negative it is the smaller of [total] and the budget (so a page
    size of 0 returns nothing); with a negative budget the last
    [|page_size * N|] documents of the ranking are dropped. *)
Theorem X3_result_length :
  forall netloc_valid str_lower py w self query resources ids res,
    resolve_targets netloc_valid str_lower w self resources = Ok ids ->
    query_relevant_documents netloc_valid str_lower py w self query resources
      = Ok res ->
    let total :=
      Z.of_nat
        (length (all_documents (fan_out py w self query ids fanout_init))) in
    let budget := page_size self * Z.of_nat (length ids) in
    Z.of_nat (length res) =
    if budget <? 0 then Z.max 0 (total + budget) else Z.min total budget.
Proof.
  intros nv lower py w self query resources ids res Hres H total budget.
  rewrite (retrieve_resolved _ _ _ _ _ _ _ _ Hres) in H.
  destruct ids as [|k ids]; [discriminate|].
  apply rank_and_truncate_ok in H as (sorted & _ & -> & Hp).
  rewrite slice_to_length_exact.
  rewrite (Permutation_length Hp).
  unfold total, budget.
  now destruct (fan_out_from_init py w self query (k :: ids)) as [-> _].
Qed.

Lemma X3_result_length_witness :
  Z.of_nat (length [ doc1 "kbA_d1_0" "[kbA] report" "first" (9 # 10) ]) = 1.
Proof.
  apply (X3_result_length no_netloc_check lower_ascii example_python world_AB
           provider_negative "revenue" [res_of "dify://dataset/kbA"]
           ["kbA"%string]); reflexivity.
Defined.

Lemma sorted_app_cross (l1 l2 : list Document) :
  StronglySorted key_ge (l1 ++ l2) ->
  forall a b, In a l1 -> In b l2 -> key_ge a b.
Proof.
  induction l1 as [|x l1 IH]; simpl; intros H a b Ha Hb; [destruct Ha|].
  inversion H as [|? ? Hs Hall]; subst.
  destruct Ha as [<-|Ha].
  - rewrite Forall_forall in Hall. apply Hall. apply in_or_app. now right.
  - now apply (IH Hs a b).
Qed.

(** X4.  Truncation cuts from the end of the sorted list: the accumulated
    documents split into the returned ones and the dropped ones; and when
    every score is a number other than NaN, no dropped document has a
    greater best score than a returned one. *)
Theorem X4_truncation_keeps_the_best :
  forall netloc_valid str_lower py w self query resources res,
    query_relevant_documents netloc_valid str_lower py w self query resources
      = Ok res ->
    exists ids dropped,
      resolve_targets netloc_valid str_lower w self resources = Ok ids /\
      Permutation (res ++ dropped)
                  (all_documents (fan_out py w self query ids fanout_init)) /\
      (forallb scored
               (all_documents (fan_out py w self query ids fanout_init))
       = true ->
       forall d d', In d res -> In d' dropped -> key_ge d d').
Proof.
  intros nv lower py w self query resources res H.
  apply retrieve_ok_inv in H as (ids & Hres & _ & H).
  apply rank_and_truncate_ok in H as (sorted & Hs & -> & Hp).
  destruct (slice_to_prefix _ (page_size self * Z.of_nat (length ids)) sorted)
    as [dropped Hd].
  exists ids, dropped. split; [exact Hres|].
  destruct (fan_out_from_init py w self query ids) as [-> _].
  split.
  - now rewrite <- Hd.
  - intros Hsc d d' Hin Hin'.
    rewrite (list_sort_reverse_scored py _ Hsc) in Hs. injection Hs as Hs.
    eapply sorted_app_cross; [|exact Hin|exact Hin'].
    rewrite <- Hd, <- Hs. apply ranked_sorted.
Qed.

Lemma X4_truncation_keeps_the_best_witness :
  exists ids dropped,
    resolve_targets no_netloc_check lower_ascii world_T provider_small
      [res_of "dify://dataset/kbT"] = Ok ids /\
    Permutation
      ([doc1 "kbT_t2_1" "[kbT] b" "y" (9 # 10)] ++ dropped)
      (all_documents
         (fan_out example_python world_T provider_small "q" ids fanout_init))
    /\
    (forallb scored
       (all_documents
          (fan_out example_python world_T provider_small "q" ids fanout_init))
     = true ->
     forall d d',
       In d [doc1 "kbT_t2_1" "[kbT] b" "y" (9 # 10)] ->
       In d' dropped -> key_ge d d').
Proof.
  apply (X4_truncation_keeps_the_best no_netloc_check lower_ascii
           example_python world_T provider_small "q"
           [res_of "dify://dataset/kbT"]).
  reflexivity.
Defined.

Lemma fan_out_step_log py w self query st kb :
  length (error_log (fan_out_step py w self query st kb)) =
  (length (error_log st) + if source_ok w self query kb then 0 else 1)%nat.
Proof.
  unfold fan_out_step, query_source, requests_post, source_ok,
    source_payload, response_json.
  destruct (http_post w (retrieve_url self kb) query) as [r|e]; cbn.
  - destruct (status_code r =? 200); cbn.
    + destruct (json_body r) as [v|]; cbn.
      * rewrite parse_response_one_per_record.
        destruct (payload_fields v) as [fs|e]; cbn; [lia|].
        rewrite length_app. simpl. lia.
      * rewrite length_app. simpl. lia.
    + rewrite length_app. simpl. lia.
  - rewrite length_app. simpl. lia.
Qed.

Lemma fan_out_log py w self query ids : forall st,
  length (error_log (fan_out py w self query ids st)) =
  (length (error_log st) +
   length (filter (fun k => negb (source_ok w self query k)) ids))%nat.
Proof.
  induction ids as [|kb ids IH]; intros st; simpl; [lia|].
  unfold fan_out in *. rewrite IH, fan_out_step_log.
  destruct (source_ok w self query kb); simpl; lia.
Qed.

(** X5.  Book-keeping of the fan-out loop, started from the empty state:
    the requests sent are one [POST] of the query to the retrieve URL of
    every target, in the order of the targets, whatever the sources answer;
    one error is logged per failing source and none for the others; and the
    id offset counter ends at the number of documents accumulated. *)
Theorem X5_fan_out_accounting :
  forall py w self query ids,
    posted (fan_out py w self query ids fanout_init) =
      map (fun kb => (retrieve_url self kb, query)) ids /\
    length (error_log (fan_out py w self query ids fanout_init)) =
      length (filter (fun k => negb (source_ok w self query k)) ids) /\
    doc_id_counter (fan_out py w self query ids fanout_init) =
      Z.of_nat
        (length (all_documents (fan_out py w self query ids fanout_init))).
Proof.
  intros py w self query ids.
  destruct (fan_out_documents py w self query ids fanout_init)
    as (Hd & Hc & Hp).
  split; [now rewrite Hp|]. split.
  - now rewrite fan_out_log.
  - rewrite Hc, Hd. reflexivity.
Qed.

(** X6.  On the fallback path (no explicit resources) a failing directory
    makes [retrieve] raise a plain [Exception] whose message wraps the
    cause: a status other than 200, a transport error of [requests] (both
    wrapped twice, by [list_resources] and by [retrieve]), or any other
    exception of the transport (wrapped once). *)
Theorem X6_fallback_reports_directory_failure :
  forall netloc_valid str_lower py w self query,
    (forall r,
        http_get w (datasets_url self) None = Ok r ->
        status_code r <> 200 ->
        query_relevant_documents netloc_valid str_lower py w self
          query [] =
        Raise (mk_exn PyException
                 ("Failed to get knowledge bases: "
                  ++ "Failed to list Dify datasets: "
                  ++ str_of_Z (status_code r) ++ " - " ++ text r)%string)) /\
    (forall e,
        http_get w (datasets_url self) None = Raise e ->
        exn_cls e = PyRequestException ->
        query_relevant_documents netloc_valid str_lower py w self
          query [] =
        Raise (mk_exn PyException
                 ("Failed to get knowledge bases: "
                  ++ "Network error while listing Dify datasets: "
                  ++ exn_msg e)%string)) /\
    (forall e,
        http_get w (datasets_url self) None = Raise e ->
        exn_cls e <> PyRequestException ->
        query_relevant_documents netloc_valid str_lower py w self
          query [] =
        Raise (mk_exn PyException
                 ("Failed to get knowledge bases: " ++ exn_msg e)%string)).
Proof.
  intros nv lower py w self query.
  unfold query_relevant_documents, resolve_targets, list_resources,
    try_except, try_except_request, bind. simpl.
  split; [|split].
  - intros r -> Hs. apply Z.eqb_neq in Hs. rewrite Hs. reflexivity.
  - intros e -> Hc. rewrite Hc. reflexivity.
  - intros e -> Hc. destruct (exn_cls e); try reflexivity. congruence.
Qed.

Lemma X6_fallback_reports_directory_failure_witness :
  query_relevant_documents no_netloc_check lower_ascii example_python
    world_503 provider0 "revenue" [] =
  Raise (mk_exn PyException
    "Failed to get knowledge bases: Failed to list Dify datasets: 503 - busy")
  /\
  query_relevant_documents no_netloc_check lower_ascii example_python
    world_AB_no_directory provider0 "revenue" [] =
  Raise (mk_exn PyException
    ("Failed to get knowledge bases: "
     ++ "Network error while listing Dify datasets: Connection refused")).
Proof.
  destruct (X6_fallback_reports_directory_failure no_netloc_check lower_ascii
              example_python world_503 provider0 "revenue"%string) as (H1 & _).
  destruct (X6_fallback_reports_directory_failure no_netloc_check lower_ascii
              example_python world_AB_no_directory provider0
              "revenue"%string) as (_ & H2 & _).
  split.
  - apply (H1 (mk_response 503 "busy" None)); [reflexivity|discriminate].
  - apply (H2 (mk_exn PyRequestException "Connection refused")); reflexivity.
Defined.

(** * Further properties of the directory *)

Lemma list_resources_answer str_lower w self query r datasets :
  http_get w (datasets_url self) (if truthy_opt query then query else None)
    = Ok r ->
  status_code r = 200 ->
  json_body r = Some (mk_dataset_list datasets) ->
  list_resources str_lower w self query =
  Ok (map resource_of_dataset
          (filter (dataset_kept str_lower query) (get_default datasets []))).
Proof.
  intros Hg Hs Hj.
  unfold list_resources, try_except_request, bind, response_json.
  rewrite Hg, Hs, Hj. simpl. now rewrite list_resources_fold.
Qed.

Lemma filter_all_true (A : Type) (p : A -> bool) l :
  (forall x, p x = true) -> filter p l = l.
Proof.
  intros H. induction l as [|x l IH]; simpl; [reflexivity|].
  now rewrite H, IH.
Qed.

Lemma list_resources_none str_lower w self r datasets :
  http_get w (datasets_url self) None = Ok r ->
  status_code r = 200 ->
  json_body r = Some (mk_dataset_list datasets) ->
  list_resources str_lower w self None =
  Ok (map resource_of_dataset (get_default datasets [])).
Proof.
  intros Hg Hs Hj.
  rewrite (list_resources_answer str_lower w self None r datasets Hg Hs Hj).
  now rewrite filter_all_true.
Qed.





Lemma target_of_listed netloc_valid ds :
  is_simple_id (dataset_key ds) = true -> dataset_key ds <> ""%string ->
  target_of netloc_valid (resource_of_dataset ds) = Some (dataset_key ds).
Proof.
  intros Hs Hne. apply target_of_decoded; [|exact Hne].
  apply _parse_uri_simple_form, Hs.
Qed.

Lemma targets_from_listing netloc_valid l : forall seen,
  Forall (fun ds => is_simple_id (dataset_key ds) = true /\
                    dataset_key ds <> ""%string) l ->
  targets_from netloc_valid (map resource_of_dataset l) seen =
  first_seen_from seen (map dataset_key l).
Proof.
  unfold targets_from, first_seen_from.
  induction l as [|ds l IH]; intros seen H; simpl; [reflexivity|].
  inversion H as [|? ? [Hs Hne] Hl]; subst.
  rewrite (target_of_listed netloc_valid ds Hs Hne). now apply IH.
Qed.

Lemma slice_to_map (A B : Type) (f : A -> B) n l :
  slice_to n (map f l) = map f (slice_to n l).
Proof.
  unfold slice_to. rewrite length_map.
  destruct (n <? 0); apply firstn_map.
Qed.

(** X9.  Directory and decoder round trip on the fallback path: when the
    directory answers, the targets of [retrieve] are the distinct ids of
    the first [max_knowledge_bases] datasets, in the order listed (each id
    being read back from the URI [list_resources] built for it).  This
    holds for ids without [/ ? #] and line breaks; a dataset without an
    [id] field is listed, and queried, under the id [None]. *)
Theorem X9_fallback_targets_are_listed_ids :
  forall netloc_valid str_lower w self r datasets,
    http_get w (datasets_url self) None = Ok r ->
    status_code r = 200 ->
    json_body r = Some (mk_dataset_list datasets) ->
    Forall (fun ds => is_simple_id (dataset_key ds) = true /\
                      dataset_key ds <> ""%string)
           (slice_to (max_knowledge_bases self) (get_default datasets [])) ->
    resolve_targets netloc_valid str_lower w self [] =
    Ok (first_seen_from []
          (map dataset_key
               (slice_to (max_knowledge_bases self)
                         (get_default datasets [])))).
Proof.
  intros nv lower w self r datasets Hg Hs Hj Hall.
  unfold resolve_targets, try_except, bind.
  rewrite (list_resources_none lower w self r datasets Hg Hs Hj).
  rewrite for_each_add_target, slice_to_map.
  now rewrite targets_from_listing.
Qed.

Lemma X9_fallback_targets_are_listed_ids_witness :
  resolve_targets no_netloc_check lower_ascii world_dup provider0 [] =
  Ok ["kbA"; "kbB"; "None"]%string.
Proof.
  apply (X9_fallback_targets_are_listed_ids no_netloc_check lower_ascii
           world_dup provider0
           (mk_response 200 "{...}" (Some (mk_dataset_list (Some listing_dup))))
           (Some listing_dup)); try reflexivity.
  repeat constructor; discriminate.
Defined.

Lemma targets_from_none netloc_valid rs : forall seen,
  Forall (fun x => target_of netloc_valid x = None) rs ->
  targets_from netloc_valid rs seen = seen.
Proof.
  unfold targets_from.
  induction rs as [|r rs IH]; intros seen H; simpl; [reflexivity|].
  inversion H as [|? ? Hr Hrs]; subst. rewrite Hr. now apply IH.
Qed.

(** X10.  An explicit resource list in which no URI decodes to a non-empty
    knowledge-base id makes [retrieve] raise "No knowledge bases available
    for querying"; it does not fall back to the directory, which is used for
    an empty list only. *)
Theorem X10_undecodable_resources_raise :
  forall netloc_valid str_lower py w self query r rs,
    (forall x, In x (r :: rs) ->
               _parse_uri netloc_valid (uri x) = Ok None \/
               _parse_uri netloc_valid (uri x) = Ok (Some ""%string)) ->
    query_relevant_documents netloc_valid str_lower py w self query (r :: rs) =
    Raise (mk_exn PyException "No knowledge bases available for querying").
Proof.
  intros nv lower py w self query r rs H.
  rewrite (retrieve_resolved nv lower py w self query (r :: rs) []);
    [reflexivity|].
  rewrite resolve_explicit. f_equal.
  apply targets_from_none. apply Forall_forall. intros x Hx.
  unfold target_of. destruct (H x Hx) as [-> | ->]; reflexivity.
Qed.

Lemma X10_undecodable_resources_raise_witness :
  query_relevant_documents no_netloc_check lower_ascii example_python world_AB
    provider0 "revenue"
    [res_of "https://dataset/kbA"; res_of "dify://dataset/"] =
  Raise (mk_exn PyException "No knowledge bases available for querying").
Proof.
  apply X10_undecodable_resources_raise.
  intros x [<-|[<-|[]]]; [left|right]; reflexivity.
Defined.

Lemma fan_out_ext py w w' self query ids : forall st,
  (forall u q, http_post w u q = http_post w' u q) ->
  fan_out py w self query ids st = fan_out py w' self query ids st.
Proof.
  intros st H. revert st. unfold fan_out.
  induction ids as [|kb ids IH]; intros st; simpl; [reflexivity|].
  rewrite <- IH. f_equal.
  unfold fan_out_step, query_source, requests_post. now rewrite H.
Qed.

(** X11.  With a non-empty explicit resource list [retrieve] does not use
    the directory: two servers that answer the retrieval requests alike
    give the same result, whatever their directory endpoints do. *)
Theorem X11_explicit_resources_ignore_directory :
  forall netloc_valid str_lower py w w' self query r rs,
    (forall u q, http_post w u q = http_post w' u q) ->
    query_relevant_documents netloc_valid str_lower py w self query (r :: rs) =
    query_relevant_documents netloc_valid str_lower py w' self query (r :: rs).
Proof.
  intros nv lower py w w' self query r rs H.
  unfold query_relevant_documents.
  rewrite !resolve_explicit. unfold bind.
  destruct (targets_from nv (r :: rs) []) as [|k ids]; [reflexivity|].
  now rewrite (fan_out_ext py w w' self query (k :: ids) fanout_init H).
Qed.

Lemma X11_explicit_resources_ignore_directory_witness :
  query_relevant_documents no_netloc_check lower_ascii example_python world_AB
    provider0 "revenue" resources_ACB =
  query_relevant_documents no_netloc_check lower_ascii example_python
    world_AB_no_directory provider0 "revenue" resources_ACB.
Proof.
  apply X11_explicit_resources_ignore_directory. reflexivity.
Defined.

(** * Further properties of the URI codec *)

Lemma str_filter_app p a b :
  str_filter p (a ++ b)%string = (str_filter p a ++ str_filter p b)%string.
Proof.
  induction a as [|x a IH]; simpl; [reflexivity|].
  destruct (p x); simpl; now rewrite IH.
Qed.

Lemma str_forallb_impl (p q : ascii -> bool) s :
  (forall c, p c = true -> q c = true) ->
  str_forallb p s = true -> str_forallb q s = true.
Proof.
  intros H. induction s as [|a s IH]; simpl; [reflexivity|].
  intros Hs. apply andb_true_iff in Hs as [Ha Hs].
  now rewrite (H a Ha), (IH Hs).
Qed.

Lemma str_forallb_app p a b :
  str_forallb p (a ++ b)%string = (str_forallb p a && str_forallb p b)%bool.
Proof.
  induction a as [|x a IH]; simpl; [reflexivity|].
  now rewrite IH, andb_assoc.
Qed.

Lemma contains_false_iff c s :
  contains c s = false <->
  str_forallb (fun a => negb (Ascii.eqb a c)) s = true.
Proof.
  induction s as [|a s IH]; simpl; [tauto|].
  rewrite orb_false_iff, andb_true_iff, negb_true_iff, IH. tauto.
Qed.

Lemma splitnetloc_app nl p :
  str_forallb (fun c => negb (is_netloc_delim c)) nl = true ->
  match p with EmptyString => true | String a _ => Ascii.eqb a "/" end = true ->
  splitnetloc (nl ++ p) = (nl, p).
Proof.
  intros Hnl Hp. induction nl as [|a nl IH]; simpl in *.
  - destruct p as [|a p]; [reflexivity|].
    apply Ascii.eqb_eq in Hp. subst a. reflexivity.
  - apply andb_true_iff in Hnl as [Ha Hnl].
    apply negb_true_iff in Ha. rewrite Ha. now rewrite (IH Hnl).
Qed.

(** [urlparse] on [dify://{netloc}{path}]. *)
Lemma urlparse_dify netloc_valid nl p :
  is_plain_netloc nl = true -> is_clean_path p = true ->
  urlparse netloc_valid ("dify://" ++ nl ++ p) =
  Ok (mk_parsed "dify" nl p "" "" "").
Proof.
  intros Hnl Hp. unfold is_clean_path in Hp.
  apply andb_true_iff in Hp as [Hhead Hp].
  assert (Hn1 : str_forallb (fun c => negb (is_netloc_delim c)) nl = true).
  { revert Hnl. apply str_forallb_impl. intros c H.
    repeat (apply andb_true_iff in H as [H ?]). exact H. }
  assert (Hn2 : str_forallb (fun c => negb (is_unsafe_byte c)) nl = true).
  { revert Hnl. apply str_forallb_impl. intros c H.
    repeat (apply andb_true_iff in H as [H ?]). assumption. }
  assert (Hn3 : contains "[" nl = false).
  { apply contains_false_iff. revert Hnl. apply str_forallb_impl. intros c H.
    repeat (apply andb_true_iff in H as [H ?]). assumption. }
  assert (Hn4 : contains "]" nl = false).
  { apply contains_false_iff. revert Hnl. apply str_forallb_impl. intros c H.
    repeat (apply andb_true_iff in H as [H ?]). assumption. }
  assert (Hn5 : str_forallb is_ascii nl = true).
  { revert Hnl. apply str_forallb_impl. intros c H.
    repeat (apply andb_true_iff in H as [H ?]). assumption. }
  assert (Hp1 : contains "?" p = false).
  { apply contains_false_iff. revert Hp. apply str_forallb_impl. intros c H.
    repeat (apply andb_true_iff in H as [H ?]). assumption. }
  assert (Hp2 : contains "#" p = false).
  { apply contains_false_iff. revert Hp. apply str_forallb_impl. intros c H.
    repeat (apply andb_true_iff in H as [H ?]). assumption. }
  assert (Hp3 : str_forallb (fun c => negb (is_unsafe_byte c)) p = true).
  { revert Hp. apply str_forallb_impl. intros c H.
    repeat (apply andb_true_iff in H as [H ?]). assumption. }
  unfold urlparse.
  assert (E : remove_unsafe (lstrip_c0 ("dify://" ++ nl ++ p)) =
              ("dify://" ++ nl ++ p)%string).
  { simpl lstrip_c0. unfold remove_unsafe. simpl.
    rewrite str_filter_app.
    now rewrite (str_filter_all _ _ Hn2), (str_filter_all _ _ Hp3). }
  rewrite E.
  assert (E2 : split_scheme ("dify://" ++ nl ++ p) =
               ("dify"%string, ("//" ++ nl ++ p)%string)) by reflexivity.
  rewrite E2. simpl starts_with. cbv iota. simpl drop.
  rewrite (splitnetloc_app nl p Hn1 Hhead).
  unfold check_brackets. rewrite Hn3, Hn4. simpl.
  rewrite (partition_at_none _ _ Hp2), (partition_at_none _ _ Hp1).
  unfold checknetloc. rewrite Hn5. reflexivity.
Qed.

Lemma str_split_nonempty c s : str_split c s <> [].
Proof.
  destruct s as [|a s]; simpl; [discriminate|].
  destruct (Ascii.eqb a c); [discriminate|].
  destruct (str_split c s); discriminate.
Qed.

(** [(d + c + b).split(c) == d.split(c) + b.split(c)] *)
Lemma str_split_app c d b :
  str_split c (d ++ String c b) = str_split c d ++ str_split c b.
Proof.
  induction d as [|a d IH]; simpl.
  - now rewrite Ascii.eqb_refl.
  - destruct (Ascii.eqb a c); [now rewrite IH|].
    rewrite IH. pose proof (str_split_nonempty c d) as Hne.
    destruct (str_split c d) as [|x xs]; [congruence|reflexivity].
Qed.

Lemma last_app_nonempty (A : Type) (l1 l2 : list A) d :
  l2 <> [] -> last (l1 ++ l2) d = last l2 d.
Proof.
  intros H. induction l1 as [|x l1 IH]; [reflexivity|].
  simpl. rewrite IH. destruct (l1 ++ l2) eqn:E; [|reflexivity].
  apply app_eq_nil in E as [_ E]. congruence.
Qed.

Lemma simple_id_clean s :
  is_simple_id s = true ->
  str_forallb (fun c => negb (Ascii.eqb c "?") && negb (Ascii.eqb c "#")
                        && negb (is_unsafe_byte c)) s = true.
Proof.
  unfold is_simple_id. apply str_forallb_impl. intros c H.
  apply andb_true_iff in H as [Hd Hu]. rewrite Hu.
  unfold is_netloc_delim in Hd. apply negb_true_iff in Hd.
  apply orb_false_iff in Hd as [Hd H3]. apply orb_false_iff in Hd as [H1 H2].
  now rewrite H2, H3.
Qed.

Lemma clean_path_segment dirs seg :
  is_clean_path dirs = true -> is_simple_id seg = true ->
  is_clean_path (dirs ++ String "/" seg) = true.
Proof.
  unfold is_clean_path. intros Hd Hs.
  apply andb_true_iff in Hd as [Hh Hc].
  rewrite str_forallb_app, Hc. simpl.
  rewrite (simple_id_clean seg Hs).
  destruct dirs; simpl in *; [reflexivity|]. now rewrite Hh.
Qed.

(** X12.  The strict parser accepts the shape
    [dify://{netloc}/knowledge_base/{kb}/document/{doc}] for any plain
    netloc (the empty one included) and returns [(kb, doc)]; without the
    document part it returns [(kb, "")]. *)
Theorem X12_strict_parser_accepts_path_form :
  forall netloc_valid nl kb doc,
    is_plain_netloc nl = true ->
    is_simple_id kb = true -> is_simple_id doc = true ->
    parse_uri netloc_valid
      ("dify://" ++ nl ++ "/knowledge_base/" ++ kb ++ "/document/" ++ doc)
      = Ok (kb, doc) /\
    parse_uri netloc_valid ("dify://" ++ nl ++ "/knowledge_base/" ++ kb)
      = Ok (kb, ""%string).
Proof.
  intros nv nl kb doc Hnl Hkb Hdoc.
  destruct (simple_id_facts kb Hkb) as (Hk & _).
  destruct (simple_id_facts doc Hdoc) as (Hd & _).
  assert (Hp1 : is_clean_path ("/knowledge_base" ++ String "/" kb) = true).
  { now apply clean_path_segment. }
  assert (Hp2 : is_clean_path
                  ((("/knowledge_base" ++ String "/" kb)
                    ++ String "/" "document")
                   ++ String "/" doc) = true).
  { apply clean_path_segment; [|exact Hdoc].
    now apply clean_path_segment. }
  split.
  - unfold parse_uri.
    replace ("/knowledge_base/" ++ kb ++ "/document/" ++ doc)%string
      with ((("/knowledge_base" ++ String "/" kb) ++ String "/" "document")
            ++ String "/" doc)%string
      by (rewrite !str_app_assoc; reflexivity).
    remember ((("/knowledge_base" ++ String "/" kb) ++ String "/" "document")
              ++ String "/" doc)%string as p eqn:Ep.
    rewrite (urlparse_dify nv nl p Hnl Hp2). unfold bind.
    cbn [scheme path]. change (negb ("dify" =? "dify")%string) with false.
    cbv iota. subst p. rewrite !str_split_app.
    rewrite (str_split_none _ _ Hk), (str_split_none _ _ Hd). reflexivity.
  - unfold parse_uri.
    change ("/knowledge_base/" ++ kb)%string
      with ("/knowledge_base" ++ String "/" kb)%string.
    remember ("/knowledge_base" ++ String "/" kb)%string as p eqn:Ep.
    rewrite (urlparse_dify nv nl p Hnl Hp1). unfold bind.
    cbn [scheme path]. change (negb ("dify" =? "dify")%string) with false.
    cbv iota. subst p. rewrite !str_split_app.
    rewrite (str_split_none _ _ Hk). reflexivity.
Qed.

Lemma X12_strict_parser_accepts_path_form_witness :
  parse_uri no_netloc_check "dify://host/knowledge_base/kb1/document/doc7"
    = Ok ("kb1"%string, "doc7"%string) /\
  parse_uri no_netloc_check "dify://host/knowledge_base/kb1"
    = Ok ("kb1"%string, ""%string).
Proof.
  apply (X12_strict_parser_accepts_path_form no_netloc_check
           "host" "kb1" "doc7"); reflexivity.
Defined.

(** X13.  The strict parser rejects the two-slash form
    [dify://knowledge_base/{kb}/document/{doc}] for every knowledge-base id
    other than the word [knowledge_base] itself: [urlparse] takes
    [knowledge_base] as the netloc, so [path_parts[1]] is [kb]; the error
    is a [ValueError] whose message ends in the URI. *)
Theorem X13_strict_parser_rejects_netloc_form :
  forall netloc_valid kb doc,
    is_simple_id kb = true -> is_simple_id doc = true ->
    kb <> "knowledge_base"%string ->
    parse_uri netloc_valid
      ("dify://knowledge_base/" ++ kb ++ "/document/" ++ doc) =
    Raise (mk_exn PyValueError
             ("Invalid Dify URI format: "
              ++ "dify://knowledge_base/" ++ kb ++ "/document/" ++ doc)%string).
Proof.
  intros nv kb doc Hkb Hdoc Hne.
  destruct (simple_id_facts kb Hkb) as (Hk & _).
  destruct (simple_id_facts doc Hdoc) as (Hd & _).
  assert (Hp : is_clean_path
                 ((("" ++ String "/" kb) ++ String "/" "document")
                  ++ String "/" doc) = true).
  { repeat apply clean_path_segment; auto. }
  unfold parse_uri.
  replace ("dify://knowledge_base/" ++ kb ++ "/document/" ++ doc)%string
    with ("dify://" ++ "knowledge_base"
          ++ ((("" ++ String "/" kb) ++ String "/" "document")
              ++ String "/" doc))%string at 1
    by (rewrite !str_app_assoc; reflexivity).
  remember ((("" ++ String "/" kb) ++ String "/" "document")
            ++ String "/" doc)%string as p eqn:Ep.
  rewrite (urlparse_dify nv "knowledge_base" p eq_refl Hp). unfold bind.
  cbn [scheme path]. change (negb ("dify" =? "dify")%string) with false.
  cbv iota. subst p. rewrite !str_split_app.
  rewrite (str_split_none _ _ Hk), (str_split_none _ _ Hd).
  apply String.eqb_neq in Hne. simpl. now rewrite Hne.
Qed.

Lemma X13_strict_parser_rejects_netloc_form_witness :
  parse_uri no_netloc_check "dify://knowledge_base/kb-9/document/d-1" =
  Raise (mk_exn PyValueError
           "Invalid Dify URI format: dify://knowledge_base/kb-9/document/d-1").
Proof.
  apply (X13_strict_parser_rejects_netloc_form no_netloc_check "kb-9" "d-1");
    [reflexivity|reflexivity|discriminate].
Defined.

(** X14.  The lenient decoder returns the last path segment, whatever
    comes before it: for a plain netloc, a clean path [dirs] and a segment
    without [/ ? #], [dify://{netloc}{dirs}/{seg}] decodes to [seg].  So a
    document URI [dify://knowledge_base/{kb}/document/{doc}] decodes to the
    document id [doc], not to [kb]. *)
Theorem X14_lenient_decoder_returns_last_segment :
  forall netloc_valid nl dirs seg,
    is_plain_netloc nl = true -> is_clean_path dirs = true ->
    is_simple_id seg = true ->
    _parse_uri netloc_valid ("dify://" ++ nl ++ dirs ++ String "/" seg) =
    Ok (Some seg).
Proof.
  intros nv nl dirs seg Hnl Hdirs Hseg.
  destruct (simple_id_facts seg Hseg) as (Hs & _).
  pose proof (clean_path_segment dirs seg Hdirs Hseg) as Hp.
  unfold _parse_uri.
  remember (dirs ++ String "/" seg)%string as p eqn:Ep.
  rewrite (urlparse_dify nv nl p Hnl Hp). unfold bind, try_except.
  cbn [scheme path]. change (negb ("dify" =? "dify")%string) with false.
  cbv iota. subst p. rewrite str_split_app. unfold last_part.
  rewrite last_app_nonempty by apply str_split_nonempty.
  now rewrite (str_split_none _ _ Hs).
Qed.

Lemma X14_lenient_decoder_returns_last_segment_witness :
  _parse_uri no_netloc_check "dify://knowledge_base/kb1/document/doc7" =
  Ok (Some "doc7"%string).
Proof.
  apply (X14_lenient_decoder_returns_last_segment no_netloc_check
           "knowledge_base" "/kb1/document" "doc7"); reflexivity.
Defined.

(** Which characters a component of a parsed URL can hold. *)

Lemma str_forallb_filter p s : str_forallb p (str_filter p s) = true.
Proof.
  induction s as [|a s IH]; simpl; [reflexivity|].
  destruct (p a) eqn:E; simpl; [now rewrite E|exact IH].
Qed.

Lemma partition_at_inv c s b t :
  partition_at c s = Some (b, t) ->
  s = (b ++ String c t)%string /\ contains c b = false.
Proof.
  revert b t. induction s as [|a s IH]; intros b t; simpl; [discriminate|].
  destruct (Ascii.eqb_spec a c) as [->|Hne].
  - intros [= <- <-]. auto.
  - destruct (partition_at c s) as [[b' t']|]; [|discriminate].
    intros [= <- <-]. destruct (IH b' t' eq_refl) as [-> Hb].
    split; [reflexivity|]. simpl. rewrite Hb.
    apply Ascii.eqb_neq in Hne. now rewrite Hne.
Qed.

Lemma partition_at_none_inv c s :
  partition_at c s = None -> contains c s = false.
Proof.
  induction s as [|a s IH]; simpl; [reflexivity|].
  destruct (Ascii.eqb a c); [discriminate|].
  destruct (partition_at c s) as [[b t]|]; [discriminate|]. auto.
Qed.

Lemma partition_at_all p c s b t :
  str_forallb p s = true -> partition_at c s = Some (b, t) ->
  str_forallb p b = true /\ str_forallb p t = true.
Proof.
  intros Hs H. apply partition_at_inv in H as [-> _].
  rewrite str_forallb_app in Hs. simpl in Hs.
  apply andb_true_iff in Hs as [Hb Ht].
  apply andb_true_iff in Ht as [_ Ht]. auto.
Qed.

Lemma drop_all p n : forall s,
  str_forallb p s = true -> str_forallb p (drop n s) = true.
Proof.
  induction n as [|n IH]; intros s H; [exact H|].
  destruct s as [|a s]; [reflexivity|]. simpl in *.
  apply andb_true_iff in H as [_ H]. now apply IH.
Qed.

Lemma splitnetloc_all p s :
  str_forallb p s = true -> str_forallb p (snd (splitnetloc s)) = true.
Proof.
  induction s as [|a s IH]; simpl; [reflexivity|]. intros H.
  destruct (is_netloc_delim a); [exact H|].
  apply andb_true_iff in H as [_ H].
  destruct (splitnetloc s) as [n t]. simpl in *. now apply IH.
Qed.

Lemma split_scheme_all p s :
  str_forallb p s = true -> str_forallb p (snd (split_scheme s)) = true.
Proof.
  intros H. unfold split_scheme.
  destruct (partition_at ":" s) as [[[|a b] t]|] eqn:E; try exact H.
  destruct (is_ascii_alpha a && str_forallb is_scheme_char (String a b))%bool;
    [|exact H].
  simpl. now destruct (partition_at_all p _ _ _ _ H E).
Qed.

Lemma str_split_all p c s :
  str_forallb p s = true ->
  Forall (fun x => str_forallb p x = true) (str_split c s).
Proof.
  induction s as [|a s IH]; simpl; intros H; [repeat constructor|].
  apply andb_true_iff in H as [Ha Hs]. specialize (IH Hs).
  destruct (Ascii.eqb a c); [constructor; auto|].
  destruct (str_split c s) as [|x xs];
    [repeat constructor; simpl; now rewrite Ha|].
  inversion IH; subst. constructor; [simpl; now rewrite Ha|assumption].
Qed.

Lemma str_split_no_sep c s :
  Forall (fun x => contains c x = false) (str_split c s).
Proof.
  induction s as [|a s IH]; simpl; [repeat constructor|].
  destruct (Ascii.eqb a c) eqn:E; [constructor; auto|].
  destruct (str_split c s) as [|x xs];
    [repeat constructor; simpl; now rewrite E|].
  inversion IH; subst. constructor; [simpl; now rewrite E|assumption].
Qed.

Lemma last_In (A : Type) (l : list A) d : l <> [] -> In (last l d) l.
Proof.
  induction l as [|x l IH]; [congruence|]. intros _.
  destruct l as [|y l]; [now left|].
  right. apply IH. discriminate.
Qed.

(** The path of a URL that [urlparse] accepts with a scheme outside
    [uses_params] has no [#], no [?] and no tab, carriage return or line
    feed. *)
Lemma urlparse_path_chars netloc_valid u p :
  urlparse netloc_valid u = Ok p ->
  existsb (String.eqb (scheme p)) uses_params = false ->
  contains "#" (path p) = false /\ contains "?" (path p) = false /\
  str_forallb (fun c => negb (is_unsafe_byte c)) (path p) = true.
Proof.
  unfold urlparse.
  pose proof (str_forallb_filter (fun c => negb (is_unsafe_byte c))
                                 (lstrip_c0 u)) as H0.
  fold (remove_unsafe (lstrip_c0 u)) in H0.
  pose proof (split_scheme_all _ _ H0) as H1.
  destruct (split_scheme (remove_unsafe (lstrip_c0 u))) as [sch url1].
  simpl in H1.
  assert (Hrest : forall nl url2,
             str_forallb (fun c => negb (is_unsafe_byte c)) url2 = true ->
             (let (url, frag) :=
                match partition_at "#" url2 with
                | Some (b, t) => (b, t)
                | None => (url2, EmptyString)
                end in
              let (url0, qry) :=
                match partition_at "?" url with
                | Some (b, t) => (b, t)
                | None => (url, EmptyString)
                end in
              _ <- checknetloc netloc_valid nl ;;
              (let (url3, prm) :=
                 if (existsb (String.eqb sch) uses_params
                     && contains ";" url0)%bool
                 then splitparams url0 else (url0, EmptyString) in
               Ok (mk_parsed sch nl url3 prm qry frag))) = Ok p ->
             existsb (String.eqb (scheme p)) uses_params = false ->
             contains "#" (path p) = false /\ contains "?" (path p) = false /\
             str_forallb (fun c => negb (is_unsafe_byte c)) (path p) = true).
  { intros nl url2 H2.
    assert (Hh : exists url3 frag,
               match partition_at "#" url2 with
               | Some (b, t) => (b, t)
               | None => (url2, EmptyString)
               end = (url3, frag) /\
               contains "#" url3 = false /\
               str_forallb (fun c => negb (is_unsafe_byte c)) url3 = true).
    { destruct (partition_at "#" url2) as [[b t]|] eqn:E.
      - exists b, t. split; [reflexivity|].
        destruct (partition_at_inv _ _ _ _ E) as [_ Hb].
        destruct (partition_at_all _ _ _ _ _ H2 E) as [Hb' _]. auto.
      - exists url2, EmptyString. split; [reflexivity|].
        split; [now apply partition_at_none_inv|exact H2]. }
    destruct Hh as (url3 & frag & -> & Hh3 & Hu3).
    assert (Hq : exists url4 qry,
               match partition_at "?" url3 with
               | Some (b, t) => (b, t)
               | None => (url3, EmptyString)
               end = (url4, qry) /\
               contains "#" url4 = false /\ contains "?" url4 = false /\
               str_forallb (fun c => negb (is_unsafe_byte c)) url4 = true).
    { destruct (partition_at "?" url3) as [[b t]|] eqn:E.
      - exists b, t. split; [reflexivity|].
        destruct (partition_at_inv _ _ _ _ E) as [Hs Hb].
        destruct (partition_at_all _ _ _ _ _ Hu3 E) as [Hb' _].
        apply contains_false_iff in Hh3.
        destruct (partition_at_all _ _ _ _ _ Hh3 E) as [Hb2 _].
        apply contains_false_iff in Hb2. auto.
      - exists url3, EmptyString. split; [reflexivity|].
        split; [exact Hh3|].
        split; [now apply partition_at_none_inv|exact Hu3]. }
    destruct Hq as (url4 & qry & -> & Hh4 & Hq4 & Hu4).
    unfold bind. destruct (checknetloc netloc_valid nl); [|discriminate].
    destruct (existsb (String.eqb sch) uses_params && contains ";" url4)%bool
      eqn:Eparams.
    - destruct (splitparams url4) as [url5 prm]. intros [= <-] Hf.
      cbn [scheme] in Hf.
      apply andb_true_iff in Eparams as [Ep _]. congruence.
    - intros [= <-] _. cbn [path]. auto. }
  destruct (starts_with "//" url1).
  - pose proof (splitnetloc_all _ _ (drop_all _ 2 _ H1)) as H2.
    destruct (splitnetloc (drop 2 url1)) as [nl rest]. simpl in H2.
    unfold bind at 1. unfold bind at 1.
    destruct (check_brackets netloc_valid nl); [|discriminate].
    apply Hrest, H2.
  - unfold bind at 1. apply Hrest, H1.
Qed.

(** X15.  Whatever the lenient decoder returns as an id has no [/ ? #] and
    no tab, carriage return or line feed, for every input URI; and
    re-encoding it in the simple form [dify://dataset/{id}] decodes to the
    same id again. *)
Theorem X15_decoded_id_is_one_clean_segment :
  forall netloc_valid u kb,
    _parse_uri netloc_valid u = Ok (Some kb) ->
    is_simple_id kb = true /\
    _parse_uri netloc_valid ("dify://dataset/" ++ kb) = Ok (Some kb).
Proof.
  intros nv u kb H.
  assert (Hsimple : is_simple_id kb = true).
  { unfold _parse_uri, try_except, bind in H.
    destruct (urlparse nv u) as [p|e] eqn:E; [|discriminate].
    destruct (String.eqb_spec (scheme p) "dify") as [Hs|Hs]; simpl in H;
      [|discriminate].
    injection H as <-.
    destruct (urlparse_path_chars nv u p E) as (Hh & Hq & Hu).
    { rewrite Hs. reflexivity. }
    pose proof (last_In _ (str_split "/" (path p)) EmptyString
                        (str_split_nonempty "/" (path p))) as Hin.
    fold (last_part (str_split "/" (path p))) in Hin.
    pose proof (str_split_no_sep "/" (path p)) as Hsl.
    rewrite Forall_forall in Hsl. specialize (Hsl _ Hin).
    assert (Hall : str_forallb
                     (fun c => negb (Ascii.eqb c "#") && negb (Ascii.eqb c "?")
                               && negb (is_unsafe_byte c)) (path p) = true).
    { apply contains_false_iff in Hh, Hq. clear - Hh Hq Hu.
      induction (path p) as [|a s IH]; simpl in *; [reflexivity|].
      apply andb_true_iff in Hh as [-> Hh], Hq as [-> Hq], Hu as [-> Hu].
      simpl. now apply IH. }
    pose proof (str_split_all _ "/" (path p) Hall) as Hparts.
    rewrite Forall_forall in Hparts. specialize (Hparts _ Hin).
    apply contains_false_iff in Hsl.
    unfold is_simple_id. clear - Hsl Hparts.
    induction (last_part (str_split "/" (path p))) as [|a s IH]; simpl in *;
      [reflexivity|].
    apply andb_true_iff in Hsl as [Ha Hsl], Hparts as [Hb Hparts].
    rewrite (IH Hsl Hparts), andb_true_r.
    apply andb_true_iff in Hb as [Hb Hu]. apply andb_true_iff in Hb as [Hh Hq].
    rewrite Hu, andb_true_r. unfold is_netloc_delim.
    apply negb_true_iff in Ha, Hh, Hq. now rewrite Ha, Hh, Hq. }
  split; [exact Hsimple|]. now apply _parse_uri_simple_form.
Qed.

Lemma X15_decoded_id_is_one_clean_segment_witness :
  is_simple_id "c" = true /\
  _parse_uri no_netloc_check "dify://dataset/c" = Ok (Some "c"%string).
Proof.
  apply (X15_decoded_id_is_one_clean_segment no_netloc_check
           " DIFY://host/a/b/c?x=1#frag"). reflexivity.
Defined.

(** * Repeated resources *)

Lemma target_of_uri netloc_valid x y :
  uri y = uri x -> target_of netloc_valid y = target_of netloc_valid x.
Proof. unfold target_of. now intros ->. Qed.

Lemma targets_from_snoc_seen netloc_valid l x :
  (exists y, In y l /\ uri y = uri x) ->
  targets_from netloc_valid (l ++ [x]) [] = targets_from netloc_valid l [].
Proof.
  intros (y & Hy & Hu). unfold targets_from at 1. rewrite fold_left_app.
  fold (targets_from netloc_valid l []). simpl.
  destruct (target_of netloc_valid x) as [kb|] eqn:Ex; [|reflexivity].
  rewrite <- (target_of_uri netloc_valid x y Hu) in Ex.
  pose proof (targets_from_complete netloc_valid l [] y kb Hy Ex) as Hin.
  apply existsb_eqb_In in Hin. now rewrite Hin.
Qed.

(** X16.  Naming a knowledge base twice changes nothing: appending to a
    non-empty resource list a resource whose URI already occurs in it gives
    the same result of [retrieve] (the knowledge base is queried once). *)
Theorem X16_repeated_resource_changes_nothing :
  forall netloc_valid str_lower py w self query r rs x,
    (exists y, In y (r :: rs) /\ uri y = uri x) ->
    query_relevant_documents netloc_valid str_lower py w self query
      ((r :: rs) ++ [x]) =
    query_relevant_documents netloc_valid str_lower py w self query (r :: rs).
Proof.
  intros nv lower py w self query r rs x H.
  unfold query_relevant_documents.
  change ((r :: rs) ++ [x]) with (r :: (rs ++ [x])).
  rewrite !resolve_explicit.
  change (r :: (rs ++ [x])) with ((r :: rs) ++ [x]).
  now rewrite (targets_from_snoc_seen nv (r :: rs) x H).
Qed.

Lemma X16_repeated_resource_changes_nothing_witness :
  query_relevant_documents no_netloc_check lower_ascii example_python world_AB
    provider0 "revenue"
    (resources_ACB ++ [mk_resource "dify://dataset/kbA" "again" ""]) =
  query_relevant_documents no_netloc_check lower_ascii example_python world_AB
    provider0 "revenue" resources_ACB.
Proof.
  apply (X16_repeated_resource_changes_nothing no_netloc_check lower_ascii
           example_python world_AB provider0 "revenue"%string
           (res_of "dify://dataset/kbA")
           [res_of "dify://dataset/kbC"; res_of "dify://dataset/kbB"]).
  exists (res_of "dify://dataset/kbA"). split; [now left|reflexivity].
Defined.

(** * Construction *)

(** X17.  A provider is constructed only from an environment in which
    [DIFY_API_URL] and [DIFY_API_KEY] are set and not empty, and it holds
    exactly these two values; [DIFY_API_URL] is checked first.  Each of the
    two integer settings is 10 when its variable is unset or empty, and
    [int] of its text otherwise (a text [int] rejects makes the constructor
    raise). *)
Theorem X17_constructor_requires_url_and_key :
  forall (py_int : string -> result Z) (getenv : string -> option string),
    (truthy_opt (getenv "DIFY_API_URL"%string) = false ->
     __init__ py_int getenv =
     Raise (mk_exn PyValueError "DIFY_API_URL is not set")) /\
    (truthy_opt (getenv "DIFY_API_URL"%string) = true ->
     truthy_opt (getenv "DIFY_API_KEY"%string) = false ->
     __init__ py_int getenv =
     Raise (mk_exn PyValueError "DIFY_API_KEY is not set")) /\
    (forall p,
        __init__ py_int getenv = Ok p ->
        getenv "DIFY_API_URL"%string = Some (api_url p) /\
        api_url p <> ""%string /\
        getenv "DIFY_API_KEY"%string = Some (api_key p) /\
        api_key p <> ""%string /\
        int_setting py_int getenv "DIFY_PAGE_SIZE" 10 = Ok (page_size p) /\
        int_setting py_int getenv "DIFY_MAX_KNOWLEDGE_BASES" 10
          = Ok (max_knowledge_bases p)) /\
    (forall name default,
        truthy_opt (getenv name) = false ->
        int_setting py_int getenv name default = Ok default).
Proof.
  intros py_int getenv. unfold __init__.
  split; [now intros ->|]. split; [now intros -> ->|]. split.
  - intros p.
    destruct (getenv "DIFY_API_URL"%string) as [u|] eqn:Eu; simpl;
      [|discriminate].
    destruct (truthy u) eqn:Tu; simpl; [|discriminate].
    destruct (getenv "DIFY_API_KEY"%string) as [k|] eqn:Ek; simpl;
      [|discriminate].
    destruct (truthy k) eqn:Tk; simpl; [|discriminate].
    unfold bind.
    destruct (int_setting py_int getenv "DIFY_PAGE_SIZE" 10) as [ps|];
      [|discriminate].
    destruct (int_setting py_int getenv "DIFY_MAX_KNOWLEDGE_BASES" 10) as [mk|];
      [|discriminate].
    intros [= <-]. simpl.
    unfold truthy in Tu, Tk. apply negb_true_iff in Tu, Tk.
    apply String.eqb_neq in Tu, Tk. auto 10.
  - intros name default H. unfold int_setting. now rewrite H.
Qed.

Lemma X17_constructor_requires_url_and_key_witness :
  __init__ int_of_numeral env_example =
    Ok (mk_provider "http://dify/v1" "key" 10 3) /\
  api_url (mk_provider "http://dify/v1" "key" 10 3) <> ""%string.
Proof.
  split; [reflexivity|].
  destruct (X17_constructor_requires_url_and_key int_of_numeral env_example)
    as (_ & _ & H & _).
  apply (H (mk_provider "http://dify/v1" "key" 10 3)). reflexivity.
Defined.

(** * Provenance of the returned documents *)

Lemma one_per_record_origin py kb off fs : forall n d,
  In d (one_per_record py kb off n fs) ->
  exists f i, In f fs /\ d = document_of_record py kb off i f.
Proof.
  induction fs as [|f fs IH]; intros n d; simpl; [tauto|].
  intros [<-|H].
  - exists f, n. auto.
  - destruct (IH _ _ H) as (f' & i & Hf & ->). exists f', i. auto.
Qed.

Lemma source_documents_origin py w self query kb off d :
  In d (source_documents py w self query kb off) ->
  exists f i, d = document_of_record py kb off i f.
Proof.
  unfold source_documents.
  destruct (source_payload w self query kb) as [v|]; [|intros []].
  rewrite parse_response_one_per_record.
  destruct (payload_fields v) as [fs|e]; [|intros []].
  cbn [bind]. intros H.
  apply one_per_record_origin in H as (f & i & _ & ->). eauto.
Qed.

Lemma target_of_truthy netloc_valid r kb :
  target_of netloc_valid r = Some kb -> truthy kb = true.
Proof.
  unfold target_of.
  destruct (_parse_uri netloc_valid (uri r)) as [[k|]|]; try discriminate.
  destruct (truthy k) eqn:E; [|discriminate]. now intros [= <-].
Qed.

Lemma resolve_targets_truthy netloc_valid str_lower w self resources ids :
  resolve_targets netloc_valid str_lower w self resources = Ok ids ->
  forall kb, In kb ids -> truthy kb = true.
Proof.
  intros H kb Hkb.
  assert (Hsound : exists l, ids = targets_from netloc_valid l []).
  { destruct resources as [|r rs].
    - apply resolve_fallback in H as (listing & _ & ->).
      exists (slice_to (max_knowledge_bases self) listing). reflexivity.
    - rewrite resolve_explicit in H. injection H as <-.
      exists (r :: rs). reflexivity. }
  destruct Hsound as [l ->].
  apply targets_from_sound in Hkb as [[]|(r & _ & Hr)].
  now apply (target_of_truthy netloc_valid r).
Qed.

(** X18.  Every Document [retrieve] returns names the knowledge base it
    came from: for one of the resolved targets [kb], its id is
    [{kb}_{document_id}_{number}] and its title is the string
    [[{kb}] {name}]. *)
Theorem X18_documents_name_their_knowledge_base :
  forall netloc_valid str_lower py w self query resources res,
    query_relevant_documents netloc_valid str_lower py w self query resources
      = Ok res ->
    exists ids,
      resolve_targets netloc_valid str_lower w self resources = Ok ids /\
      Forall (fun d =>
                exists kb orig name n,
                  In kb ids /\
                  id d = (kb ++ "_" ++ orig ++ "_" ++ str_of_Z n)%string /\
                  doc_title d = JStr ("[" ++ kb ++ "] " ++ name)%string)
             res.
Proof.
  intros nv lower py w self query resources res H.
  apply retrieve_ok_inv in H as (ids & Hres & _ & H).
  apply rank_and_truncate_ok in H as (sorted & _ & -> & Hp).
  exists ids. split; [exact Hres|].
  apply Forall_forall. intros d Hd.
  apply (prefix_In _ _ _ _ (slice_to_prefix _ _ _)) in Hd.
  apply (Permutation_in _ Hp) in Hd.
  apply union_documents_origin in Hd as (kb & off & Hin & _ & Hd).
  apply source_documents_origin in Hd as (f & i & ->).
  pose proof (resolve_targets_truthy nv lower w self resources ids Hres kb Hin)
    as Ht.
  exists kb, (py_str py (f_doc_id f)), (py_str py (f_name f)).
  exists (off + Z.of_nat i).
  split; [exact Hin|]. split; [reflexivity|].
  simpl. unfold record_title. now rewrite Ht.
Qed.

Lemma X18_documents_name_their_knowledge_base_witness :
  exists ids,
    resolve_targets no_netloc_check lower_ascii world_AB provider_small
      [res_of "dify://dataset/kbA"] = Ok ids /\
    Forall (fun d =>
              exists kb orig name n,
                In kb ids /\
                id d = (kb ++ "_" ++ orig ++ "_" ++ str_of_Z n)%string /\
                doc_title d = JStr ("[" ++ kb ++ "] " ++ name)%string)
      [ doc1 "kbA_d1_0" "[kbA] report" "first" (9 # 10) ].
Proof.
  apply (X18_documents_name_their_knowledge_base no_netloc_check lower_ascii
           example_python world_AB provider_small "revenue").
  reflexivity.
Defined.

(** X19.  A provider constructed from an environment in which
    [DIFY_PAGE_SIZE] is unset or empty returns at most ten documents per
    resolved knowledge base. *)
Theorem X19_default_budget :
  forall py_int getenv netloc_valid str_lower py w self query resources ids
         res,
    __init__ py_int getenv = Ok self ->
    truthy_opt (getenv "DIFY_PAGE_SIZE"%string) = false ->
    resolve_targets netloc_valid str_lower w self resources = Ok ids ->
    query_relevant_documents netloc_valid str_lower py w self query resources
      = Ok res ->
    Z.of_nat (length res) <= 10 * Z.of_nat (length ids).
Proof.
  intros py_int getenv nv lower py w self query resources ids res Hi Hp Hres H.
  assert (Hps : page_size self = 10).
  { unfold __init__ in Hi.
    destruct (negb (truthy_opt (getenv "DIFY_API_URL"%string)));
      [discriminate|].
    destruct (negb (truthy_opt (getenv "DIFY_API_KEY"%string)));
      [discriminate|].
    unfold int_setting at 1 in Hi. rewrite Hp in Hi. simpl in Hi.
    destruct (int_setting py_int getenv "DIFY_MAX_KNOWLEDGE_BASES" 10);
      [|discriminate].
    simpl in Hi. now injection Hi as <-. }
  rewrite (retrieve_resolved _ _ _ _ _ _ _ _ Hres) in H.
  destruct ids as [|k ids]; [discriminate|].
  apply rank_and_truncate_ok in H as (sorted & _ & -> & _).
  rewrite Hps. apply slice_to_length. lia.
Qed.

Lemma X19_default_budget_witness :
  Z.of_nat (length
    [ doc1 "kbA_d1_0" "[kbA] report" "first" (9 # 10);
      doc1 "kbA_d1_1" "[kbA] report" "second" (4 # 10) ])
  <= 10 * Z.of_nat (length ["kbA"%string]).
Proof.
  apply (X19_default_budget int_of_numeral env_example no_netloc_check
           lower_ascii example_python world_AB
           (mk_provider "http://dify/v1" "key" 10 3)
           "revenue" [res_of "dify://dataset/kbA"]); reflexivity.
Defined.

(** * The PPT generator node *)

Lemma ppt_node_past_check h f st cwd uuid :
  let p := get_default (PptNode.ppt_file_path st) EmptyString in
  let g := PptNode.path_join cwd ("generated_ppt_" ++ uuid ++ ".pptx") in
  truthy p = true -> f p = true ->
  PptNode.getcwd h = PptNode.Returned cwd ->
  PptNode.uuid4 h = PptNode.Returned uuid ->
  exists done f1 converted log2 log4,
    PptNode.run_marp h f p g = (done, f1) /\
    PptNode.convert h done f1 g = (converted, log2) /\
    PptNode.ppt_generator_node h f st =
    PptNode.mk_run
      (match converted with
       | PptNode.Returned _ => PptNode.Returned g
       | PptNode.Raised e => PptNode.Raised e
       end)
      (fst (PptNode.cleanup h f1 p))
      [PptNode.marp_command p g]
      log4.
Proof.
  intros p g Ht Hf Hcwd Hu. unfold PptNode.ppt_generator_node. fold p.
  rewrite Ht, Hf, Hcwd, Hu. cbn [negb orb]. fold g.
  destruct (PptNode.run_marp h f p g) as [done f1] eqn:Er.
  destruct (PptNode.convert h done f1 g) as [converted log2] eqn:Ec.
  destruct (PptNode.cleanup h f1 p) as [f2 log3] eqn:Ecl.
  exists done, f1, converted, log2.
  destruct converted; eexists;
    (split; [reflexivity|split; [exact Ec|rewrite Ecl; reflexivity]]).
Qed.

(** Lines 33-35 raise: the node stops before the [try]. *)
Lemma ppt_node_no_output_path h f st e :
  let p := get_default (PptNode.ppt_file_path st) EmptyString in
  truthy p = true -> f p = true ->
  (PptNode.getcwd h = PptNode.Raised e \/
   exists cwd, PptNode.getcwd h = PptNode.Returned cwd /\
               PptNode.uuid4 h = PptNode.Raised e) ->
  PptNode.result (PptNode.ppt_generator_node h f st) = PptNode.Raised e /\
  PptNode.files (PptNode.ppt_generator_node h f st) = f /\
  PptNode.commands (PptNode.ppt_generator_node h f st) = [].
Proof.
  intros p Ht Hf H. unfold PptNode.ppt_generator_node. fold p.
  rewrite Ht, Hf. cbn [negb orb].
  destruct H as [-> | (cwd & -> & ->)]; repeat split.
Qed.

(** X20.  Once the input file was found and the output path was built, the
    node removes the input in every outcome: whether [marp] succeeds,
    exits with an error or cannot be started, the input path no longer
    exists afterwards, provided [os.remove] itself does not fail.  When
    [os.getcwd] or [uuid.uuid4] raises, the node raises that exception
    before the [try]: it runs no command and leaves the input file. *)
Theorem X20_input_file_is_consumed :
  forall h f st,
    let p := get_default (PptNode.ppt_file_path st) EmptyString in
    let run := PptNode.ppt_generator_node h f st in
    p <> ""%string -> f p = true ->
    (forall f', PptNode.remove_error h f' p = None) ->
    (forall cwd uuid,
        PptNode.getcwd h = PptNode.Returned cwd ->
        PptNode.uuid4 h = PptNode.Returned uuid ->
        PptNode.files run p = false /\ PptNode.commands run <> []) /\
    (forall e,
        (PptNode.getcwd h = PptNode.Raised e \/
         exists cwd, PptNode.getcwd h = PptNode.Returned cwd /\
                     PptNode.uuid4 h = PptNode.Raised e) ->
        PptNode.result run = PptNode.Raised e /\
        PptNode.files run p = true /\ PptNode.commands run = []).
Proof.
  intros h f st p run Hne Hf Hrm. unfold run.
  assert (Ht : truthy p = true).
  { unfold truthy. apply negb_true_iff. now apply String.eqb_neq. }
  split.
  - intros cwd uuid Hcwd Hu.
    destruct (ppt_node_past_check h f st cwd uuid Ht Hf Hcwd Hu)
      as (done & f1 & converted & log2 & log4 & _ & _ & ->).
    simpl. split; [|discriminate].
    unfold PptNode.cleanup. fold p. destruct (f1 p) eqn:E; simpl; [|exact E].
    rewrite Hrm. simpl. unfold PptNode.fs_remove.
    now rewrite String.eqb_refl.
  - intros e He.
    destruct (ppt_node_no_output_path h f st e Ht Hf He) as (-> & -> & ->).
    auto.
Qed.

Lemma X20_input_file_is_consumed_witness :
  PptNode.files
    (PptNode.ppt_generator_node PptNode.host_failing PptNode.fs_with_input
       (PptNode.mk_state (Some "/tmp/in.md"%string))) "/tmp/in.md" = false /\
  PptNode.result
    (PptNode.ppt_generator_node PptNode.host_failing PptNode.fs_with_input
       (PptNode.mk_state (Some "/tmp/in.md"%string))) =
  PptNode.Raised
    (PptNode.RuntimeError "Marp conversion failed: bad markdown") /\
  PptNode.files
    (PptNode.ppt_generator_node PptNode.host_no_cwd PptNode.fs_with_input
       (PptNode.mk_state (Some "/tmp/in.md"%string))) "/tmp/in.md" = true.
Proof.
  split; [|split; [reflexivity|]].
  - apply (X20_input_file_is_consumed PptNode.host_failing
             PptNode.fs_with_input
             (PptNode.mk_state (Some "/tmp/in.md"%string)))
      with (cwd := "/work"%string) (uuid := "0000"%string);
      [discriminate|reflexivity|reflexivity|reflexivity|reflexivity].
  - apply (X20_input_file_is_consumed PptNode.host_no_cwd
             PptNode.fs_with_input
             (PptNode.mk_state (Some "/tmp/in.md"%string)))
      with (e := PptNode.FileNotFoundError
                   "[Errno 2] No such file or directory");
      [discriminate|reflexivity|reflexivity|left; reflexivity].
Defined.

Lemma ppt_cleanup_keeps_others h f1 p q :
  q <> p -> fst (PptNode.cleanup h f1 p) q = f1 q.
Proof.
  intros Hne. unfold PptNode.cleanup.
  destruct (f1 p); [|reflexivity].
  destruct (PptNode.remove_error h f1 p); [reflexivity|].
  simpl. unfold PptNode.fs_remove.
  apply String.eqb_neq in Hne. now rewrite Hne.
Qed.

Lemma ppt_node_missing_input h f st :
  let p := get_default (PptNode.ppt_file_path st) EmptyString in
  (truthy p = false \/ f p = false) ->
  PptNode.ppt_generator_node h f st =
  PptNode.mk_run
    (PptNode.Raised
       (PptNode.FileNotFoundError ("PPT file not found: " ++ p)%string))
    f []
    [(PptNode.INFO, "Generating ppt file..."%string);
     (PptNode.ERROR, ("PPT file not found: " ++ p)%string)].
Proof.
  intros p H. unfold PptNode.ppt_generator_node. fold p.
  destruct H as [-> | ->]; [reflexivity|].
  now rewrite orb_true_r.
Qed.

(** The three ways through lines 33-35. *)
Lemma ppt_output_path_cases h :
  (exists e, PptNode.getcwd h = PptNode.Raised e) \/
  (exists cwd e, PptNode.getcwd h = PptNode.Returned cwd /\
                 PptNode.uuid4 h = PptNode.Raised e) \/
  (exists cwd uuid, PptNode.getcwd h = PptNode.Returned cwd /\
                    PptNode.uuid4 h = PptNode.Returned uuid).
Proof.
  destruct (PptNode.getcwd h) as [cwd|e]; [|left; eauto].
  destruct (PptNode.uuid4 h) as [uuid|e]; right; [right|left]; eauto.
Qed.

(** X21.  When the node returns, the path it returns is
    [{cwd}/generated_ppt_{uuid}.pptx]; the input file existed; [marp] was
    run once, on the input with that output path, and exited with status
    0; the output file existed after [marp] ran and, being another path
    than the input, still exists after the input was cleaned up. *)
Theorem X21_successful_run :
  forall h f st g,
    PptNode.result (PptNode.ppt_generator_node h f st) = PptNode.Returned g ->
    let p := get_default (PptNode.ppt_file_path st) EmptyString in
    (exists cwd uuid,
        PptNode.getcwd h = PptNode.Returned cwd /\
        PptNode.uuid4 h = PptNode.Returned uuid /\
        g = PptNode.path_join cwd ("generated_ppt_" ++ uuid ++ ".pptx")) /\
    p <> ""%string /\ f p = true /\
    PptNode.commands (PptNode.ppt_generator_node h f st)
      = [["marp"; p; "-o"; g; "--no-stdin"; "--allow-local-files"]%string] /\
    (exists stdout stderr f1,
        PptNode.run_marp h f p g = (PptNode.Completed stdout stderr, f1) /\
        f1 g = true) /\
    (g <> p -> PptNode.files (PptNode.ppt_generator_node h f st) g = true).
Proof.
  intros h f st g H p.
  destruct (truthy p) eqn:Ht.
  2:{ rewrite (ppt_node_missing_input h f st) in H by (left; exact Ht).
      discriminate. }
  destruct (f p) eqn:Hf.
  2:{ rewrite (ppt_node_missing_input h f st) in H by (right; exact Hf).
      discriminate. }
  destruct (ppt_output_path_cases h)
    as [(e & He)|[(cwd & e & Hcwd & He)|(cwd & uuid & Hcwd & Hu)]].
  { destruct (ppt_node_no_output_path h f st e Ht Hf (or_introl He))
      as (Hr & _). rewrite Hr in H. discriminate. }
  { destruct (ppt_node_no_output_path h f st e Ht Hf
                (or_intror (ex_intro _ cwd (conj Hcwd He)))) as (Hr & _).
    rewrite Hr in H. discriminate. }
  destruct (ppt_node_past_check h f st cwd uuid Ht Hf Hcwd Hu)
    as (done & f1 & converted & log2 & log4 & Er & Ec & Hrun).
  fold p in Er, Hrun. rewrite Hrun in *. cbn [PptNode.result] in H.
  destruct converted as [[]|e]; [|discriminate]. injection H as <-.
  assert (Hdone : exists stdout stderr,
             done = PptNode.Completed stdout stderr /\
             f1 (PptNode.path_join cwd
                   ("generated_ppt_" ++ uuid ++ ".pptx")) = true).
  { unfold PptNode.convert in Ec.
    destruct done as [out err|err|e]; try discriminate.
    destruct (f1 _) eqn:E; cbn [negb] in Ec; [|discriminate]. eauto. }
  destruct Hdone as (out & err & -> & Hg).
  split; [exists cwd, uuid; auto|]. split.
  { unfold truthy in Ht. apply negb_true_iff in Ht.
    now apply String.eqb_neq. }
  split; [reflexivity|]. split; [reflexivity|]. split.
  - exists out, err, f1. auto.
  - intros Hne. cbn [PptNode.files]. now rewrite ppt_cleanup_keeps_others.
Qed.

Lemma X21_successful_run_witness :
  PptNode.result
    (PptNode.ppt_generator_node PptNode.host_ok PptNode.fs_with_input
       (PptNode.mk_state (Some "/tmp/in.md"%string))) =
    PptNode.Returned "/work/generated_ppt_0000.pptx"%string /\
  PptNode.files
    (PptNode.ppt_generator_node PptNode.host_ok PptNode.fs_with_input
       (PptNode.mk_state (Some "/tmp/in.md"%string)))
    "/work/generated_ppt_0000.pptx" = true.
Proof.
  split; [reflexivity|].
  destruct (X21_successful_run PptNode.host_ok PptNode.fs_with_input
              (PptNode.mk_state (Some "/tmp/in.md"%string))
              "/work/generated_ppt_0000.pptx"%string eq_refl)
    as (_ & _ & _ & _ & _ & H).
  apply H. discriminate.
Defined.

(** X22.  What the node raises.  A missing input (no path, an empty path
    or a path that does not exist) raises [FileNotFoundError] before any
    command is run and leaves the file system alone.  So does an exception
    of [os.getcwd] or [uuid.uuid4], which is raised unchanged.  After
    that: a non-zero exit of [marp] raises [RuntimeError("Marp conversion
    failed: {stderr}")]; an exit 0 without the output file raises
    [FileNotFoundError("Generated PPT file not found: {path}")]; any other
    exception of the host is raised unchanged. *)
Theorem X22_failed_run :
  forall h f st e,
    PptNode.result (PptNode.ppt_generator_node h f st) = PptNode.Raised e ->
    let p := get_default (PptNode.ppt_file_path st) EmptyString in
    ((p = ""%string \/ f p = false) /\
     e = PptNode.FileNotFoundError ("PPT file not found: " ++ p)%string /\
     PptNode.commands (PptNode.ppt_generator_node h f st) = [] /\
     PptNode.files (PptNode.ppt_generator_node h f st) = f) \/
    (p <> ""%string /\ f p = true /\
     (PptNode.getcwd h = PptNode.Raised e \/
      exists cwd, PptNode.getcwd h = PptNode.Returned cwd /\
                  PptNode.uuid4 h = PptNode.Raised e) /\
     PptNode.commands (PptNode.ppt_generator_node h f st) = [] /\
     PptNode.files (PptNode.ppt_generator_node h f st) = f) \/
    (exists cwd uuid,
       PptNode.getcwd h = PptNode.Returned cwd /\
       PptNode.uuid4 h = PptNode.Returned uuid /\
       let g := PptNode.path_join cwd
                  ("generated_ppt_" ++ uuid ++ ".pptx") in
       p <> ""%string /\ f p = true /\
       PptNode.commands (PptNode.ppt_generator_node h f st)
         = [PptNode.marp_command p g] /\
       ((exists stderr f1,
            PptNode.run_marp h f p g
              = (PptNode.CalledProcessError stderr, f1) /\
            e = PptNode.RuntimeError
                  ("Marp conversion failed: " ++ stderr)%string) \/
        (exists stdout stderr f1,
            PptNode.run_marp h f p g = (PptNode.Completed stdout stderr, f1) /\
            f1 g = false /\
            e = PptNode.FileNotFoundError
                  ("Generated PPT file not found: " ++ g)%string) \/
        (exists stdout stderr f1,
            PptNode.run_marp h f p g = (PptNode.Completed stdout stderr, f1) /\
            f1 g = true /\ PptNode.getsize h f1 g = PptNode.Raised e) \/
        (exists f1, PptNode.run_marp h f p g = (PptNode.SpawnFailed e, f1)))).
Proof.
  intros h f st e H p.
  destruct (truthy p) eqn:Ht.
  2:{ left. rewrite (ppt_node_missing_input h f st) in * by (left; exact Ht).
      simpl in *. injection H as <-.
      unfold truthy in Ht. apply negb_false_iff, String.eqb_eq in Ht. auto. }
  destruct (f p) eqn:Hf.
  2:{ left. rewrite (ppt_node_missing_input h f st) in * by (right; exact Hf).
      simpl in *. injection H as <-. auto. }
  right.
  assert (Hne : p <> ""%string).
  { unfold truthy in Ht. apply negb_true_iff in Ht.
    now apply String.eqb_neq. }
  destruct (ppt_output_path_cases h)
    as [(e0 & He)|[(cwd & e0 & Hcwd & He)|(cwd & uuid & Hcwd & Hu)]].
  { left.
    destruct (ppt_node_no_output_path h f st e0 Ht Hf (or_introl He))
      as (Hr & Hfs & Hc).
    rewrite Hr in H. injection H as ->. auto. }
  { left.
    destruct (ppt_node_no_output_path h f st e0 Ht Hf
                (or_intror (ex_intro _ cwd (conj Hcwd He))))
      as (Hr & Hfs & Hc).
    rewrite Hr in H. injection H as ->.
    split; [exact Hne|]. split; [reflexivity|]. split; [|auto].
    right. exists cwd. auto. }
  right. exists cwd, uuid. split; [exact Hcwd|]. split; [exact Hu|].
  intros g.
  destruct (ppt_node_past_check h f st cwd uuid Ht Hf Hcwd Hu)
    as (done & f1 & converted & log2 & log4 & Er & Ec & Hrun).
  fold p g in Er, Ec, Hrun. rewrite Hrun in *. simpl in H.
  destruct converted as [[]|e']; [discriminate|]. injection H as ->.
  split; [exact Hne|].
  split; [reflexivity|]. split; [reflexivity|].
  unfold PptNode.convert in Ec.
  destruct done as [out err|err|e0].
  - destruct (f1 g) eqn:Eg; simpl in Ec.
    + destruct (PptNode.getsize h f1 g) as [sz|e0] eqn:Es; [discriminate|].
      injection Ec as -> _. right. right. left. exists out, err, f1. auto.
    + injection Ec as <- _. right. left. exists out, err, f1. auto.
  - injection Ec as <- _. left. exists err, f1. auto.
  - injection Ec as -> _. right. right. right. exists f1. exact Er.
Qed.

Lemma X22_failed_run_witness :
  PptNode.commands
    (PptNode.ppt_generator_node PptNode.host_ok PptNode.fs_with_input
       (PptNode.mk_state (Some "/tmp/other.md"%string))) = [].
Proof.
  destruct (X22_failed_run PptNode.host_ok PptNode.fs_with_input
              (PptNode.mk_state (Some "/tmp/other.md"%string))
              (PptNode.FileNotFoundError "PPT file not found: /tmp/other.md")
              eq_refl)
    as [(_ & _ & H & _)|[(_ & _ & _ & H & _)|(cwd & uuid & _ & _ & Hg)]].
  - exact H.
  - exact H.
  - destruct Hg as (_ & Hf & _). vm_compute in Hf. discriminate Hf.
Defined.

(** * Numbering and errors of one call *)

(** X23.  The documents one call accumulates are numbered consecutively
    from 0 in arrival order, across knowledge bases and skipping nothing
    for a source that failed: the [i]-th accumulated document has an id
    whose last [_]-separated field is the decimal of [i]. *)
Theorem X23_accumulated_ids_are_numbered :
  forall py w self query ids,
    map (fun d => id_suffix (id d))
        (all_documents (fan_out py w self query ids fanout_init)) =
    map (fun i => str_of_Z (Z.of_nat i))
        (seq 0 (length (all_documents
                          (fan_out py w self query ids fanout_init)))).
Proof.
  intros py w self query ids.
  destruct (fan_out_from_init py w self query ids) as [-> _].
  apply (union_documents_suffixes py w self query ids 0).
Qed.

(** X24.  The errors of [retrieve]: "No knowledge bases available for
    querying", when no target was resolved; on the fallback path, "Failed
    to get knowledge bases: ..." wrapping the error of [list_resources];
    and, once at least one target is resolved, what the sort of line 141
    raises on the accumulated documents, which no handler catches.  When
    every score of the accumulated documents is a number other than NaN
    the sort does not raise and [retrieve] returns, whatever else the
    sources answer. *)
Theorem X24_errors_of_retrieve :
  forall netloc_valid str_lower py w self query resources,
    (forall e,
        query_relevant_documents netloc_valid str_lower py w self query
          resources = Raise e ->
        (resolve_targets netloc_valid str_lower w self resources = Ok [] /\
         e = mk_exn PyException "No knowledge bases available for querying") \/
        (resources = [] /\
         exists e0,
           list_resources str_lower w self None = Raise e0 /\
           e = mk_exn PyException
                 ("Failed to get knowledge bases: " ++ exn_msg e0)%string) \/
        (exists ids,
            resolve_targets netloc_valid str_lower w self resources = Ok ids /\
            ids <> [] /\
            list_sort_reverse py
              (all_documents (fan_out py w self query ids fanout_init))
            = Raise e)) /\
    (forall ids,
        resolve_targets netloc_valid str_lower w self resources = Ok ids ->
        ids <> [] ->
        forallb scored
                (all_documents (fan_out py w self query ids fanout_init))
        = true ->
        exists res,
          query_relevant_documents netloc_valid str_lower py w self query
            resources = Ok res).
Proof.
  intros nv lower py w self query resources. split.
  - intros e H.
    destruct (resolve_targets nv lower w self resources) as [ids|e1] eqn:E.
    + rewrite (retrieve_resolved _ _ _ _ _ _ _ _ E) in H.
      destruct ids as [|k ids].
      * injection H as <-. left. auto.
      * right. right. exists (k :: ids).
        split; [reflexivity|]. split; [discriminate|].
        destruct (fan_out_from_init py w self query (k :: ids)) as [-> _].
        unfold rank_and_truncate in H.
        destruct (list_sort_reverse py _) as [sorted|e']; [discriminate|].
        exact H.
    + unfold query_relevant_documents in H. rewrite E in H. simpl in H.
      injection H as <-. right. left.
      destruct resources as [|r rs].
      * split; [reflexivity|].
        unfold resolve_targets, try_except, bind in E.
        destruct (list_resources lower w self None) as [listing|e0].
        -- rewrite for_each_add_target in E. discriminate.
        -- exists e0. split; [reflexivity|]. now injection E as <-.
      * rewrite resolve_explicit in E. discriminate.
  - intros ids E Hne Hsc. rewrite (retrieve_resolved _ _ _ _ _ _ _ _ E).
    destruct ids as [|k ids]; [congruence|].
    destruct (fan_out_from_init py w self query (k :: ids)) as [Ea _].
    rewrite Ea in Hsc.
    rewrite (rank_and_truncate_scored py self _ _ Hsc). eauto.
Qed.

Lemma X24_errors_of_retrieve_witness :
  (exists res,
      query_relevant_documents no_netloc_check lower_ascii example_python
        world_down provider0 "revenue" resources_ACB = Ok res) /\
  (exists ids,
      resolve_targets no_netloc_check lower_ascii world_N provider0
        [res_of "dify://dataset/kbU"] = Ok ids /\
      ids <> [] /\
      list_sort_reverse example_python
        (all_documents
           (fan_out example_python world_N provider0 "revenue" ids
                    fanout_init))
      = Raise (mk_exn PyTypeError
                 ("'<' not supported between instances of "
                  ++ "'float' and 'NoneType'"))).
Proof.
  destruct (X24_errors_of_retrieve no_netloc_check lower_ascii example_python
              world_down provider0 "revenue"%string resources_ACB)
    as [_ Hok].
  destruct (X24_errors_of_retrieve no_netloc_check lower_ascii example_python
              world_N provider0 "revenue"%string
              [res_of "dify://dataset/kbU"])
    as [Hbad _].
  split.
  - apply (Hok ["kbA"; "kbC"; "kbB"]%string);
      [reflexivity|discriminate|reflexivity].
  - destruct (Hbad (mk_exn PyTypeError
                      ("'<' not supported between instances of "
                       ++ "'float' and 'NoneType'"))
                   eq_refl)
      as [[E _]|[[E _]|H]]; [discriminate E|discriminate E|exact H].
Defined.
